(** * Budgee, the budget tracker: the retrieval-augmented query pipeline

    A shallow embedding of the backend: the query pipeline
    ([backend/query_filter.py], [backend/vector_manager.py],
    [backend/rag_query.py], [backend/fingpt_queries.py]), its endpoints
    ([backend/main.py]), the configuration ([backend/config.py]) and the
    manager of the store handle ([backend/pinecone_manager.py]); the
    properties of it that the specification states, and further
    properties of the code.

    Conventions of the embedding.
    - A Python [str] is a [string] of UTF-8 bytes. [str.lower] is
      carried out on the ASCII letters: the code lower-cases a text only
      to look for ASCII words in it (or to hand it to spaCy), none of
      which has a [k] in it or ends with an [i], the two letters a
      character beyond ASCII can lower-case to.
    - An amount is a number as Python reads it from JSON: an [int] of any
      size or a [float], a binary64 value. The arithmetic of the code
      ([sum], [+], [/], [>], the [:.2f] rendering) is Python's: exact on
      ints, rounded to the nearest binary64 value (ties to even) on
      floats, with the [OverflowError] of an int too large for a float.
    - An exception is a value of [exn]; code that may raise returns a
      [result], and code that also talks to the vector store or to the
      retrieval cache is a function of the [state] (the log of store
      calls and the cache).
    - The services outside the repository (spaCy, dateparser, datetime,
      the Pinecone index, the Hugging Face endpoint) are the fields of
      [Env], the Pinecone client of the manager those of
      [PineconeManager.Client]: every theorem is stated for all of them.
    - A loop without a bound ([while True]) is run for a number of
      iterations given as fuel; [None] is the loop still running. *)

From Stdlib Require Import String Ascii ZArith QArith Qround Qabs Qpower List Bool Lia.
From Stdlib Require Import DecimalString.
From Stdlib Require Import Sorted Permutation.
From stdpp Require Import base gmap strings list.

Local Open Scope string_scope.
Local Open Scope list_scope.
Local Open Scope Z_scope.

Set Warnings "-register-all".

(** ** Python strings *)

Module PyStr.

Definition is_upper (c : ascii) : bool :=
  let n := nat_of_ascii c in (65 <=? n)%nat && (n <=? 90)%nat.

Definition lower_ascii (c : ascii) : ascii :=
  if is_upper c then ascii_of_nat (nat_of_ascii c + 32) else c.

(** [s.lower()] *)
Fixpoint lower (s : string) : string :=
  match s with
  | EmptyString => EmptyString
  | String c s' => String (lower_ascii c) (lower s')
  end.

(** The white space [str.strip] removes, in UTF-8: the ASCII characters
    tab to carriage return, the separators 28 to 31 and the space; and
    beyond ASCII the code points U+0085, U+00A0, U+1680, U+2000 to
    U+200A, U+2028, U+2029, U+202F, U+205F and U+3000. *)
Definition is_space (c : ascii) : bool :=
  let n := nat_of_ascii c in
  ((9 <=? n)%nat && (n <=? 13)%nat) || ((28 <=? n)%nat && (n <=? 32)%nat).

Definition is_space2 (c1 c2 : ascii) : bool :=
  let n2 := nat_of_ascii c2 in
  (nat_of_ascii c1 =? 194)%nat && ((n2 =? 133)%nat || (n2 =? 160)%nat).

Definition is_space3 (c1 c2 c3 : ascii) : bool :=
  let n1 := nat_of_ascii c1 in
  let n2 := nat_of_ascii c2 in
  let n3 := nat_of_ascii c3 in
  ((n1 =? 225)%nat && (n2 =? 154)%nat && (n3 =? 128)%nat)
  || ((n1 =? 226)%nat && (n2 =? 128)%nat
      && (((128 <=? n3)%nat && (n3 <=? 138)%nat)
          || (n3 =? 168)%nat || (n3 =? 169)%nat || (n3 =? 175)%nat))
  || ((n1 =? 226)%nat && (n2 =? 129)%nat && (n3 =? 159)%nat)
  || ((n1 =? 227)%nat && (n2 =? 128)%nat && (n3 =? 128)%nat).

Fixpoint lstrip (s : string) : string :=
  match s with
  | EmptyString => EmptyString
  | String c1 s1 =>
      if is_space c1 then lstrip s1
      else
        match s1 with
        | EmptyString => s
        | String c2 s2 =>
            if is_space2 c1 c2 then lstrip s2
            else
              match s2 with
              | EmptyString => s
              | String c3 s3 => if is_space3 c1 c2 c3 then lstrip s3 else s
              end
        end
  end.

(** Drop the white space at the end: what is left of [s] once nothing
    but white space follows. *)
Fixpoint rstrip (s : string) : string :=
  match s with
  | EmptyString => EmptyString
  | String c s' =>
      match lstrip s with
      | EmptyString => EmptyString
      | _ => String c (rstrip s')
      end
  end.

(** [s.strip()] *)
Definition strip (s : string) : string := rstrip (lstrip s).

(** [sub in s] for two strings *)
Fixpoint contains (sub s : string) : bool :=
  if String.prefix sub s then true
  else match s with
       | EmptyString => false
       | String _ s' => contains sub s'
       end.

(** [any(w in s for w in words)] *)
Definition any_in (words : list string) (s : string) : bool :=
  existsb (fun w => contains w s) words.

(** [s.replace(c, new)] for a one-character pattern [c] *)
Fixpoint replace_char (c : ascii) (new s : string) : string :=
  match s with
  | EmptyString => EmptyString
  | String a s' =>
      if Ascii.eqb a c then new +:+ replace_char c new s'
      else String a (replace_char c new s')
  end.

(** [sep.join(parts)] *)
Definition join (sep : string) (parts : list string) : string :=
  String.concat sep parts.

(** truthiness of a string: [bool(s)] *)
Definition truthy (s : string) : bool :=
  match s with EmptyString => false | _ => true end.

(** [chr(10)] and the double quote, which the templates contain *)
Definition nl : string := String (ascii_of_nat 10) EmptyString.
Definition dquote : string := String (ascii_of_nat 34) EmptyString.

(** [str(n)] for an [int] *)
Definition of_Z (z : Z) : string := NilZero.string_of_int (Z.to_int z).
Definition of_nat (n : nat) : string := NilZero.string_of_uint (Nat.to_uint n).

(** [repr] of a list of strings without quotes or backslashes in them:
    [['a', 'b']] *)
Definition repr_list (l : list string) : string :=
  "[" +:+ join ", " (map (fun s => "'" +:+ s +:+ "'") l) +:+ "]".

End PyStr.

(** ** Decimal rendering *)

Module Amount.

(** Round a rational to the nearest integer, ties to even. *)
Definition round_half_even (q : Q) : Z :=
  let fl := Qfloor q in
  match (2 * (q - inject_Z fl) ?= 1)%Q with
  | Lt => fl
  | Gt => fl + 1
  | Eq => if Z.even fl then fl else fl + 1
  end.

Definition two_digits (z : Z) : string :=
  if z <? 10 then "0" +:+ PyStr.of_Z z else PyStr.of_Z z.

(** The decimal expansion of a rational to two places, correctly
    rounded (ties to even): sign, integer part, a dot, two decimals.
    This is how [:.2f] prints the value of a finite float. *)
Definition fmt2 (q : Q) : string :=
  let h := round_half_even (q * 100)%Q in
  let a := Z.abs h in
  (if Qle_bool 0 q then "" else "-")
    +:+ PyStr.of_Z (a / 100) +:+ "." +:+ two_digits (a mod 100).

End Amount.

(** ** Exceptions *)

Inductive exn : Type :=
| TypeError (msg : string)
| ValueError (msg : string)
| AttributeError (msg : string)
| JSONDecodeError (msg : string)
| RequestsTimeout (msg : string)
| RequestsConnectionError (msg : string)
| OverflowError (msg : string)
| ZeroDivisionError (msg : string)
| OtherException (msg : string).

(** [str(e)] *)
Definition exn_str (e : exn) : string :=
  match e with
  | TypeError m | ValueError m | AttributeError m | JSONDecodeError m
  | RequestsTimeout m | RequestsConnectionError m | OverflowError m
  | ZeroDivisionError m | OtherException m => m
  end.

Inductive result (A : Type) : Type :=
| Ret (a : A)
| Raise (e : exn).
Arguments Ret {A} a.
Arguments Raise {A} e.

Definition bind {A B : Type} (c : result A) (k : A -> result B) : result B :=
  match c with
  | Ret a => k a
  | Raise e => Raise e
  end.

Notation "'let*' x ':=' c 'in' k" := (bind c (fun x => k))
  (at level 10, x name, c at level 100, k at level 200).

(** ** Numbers

    Python's [int] and [float]. A float is a binary64 value: not a
    number, an infinity, a zero with its sign, or a finite value other
    than zero, which is given here by the rational it stands for. The
    operations on floats return the binary64 value nearest to the exact
    result, ties to the even mantissa, an infinity beyond the largest
    finite value; the operations that turn an int into a float raise
    [OverflowError] there. *)

Module PyNum.

Inductive float : Type :=
| NaN
| Inf (neg : bool)
| Zero (neg : bool)
| Fin (q : Q).

Inductive t : Type :=
| Int (z : Z)
| Float (f : float).

(** The integer part of the binary logarithm of a positive rational. *)
Definition ilog2 (q : Q) : Z :=
  let d := Z.log2 (Qnum q) - Z.log2 (Zpos (Qden q)) in
  if Qle_bool (2 ^ d) q then d else d - 1.

(** The binary64 value nearest to the rational [q]: 53 bits of
    mantissa, exponents from -1074, ties to even; [neg0] is the sign of
    the zero that stands for [q = 0]. *)
Definition round (neg0 : bool) (q : Q) : float :=
  if Qeq_bool q 0 then Zero neg0
  else
    let neg := negb (Qle_bool 0 q) in
    let a := Qabs q in
    let e := Z.max (ilog2 a - 52) (-1074) in
    let m := Amount.round_half_even (a / 2 ^ e) in
    let v := (inject_Z m * 2 ^ e)%Q in
    if m =? 0 then Zero neg
    else if Qle_bool (2 ^ 1024) v then Inf neg
    else Fin (Qred (if neg then - v else v)).


(** [float(z)] for an int, also where an int meets a float *)
Definition to_float (z : Z) : result float :=
  match round false (inject_Z z) with
  | Inf _ => Raise (OverflowError "int too large to convert to float")
  | f => Ret f
  end.

Definition is_neg (q : Q) : bool := negb (Qle_bool 0 q).

(** [x + y] on floats *)
Definition fadd (x y : float) : float :=
  match x, y with
  | NaN, _ | _, NaN => NaN
  | Inf a, Inf b => if Bool.eqb a b then Inf a else NaN
  | Inf a, _ => Inf a
  | _, Inf b => Inf b
  | Zero a, Zero b => Zero (a && b)
  | Zero _, Fin q => Fin q
  | Fin q, Zero _ => Fin q
  | Fin p, Fin q => round false (p + q)
  end.

(** [x / y] on floats *)
Definition fdiv (x y : float) : result float :=
  match x, y with
  | _, Zero _ => Raise (ZeroDivisionError "float division by zero")
  | NaN, _ | _, NaN => Ret NaN
  | Inf _, Inf _ => Ret NaN
  | Inf a, Fin q => Ret (Inf (xorb a (is_neg q)))
  | Zero a, Inf b => Ret (Zero (xorb a b))
  | Fin p, Inf b => Ret (Zero (xorb (is_neg p) b))
  | Zero a, Fin q => Ret (Zero (xorb a (is_neg q)))
  | Fin p, Fin q => Ret (round false (p / q))
  end.

(** [x + y] *)
Definition add (x y : t) : result t :=
  match x, y with
  | Int a, Int b => Ret (Int (a + b))
  | Int a, Float g => let* f := to_float a in Ret (Float (fadd f g))
  | Float f, Int b => let* g := to_float b in Ret (Float (fadd f g))
  | Float f, Float g => Ret (Float (fadd f g))
  end.

(** [x / n] for an int [n]: the quotient of two ints is rounded once *)
Definition div (x : t) (n : Z) : result t :=
  match x with
  | Int a =>
      if n =? 0 then Raise (ZeroDivisionError "division by zero")
      else if a =? 0 then Ret (Float (Zero (n <? 0)))
      else
        match round false (inject_Z a / inject_Z n) with
        | Inf _ =>
            Raise (OverflowError "integer division result too large for a float")
        | f => Ret (Float f)
        end
  | Float f => let* g := to_float n in let* r := fdiv f g in Ret (Float r)
  end.

(** The value of a number on the line of the reals with its two
    infinities; a float that is not a number has none. *)
Inductive ext : Type :=
| NegInf
| Val (q : Q)
| PosInf.

Definition value (x : t) : option ext :=
  match x with
  | Int z => Some (Val (inject_Z z))
  | Float NaN => None
  | Float (Inf neg) => Some (if neg then NegInf else PosInf)
  | Float (Zero _) => Some (Val 0)
  | Float (Fin q) => Some (Val q)
  end.

Definition ext_ltb (a b : ext) : bool :=
  match a, b with
  | _, NegInf => false
  | NegInf, _ => true
  | PosInf, _ => false
  | Val _, PosInf => true
  | Val p, Val q => negb (Qle_bool q p)
  end.

(** [x > y]: by value, whatever the types; false when either is not a
    number *)
Definition gt (x y : t) : bool :=
  match value x, value y with
  | Some a, Some b => ext_ltb b a
  | _, _ => false
  end.

(** [f"{x:.2f}"] for a float *)
Definition format_float (f : float) : string :=
  match f with
  | NaN => "nan"
  | Inf neg => if neg then "-inf" else "inf"
  | Zero neg => if neg then "-0.00" else "0.00"
  | Fin q => Amount.fmt2 q
  end.

(** [f"{x:.2f}"]: an int is turned into a float first *)
Definition format_2f (x : t) : result string :=
  match x with
  | Int z => let* f := to_float z in Ret (format_float f)
  | Float f => Ret (format_float f)
  end.

End PyNum.

(** ** The data model *)

(** A validated expense record: the five required fields, and the
    optional [expense_id]. *)
Record expense : Type := {
  user_id : string;
  amount : PyNum.t;
  category : string;
  description : string;
  date : string;
  expense_id : option string
}.

(** An expense as the caller sends it: a field may be missing. *)
Record raw_expense : Type := {
  raw_user_id : option string;
  raw_amount : option PyNum.t;
  raw_category : option string;
  raw_description : option string;
  raw_date : option string;
  raw_expense_id : option string
}.

(** An element of the submitted batch: a mapping or something else. *)
Inductive item : Type :=
| NotADict
| Dict (r : raw_expense).

(** What [datetime.fromisoformat] and [dateparser.parse] return. *)
Record datetime : Type := { dt_year : Z; dt_month : Z; dt_day : Z }.

(** A spaCy document, as far as the code reads it. *)
Record entity : Type := { ent_text : string; ent_label : string }.
Record token : Type := { tok_lemma : string; tok_pos : string; tok_is_stop : bool }.
Record doc : Type := { doc_ents : list entity; doc_tokens : list token }.

(** The filter set of a query. *)
Record filters : Type := {
  flt_user_id : string;
  flt_start_date : option string;
  flt_end_date : option string;
  flt_keywords : option (list string)
}.

(** What is written to the vector store for one expense. *)
Record doc_metadata : Type := {
  md_user_id : string;
  md_date : string;
  md_category : string;
  md_amount : PyNum.t;
  md_text : string
}.

Record vector : Type := {
  vec_id : string;
  vec_values : string;
  vec_metadata : doc_metadata
}.

(** The filter expression of a store query:
    [{"user_id": {"$eq": u}, "date": {"$gte": s, "$lte": e}}]. *)
Record filter_criteria : Type := {
  fc_user_id_eq : string;
  fc_date : option (string * string)
}.

(** A retrieved match: its [metadata] mapping, when it has one. *)
Record match_ : Type := { metadata : option (gmap string string) }.

(** The store handle: the one object [pinecone_manager.get_index()]
    returns, when there is one. *)
Inductive handle : Type := PineconeIndex.

(** The calls the code makes on the store handle. *)
Inductive upsert_kw : Type := Vectors | Records.

Inductive event : Type :=
| EvUpsert (kw : upsert_kw) (vs : list vector)
| EvQuery (text : string) (top_k : Z) (f : filter_criteria).

Definition is_upsert (ev : event) : bool :=
  match ev with EvUpsert _ _ => true | EvQuery _ _ _ => false end.

Definition is_query (ev : event) : bool :=
  match ev with EvQuery _ _ _ => true | EvUpsert _ _ => false end.

(** A JSON value, as [r.json()] returns it. *)
Inductive json : Type :=
| JNull
| JBool (b : bool)
| JNum (q : Q)
| JStr (s : string)
| JArr (l : list json)
| JObj (fields : list (string * json)).

(** An HTTP response: status code, text, and the parsed body
    ([None] when [r.json()] raises [JSONDecodeError]). *)
Record response : Type := {
  status_code : Z;
  text : string;
  body : option json
}.

(** ** The world outside the repository *)

Record Env : Type := {
  (** spaCy: [nlp(text)], [None] when it raises *)
  nlp : string -> option doc;
  (** [dateparser.parse] on a string *)
  dateparser_parse_str : string -> option datetime;
  (** [datetime.fromisoformat], [None] when it raises *)
  fromisoformat : string -> option datetime;
  (** [d.strftime(fmt)] *)
  strftime : datetime -> string -> string;
  (** [str(x)] of an amount *)
  str_amount : PyNum.t -> string;
  (** the interpreter's message for an operation a JSON value does not
      support *)
  unsupported : json -> string;
  (** the Hugging Face configuration *)
  HF_API_TOKEN : option string;
  HF_API_URL : string;
  (** [requests.post(url, headers, json, timeout=30)], by URL, token and
      prompt *)
  requests_post : string -> string -> string -> result response;
  (** the process-wide store handle, [None] when unavailable *)
  pinecone_index : option handle;
  (** [hasattr(index, 'upsert')], [hasattr(index, 'query')] *)
  has_upsert : bool;
  has_query : bool;
  (** [index.upsert(vectors=..)] or [index.upsert(records=..)], given the
      calls made so far *)
  index_upsert : list event -> upsert_kw -> list vector -> result unit;
  (** [index.query(vector, top_k, filter, include_metadata=True)], given
      the calls made so far; the value is [results.get('matches')] *)
  index_query :
    list event -> string -> Z -> filter_criteria -> result (option (list match_))
}.

(** ** backend/query_filter.py *)

Section QueryFilter.
Variable E : Env.

Definition extract_date_entities (text : string) : list string :=
  match nlp E (PyStr.lower text) with
  | Some d =>
      map ent_text
        (List.filter (fun ent => String.eqb (ent_label ent) "DATE") (doc_ents d))
  | None => []
  end.

(** The argument [parse_date_range] hands to [dateparser.parse]. *)
Inductive parse_arg : Type :=
| ArgStr (s : string)
| ArgList (l : list string).

(** [dateparser.parse(x)]: the library refuses anything that is not a
    string ([TypeError('Input type must be str')]). *)
Definition dateparser_parse (x : parse_arg) : result (option datetime) :=
  match x with
  | ArgStr s => Ret (dateparser_parse_str E s)
  | ArgList _ => Raise (TypeError "Input type must be str")
  end.

Definition parse_date_range (dates : list string)
  : result (option (string * string)) :=
  match dates with
  | [] => Ret None
  | d0 :: _ =>
      let* start := dateparser_parse (ArgStr d0) in
      let* end_ :=
        (if (1 <? length dates)%nat then dateparser_parse (ArgList dates)
         else Ret None) in
      let start_iso := option_map (fun d => strftime E d "%Y-%m-%d") start in
      let end_iso :=
        match end_ with
        | Some d => Some (strftime E d "%Y-%m-%d")
        | None => start_iso
        end in
      match start_iso, end_iso with
      | Some s, Some e => if PyStr.truthy s then Ret (Some (s, e)) else Ret None
      | _, _ => Ret None
      end
  end.

Definition is_keyword (t : token) : bool :=
  (String.eqb (tok_pos t) "NOUN" || String.eqb (tok_pos t) "PROPN")
  && negb (tok_is_stop t).

Definition extract_keywords (text : string) : list string :=
  match nlp E (PyStr.lower text) with
  | Some d => map tok_lemma (List.filter is_keyword (doc_tokens d))
  | None => []
  end.

Definition extract_filters_from_query (query uid : string) : result filters :=
  let date_entities := extract_date_entities query in
  let* date_range := parse_date_range date_entities in
  let keywords := extract_keywords query in
  Ret {| flt_user_id := uid;
         flt_start_date := option_map fst date_range;
         flt_end_date := option_map snd date_range;
         flt_keywords := match keywords with [] => None | _ => Some keywords end |}.

End QueryFilter.

(** ** cachetools: [TTLCache] and the [cached] decorator

    The cache of the library, as its documentation describes it: a
    bounded mapping in which an item expires [ttl] after it was stored,
    expired items are dropped at the next mutation, and the least
    recently used item is discarded when room is needed. The items are
    kept least recently used first. The library walks its expiry chain
    from the oldest item; with a clock that never runs backwards that is
    the filter below. *)

Module TTLCache.
Section Cache.
Context {K V : Type} `{EqDecision K}.
Variable maxsize : nat.
Variable ttl : Z.

Record entry : Type := { e_key : K; e_value : V; e_expires : Z }.

Definition t : Type := list entry.

Definition has_key (k : K) (e : entry) : bool := bool_decide (e_key e = k).

Definition find (k : K) (c : t) : option entry := List.find (has_key k) c.

Definition remove (k : K) (c : t) : t :=
  List.filter (fun e => negb (has_key k e)) c.

(** [expire(time)]: drop the items whose time has come. *)
Definition expire (time : Z) (c : t) : t :=
  List.filter (fun e => time <? e_expires e) c.

(** [cache[k]] at [time]; [None] is [KeyError]. The item is marked as
    recently used before its expiry is looked at. *)
Definition getitem (k : K) (time : Z) (c : t) : option V * t :=
  match find k c with
  | None => (None, c)
  | Some e =>
      let c' := remove k c ++ [e] in
      if time <? e_expires e then (Some (e_value e), c') else (None, c')
  end.

(** [while currsize + 1 > maxsize: popitem()] *)
Fixpoint make_room (c : t) : t :=
  match c with
  | [] => []
  | _ :: c' => if (maxsize <? length c + 1)%nat then make_room c' else c
  end.

(** [cache[k] = v] at [time]. A value larger than the cache
    ([ValueError], which [cached] ignores) leaves it expired only. *)
Definition setitem (k : K) (v : V) (time : Z) (c : t) : t :=
  let c1 := expire time c in
  if (maxsize <? 1)%nat then c1
  else
    let c2 := match find k c1 with Some _ => c1 | None => make_room c1 end in
    remove k c2 ++ [{| e_key := k; e_value := v; e_expires := time + ttl |}].

(** The items stored or used after the item of key [k]: the ones an
    eviction discards later than it. *)
Fixpoint after (k : K) (c : t) : t :=
  match c with
  | [] => []
  | x :: c' => if has_key k x then c' else after k c'
  end.

End Cache.
Arguments entry : clear implicits.
Arguments t : clear implicits.
End TTLCache.

(** ** The state of the process: the store calls made, and the cache *)

Definition cache_key : Type := option handle * string * string * Z.

#[global] Instance handle_eq_dec : EqDecision handle.
Proof. solve_decision. Defined.

Record state : Type := {
  trace : list event;
  query_cache : TTLCache.t cache_key (list match_)
}.

Definition M (A : Type) : Type := state -> result A * state.

Definition log (ev : event) (st : state) : state :=
  {| trace := trace st ++ [ev]; query_cache := query_cache st |}.

Definition set_cache (c : TTLCache.t cache_key (list match_)) (st : state)
  : state :=
  {| trace := trace st; query_cache := c |}.

(** ** backend/vector_manager.py *)

Section VectorManager.
Variable E : Env.

Definition doc_text (e : expense) : result string :=
  let* amt := PyNum.format_2f (amount e) in
  Ret ("Date: " +:+ date e +:+ ", Amount: â‚¹" +:+ amt
       +:+ ", Category: " +:+ category e +:+ ", Description: " +:+ description e).

Definition doc_id (e : expense) : string :=
  match expense_id e with
  | Some i =>
      if PyStr.truthy i then i
      else user_id e +:+ "_" +:+ date e +:+ "_" +:+ str_amount E (amount e)
           +:+ "_" +:+ category e
  | None =>
      user_id e +:+ "_" +:+ date e +:+ "_" +:+ str_amount E (amount e)
      +:+ "_" +:+ category e
  end.

Definition doc_meta (e : expense) (text : string) : doc_metadata :=
  {| md_user_id := user_id e; md_date := date e; md_category := category e;
     md_amount := amount e; md_text := text |}.

(** The loop over the expenses: the first amount that cannot be
    rendered ends it with its exception. *)
Fixpoint build_docs_from_expenses (expenses : list expense)
  : result (list string * list string * list doc_metadata) :=
  match expenses with
  | [] => Ret ([], [], [])
  | e :: expenses' =>
      let* text := doc_text e in
      let* docs := build_docs_from_expenses expenses' in
      let '(texts, ids, metadata) := docs in
      Ret (text :: texts, doc_id e :: ids, doc_meta e text :: metadata)
  end.

(** [zip(texts, ids, metadata)] into the records to write *)
Fixpoint make_vectors (texts ids : list string) (metas : list doc_metadata)
  : list vector :=
  match texts, ids, metas with
  | t :: texts', i :: ids', m :: metas' =>
      {| vec_id := i; vec_values := t; vec_metadata := m |}
        :: make_vectors texts' ids' metas'
  | _, _, _ => []
  end.

(** One [index.upsert] call: it is logged, and answers as the store does. *)
Definition call_upsert (kw : upsert_kw) (vs : list vector) : M unit :=
  fun st => (index_upsert E (trace st) kw vs, log (EvUpsert kw vs) st).

Definition user_ids (expenses : list expense) : gset string :=
  list_to_set (map user_id expenses).

Definition upsert_expenses_to_pinecone (expenses : list expense) : M unit :=
  fun st =>
    match expenses with
    | [] => (Ret tt, st)
    | _ =>
        match pinecone_index E with
        | None => (Ret tt, st)
        | Some _ =>
            if negb (size (user_ids expenses) =? 1)%nat then
              (Raise (ValueError
                 "All expenses to upsert must belong to the same user_id."), st)
            else
              (* the documents are built before the [try] *)
              match build_docs_from_expenses expenses with
              | Raise e => (Raise e, st)
              | Ret (texts, ids, metas) =>
                  let vectors := make_vectors texts ids metas in
                  if has_upsert E then
                    match call_upsert Vectors vectors st with
                    | (Ret _, st1) => (Ret tt, st1)
                    | (Raise (TypeError _), st1) =>
                        (* the legacy form; its failure is logged and dropped *)
                        let '(_, st2) := call_upsert Records vectors st1 in
                        (Ret tt, st2)
                    | (Raise _, st1) => (Ret tt, st1)
                    end
                  else (Ret tt, st)
              end
        end
    end.

End VectorManager.

(** ** backend/rag_query.py *)

Section RagQuery.
Variable E : Env.

Definition maxsize : nat := 100.
Definition ttl : Z := 300.

(** One [index.query] call: it is logged, and answers as the store does. *)
Definition call_query (text : string) (top_k : Z) (f : filter_criteria)
  : M (option (list match_)) :=
  fun st => (index_query E (trace st) text top_k f, log (EvQuery text top_k f) st).

(** [results.get('matches', [])] *)
Definition matches_of (r : option (list match_)) : list match_ :=
  match r with Some l => l | None => [] end.

Definition date_filter (flt : filters) : option (string * string) :=
  match flt_start_date flt, flt_end_date flt with
  | Some s, Some e =>
      if PyStr.truthy s && PyStr.truthy e then Some (s, e) else None
  | _, _ => None
  end.

Definition query_text_of (query : string) (flt : filters) : string :=
  match flt_keywords flt with
  | Some (kw :: kws) => query +:+ " " +:+ PyStr.join " " (kw :: kws)
  | _ => query
  end.

(** The body of [query_user_expenses], which the decorator wraps. *)
Definition query_user_expenses_body
    (index : option handle) (uid query : string) (top_k : Z)
  : M (list match_) :=
  fun st =>
    match index with
    | None => (Ret [], st)
    | Some _ =>
        match extract_filters_from_query E query uid with
        | Raise e => (Raise e, st)
        | Ret flt =>
            let filter_criteria :=
              {| fc_user_id_eq := uid; fc_date := date_filter flt |} in
            let query_text := query_text_of query flt in
            if has_query E then
              match call_query query_text top_k filter_criteria st with
              | (Ret r, st1) => (Ret (matches_of r), st1)
              | (Raise (TypeError _), st1) =>
                  match call_query query_text top_k filter_criteria st1 with
                  | (Ret r, st2) => (Ret (matches_of r), st2)
                  | (Raise _, st2) => (Ret [], st2)
                  end
              | (Raise _, st1) => (Ret [], st1)
              end
            else (Ret [], st)
        end
    end.

(** [@cached(query_cache)]: look the arguments up, at clock reading
    [tget]; on a miss run the body and store what it returns, at clock
    reading [tset]. An exception of the body is not stored. *)
Definition query_user_expenses
    (index : option handle) (uid query : string) (top_k : Z) (tget tset : Z)
  : M (list match_) :=
  fun st =>
    let k : cache_key := (index, uid, query, top_k) in
    match TTLCache.getitem k tget (query_cache st) with
    | (Some v, c) => (Ret v, set_cache c st)
    | (None, c) =>
        match query_user_expenses_body index uid query top_k (set_cache c st) with
        | (Ret v, st1) =>
            (Ret v, set_cache (TTLCache.setitem maxsize ttl k v tset (query_cache st1)) st1)
        | (Raise e, st1) => (Raise e, st1)
        end
    end.

Definition sentinel : string := "No relevant expense data found for your query.".

(** [a or b] where [a] is [meta.get(key)] *)
Definition get_or (meta : gmap string string) (key : string) (b : string)
  : string :=
  match meta !! key with
  | Some a => if PyStr.truthy a then a else b
  | None => b
  end.

(** The text of one match: [text], else [chunk_text], else
    [description], else the empty string. *)
Definition snippet (m : match_) : string :=
  let meta := match metadata m with Some d => d | None => ∅ end in
  get_or meta "text" (get_or meta "chunk_text" (get_or meta "description" EmptyString)).

Definition format_context_from_results (results : list match_) : string :=
  match results with
  | [] => sentinel
  | _ =>
      let context_lines := List.filter PyStr.truthy (map snippet results) in
      match context_lines with
      | [] => sentinel
      | _ => PyStr.join PyStr.nl context_lines
      end
  end.

End RagQuery.

(** ** backend/fingpt_queries.py *)

Section FinGPT.
Variable E : Env.

Definition build_prompt (question context : string) : string :=
  "
**Role:** You are a financial analysis AI specialized in expense tracking and budgeting.

**Objective:** Analyze user spending data and provide accurate, simple-to-understand answers strictly using the given context.

**Context:** 
"
  +:+ context +:+
  "

**Instructions:**
**Instruction 1:** Answer only based on context.
**Instruction 2:** Explain in simple language for non-experts.
**Instruction 3:** Use bullet points if suitable.
**Instruction 4:** If context is insufficient, state " +:+ PyStr.dquote +:+ "Not enough information to answer." +:+ PyStr.dquote +:+ "
**Instruction 5:** Provide your output in 3 short sections:  
   - Direct Answer  
   - Supporting Details  
   - Actionable Recommendations  

**Notes:**
- Do not hallucinate information.
- Be concise and actionable.
- Explain financial terms briefly if used. 
- Use bullet points for clarity.  

Question:
"
  +:+ question +:+
  "
".

Definition placeholder_token : string := "your_huggingface_token_here".

Definition msg_not_configured : string :=
  "I apologize, but the AI service is not properly configured. Please contact support.".
Definition msg_401 : string :=
  "I apologize, but there's an authentication issue with the AI service. Please check the API configuration.".
Definition msg_403_permissions : string :=
  "I apologize, but the AI service requires additional permissions. Please ensure your Hugging Face token has inference permissions enabled.".
Definition msg_403 : string :=
  "I apologize, but access to the AI service is forbidden. Please check your API configuration.".
Definition msg_404 : string :=
  "I apologize, but the AI model is not available. The system will use local analysis instead.".
Definition msg_503 : string :=
  "I apologize, but the AI service is currently unavailable. Please try again in a few minutes.".
Definition msg_status (status : Z) : string :=
  "I apologize, but there was an error with the AI service (Status: "
  +:+ PyStr.of_Z status +:+ "). Please try again.".
Definition msg_invalid_json : string :=
  "I apologize, but the AI service returned an invalid response. Please try again.".
Definition msg_no_generated_text : string :=
  "I apologize, but the AI service returned an unexpected response format. Please try again.".
Definition msg_unexpected_shape : string :=
  "I apologize, but the AI service returned an unexpected response. Please try again.".
Definition msg_timeout : string :=
  "I apologize, but the AI service is taking too long to respond. Please try again.".
Definition msg_connection : string :=
  "I apologize, but I cannot connect to the AI service. Please check your internet connection and try again.".
Definition msg_unexpected (e : exn) : string :=
  "I apologize, but there was an unexpected error: " +:+ exn_str e.

(** The answer for a status other than 200. *)
Definition error_status_message (r : response) : string :=
  if status_code r =? 401 then msg_401
  else if status_code r =? 403 then
    let error_text := PyStr.lower (text r) in
    if PyStr.contains "permissions" error_text
       || PyStr.contains "inference" error_text
    then msg_403_permissions else msg_403
  else if status_code r =? 404 then msg_404
  else if status_code r =? 503 then msg_503
  else msg_status (status_code r).

Definition is_generated_text (j : json) : bool :=
  match j with JStr s => String.eqb s "generated_text" | _ => false end.

(** ["generated_text" in first], which the interpreter refuses on a value
    that is no container. *)
Definition has_generated_text (first : json) : result bool :=
  match first with
  | JObj fields => Ret (existsb (fun kv => String.eqb (fst kv) "generated_text") fields)
  | JStr s => Ret (PyStr.contains "generated_text" s)
  | JArr l => Ret (existsb is_generated_text l)
  | _ => Raise (TypeError (unsupported E first))
  end.

(** [first["generated_text"].strip()] *)
Definition generated_text (first : json) : result string :=
  match first with
  | JObj fields =>
      match List.find (fun kv => String.eqb (fst kv) "generated_text") fields with
      | Some (_, JStr s) => Ret (PyStr.strip s)
      | Some (_, v) => Raise (AttributeError (unsupported E v))
      | None => Raise (OtherException "'generated_text'")
      end
  | _ => Raise (TypeError (unsupported E first))
  end.

(** What [call_fingpt_api] does with the body of a 200 response. *)
Definition read_output (output : json) : result string :=
  match output with
  | JArr (first :: _) =>
      let* found := has_generated_text first in
      if found then generated_text first else Ret msg_no_generated_text
  | _ => Ret msg_unexpected_shape
  end.

(** The [try] block of [call_fingpt_api]. *)
Definition call_fingpt_api_try (prompt : string) : result string :=
  match HF_API_TOKEN E with
  | None => Ret msg_not_configured
  | Some tok =>
      if negb (PyStr.truthy tok) || String.eqb tok placeholder_token
      then Ret msg_not_configured
      else
        let* r := requests_post E (HF_API_URL E) tok prompt in
        if negb (status_code r =? 200) then Ret (error_status_message r)
        else
          match body r with
          | None => Ret msg_invalid_json
          | Some output => read_output output
          end
  end.

Definition call_fingpt_api (prompt : string) : result string :=
  match call_fingpt_api_try prompt with
  | Ret answer => Ret answer
  | Raise (RequestsTimeout _) => Ret msg_timeout
  | Raise (RequestsConnectionError _) => Ret msg_connection
  | Raise e => Ret (msg_unexpected e)
  end.

(** *** The local analysis *)

(** [sum(amounts)]: the additions from left to right, from [acc] on.
    (From CPython 3.12 on a run of floats is added with a correction
    term, which can change the last bit of the sum of three or more
    floats; it raises where these additions raise.) *)
Fixpoint sum_from (acc : PyNum.t) (amounts : list PyNum.t) : result PyNum.t :=
  match amounts with
  | [] => Ret acc
  | x :: amounts' => let* acc' := PyNum.add acc x in sum_from acc' amounts'
  end.

(** [sum(amounts)], which starts from the int [0] *)
Definition py_sum (amounts : list PyNum.t) : result PyNum.t :=
  sum_from (PyNum.Int 0) amounts.

(** [sum(e['amount'] for e in expenses)] *)
Definition total_amount (expenses : list expense) : result PyNum.t :=
  py_sum (map amount expenses).

(** A dictionary of totals, kept in insertion order. *)
Definition totals : Type := list (string * PyNum.t).

(** [d[k] = d.get(k, 0) + v] *)
Fixpoint dict_add (k : string) (v : PyNum.t) (d : totals) : result totals :=
  match d with
  | [] => let* s := PyNum.add (PyNum.Int 0) v in Ret [(k, s)]
  | (k', v') :: d' =>
      if String.eqb k' k then let* s := PyNum.add v' v in Ret ((k', s) :: d')
      else let* d1 := dict_add k v d' in Ret ((k', v') :: d1)
  end.

(** The loop over the expenses, which adds every amount to the total
    of its category and to the total of its date. *)
Fixpoint accumulate (expenses : list expense) (category_totals date_totals : totals)
  : result (totals * totals) :=
  match expenses with
  | [] => Ret (category_totals, date_totals)
  | expense :: expenses' =>
      let* category_totals' :=
        dict_add (category expense) (amount expense) category_totals in
      let* date_totals' :=
        dict_add (date expense) (amount expense) date_totals in
      accumulate expenses' category_totals' date_totals'
  end.

(** The totals by category the loop ends with. *)
Definition category_totals (expenses : list expense) : result totals :=
  let* both := accumulate expenses [] [] in Ret (fst both).

(** [max(first :: rest, key=key)]: the first of the largest *)
Fixpoint py_max {A : Type} (key : A -> PyNum.t) (best : A) (rest : list A) : A :=
  match rest with
  | [] => best
  | x :: rest' =>
      py_max key (if PyNum.gt (key x) (key best) then x else best) rest'
  end.

(** [sorted(items, key=lambda x: x[1], reverse=True)]: stable, largest
    first (for totals that can be compared: none is not a number) *)
Fixpoint insert_desc (x : string * PyNum.t) (l : totals) : totals :=
  match l with
  | [] => [x]
  | y :: l' =>
      if PyNum.gt (snd x) (snd y) then x :: y :: l' else y :: insert_desc x l'
  end.

Definition sorted_desc (items : totals) : totals :=
  fold_left (fun acc x => insert_desc x acc) items [].

(** A list comprehension whose element may raise. *)
Fixpoint map_result {A B : Type} (f : A -> result B) (l : list A)
  : result (list B) :=
  match l with
  | [] => Ret []
  | x :: l' => let* y := f x in let* ys := map_result f l' in Ret (y :: ys)
  end.

(** The date of an expense as the answers show it: [%B %d, %Y] when the
    text is an ISO date, the text itself when it is not. *)
Definition format_date (d : string) : string :=
  match fromisoformat E (PyStr.replace_char "Z" "+00:00" d) with
  | Some dt => strftime E dt "%B %d, %Y"
  | None => d
  end.

Definition has_description (e : expense) : bool :=
  PyStr.truthy (description e) && PyStr.truthy (PyStr.strip (description e)).

Definition biggest_words : list string := ["biggest"; "highest"; "largest"; "most"].
Definition total_words : list string := ["total"; "sum"; "all"].
Definition category_words : list string := ["category"; "categories"].
Definition saving_words : list string := ["save"; "reduce"; "cut"; "budget"].

Definition answer_biggest (biggest : expense) : result string :=
  let formatted_date := format_date (date biggest) in
  let supporting_details :=
    (if has_description biggest
     then ["• Description: " +:+ description biggest] else [])
    ++ ["• Date: " +:+ formatted_date] in
  let* amt := PyNum.format_2f (amount biggest) in
  Ret ("Your biggest expense is ₹" +:+ amt +:+ " for "
  +:+ category biggest +:+ ".

Supporting Details:
" +:+ PyStr.join PyStr.nl supporting_details +:+ "

Actionable Recommendations:
• Review if this expense was necessary
• Consider setting a budget limit for " +:+ category biggest +:+ " category
• Look for ways to reduce similar expenses in the future").

Definition answer_total (total : PyNum.t) (count : nat) (top : string * PyNum.t)
  : result string :=
  let* total_2f := PyNum.format_2f total in
  let* top_2f := PyNum.format_2f (snd top) in
  let* average := PyNum.div total (Z.of_nat count) in
  let* average_2f := PyNum.format_2f average in
  Ret ("Your total expenses are ₹" +:+ total_2f +:+ ".

Supporting Details:
• Number of expenses: " +:+ PyStr.of_nat count +:+ "
• Top spending category: " +:+ fst top +:+ " (₹" +:+ top_2f +:+ ")
• Average expense: ₹" +:+ average_2f +:+ "

Actionable Recommendations:
• Track your spending patterns
• Set monthly budget goals
• Focus on reducing expenses in " +:+ fst top +:+ " category").

Definition answer_categories (category_totals : totals) (top : string * PyNum.t)
  : result string :=
  let* lines :=
    map_result
      (fun ca =>
         let* amt := PyNum.format_2f (snd ca) in
         Ret ("• " +:+ fst ca +:+ ": ₹" +:+ amt))
      (sorted_desc category_totals) in
  let category_breakdown := PyStr.join PyStr.nl lines in
  Ret ("Your spending by category:

Supporting Details:
" +:+ category_breakdown +:+ "

Actionable Recommendations:
• Focus on reducing expenses in " +:+ fst top +:+ " category
• Consider setting category-specific budgets
• Review if all categories are necessary").

Definition answer_saving (biggest : expense) (top : string * PyNum.t)
  : result string :=
  let* top_2f := PyNum.format_2f (snd top) in
  let* biggest_2f := PyNum.format_2f (amount biggest) in
  Ret ("Here are ways to save money based on your spending:

Supporting Details:
• Your biggest expense category: " +:+ fst top +:+ " (₹" +:+ top_2f +:+ ")
• Your biggest single expense: ₹" +:+ biggest_2f +:+ " for " +:+ category biggest +:+ "

Actionable Recommendations:
• Reduce spending in " +:+ fst top +:+ " category
• Set a daily/weekly budget limit
• Track all expenses to identify patterns
• Consider alternatives for expensive items
• Review recurring expenses regularly").

Definition answer_summary (total : PyNum.t) (count : nat) (biggest : expense)
    (top : string * PyNum.t) : result string :=
  let* total_2f := PyNum.format_2f total in
  let* top_2f := PyNum.format_2f (snd top) in
  let* biggest_2f := PyNum.format_2f (amount biggest) in
  Ret ("Here's a summary of your expenses:

Supporting Details:
• Total spent: ₹" +:+ total_2f +:+ "
• Number of expenses: " +:+ PyStr.of_nat count +:+ "
• Top category: " +:+ fst top +:+ " (₹" +:+ top_2f +:+ ")
• Biggest expense: ₹" +:+ biggest_2f +:+ " for " +:+ category biggest +:+ "

Actionable Recommendations:
• Monitor your spending patterns
• Set realistic budget goals
• Focus on reducing expenses in " +:+ fst top +:+ " category
• Review expenses regularly to stay on track").

(** [max(category_totals.items(), key=lambda x: x[1])]; the totals of a
    non-empty batch are never empty. *)
Definition top_category_of (category_totals : totals) : string * PyNum.t :=
  match category_totals with
  | [] => (EmptyString, PyNum.Int 0)
  | ct :: rest => py_max snd ct rest
  end.

Definition local_expense_analysis (question : string) (expenses : list expense)
  : result string :=
  match expenses with
  | [] => Ret "No expenses found to analyze."
  | first :: rest =>
      let* total := total_amount expenses in
      let* both := accumulate expenses [] [] in
      let totals := fst both in
      let biggest_expense := py_max amount first rest in
      let top_category := top_category_of totals in
      let question_lower := PyStr.lower question in
      if PyStr.any_in biggest_words question_lower then
        answer_biggest biggest_expense
      else if PyStr.any_in total_words question_lower then
        answer_total total (length expenses) top_category
      else if PyStr.any_in category_words question_lower then
        answer_categories totals top_category
      else if PyStr.any_in saving_words question_lower then
        answer_saving biggest_expense top_category
      else
        answer_summary total (length expenses) biggest_expense top_category
  end.

(** *** The orchestrator *)

Record answered : Type := {
  answer : string;
  context_used : string;
  result_metadata : filters;
  num_chunks : nat
}.

(** What [query_fingpt] returns: [{"error": ..}] or the answer record. *)
Inductive query_result : Type :=
| QError (error : string)
| QSuccess (r : answered).

Definition required_fields : list string :=
  ["user_id"; "amount"; "category"; "description"; "date"].

Definition isSome {A : Type} (o : option A) : bool :=
  match o with Some _ => true | None => false end.

(** [field in expense] *)
Definition has_field (r : raw_expense) (field : string) : bool :=
  if String.eqb field "user_id" then isSome (raw_user_id r)
  else if String.eqb field "amount" then isSome (raw_amount r)
  else if String.eqb field "category" then isSome (raw_category r)
  else if String.eqb field "description" then isSome (raw_description r)
  else if String.eqb field "date" then isSome (raw_date r)
  else if String.eqb field "expense_id" then isSome (raw_expense_id r)
  else false.

Definition missing_fields (r : raw_expense) : list string :=
  List.filter (fun field => negb (has_field r field)) required_fields.

(** The check of one element of the batch, at index [i]: the error
    message, or the record once its required fields are known. *)
Definition check_expense (i : nat) (it : item) : string + expense :=
  match it with
  | NotADict => inl ("Invalid expense format at index " +:+ PyStr.of_nat i)
  | Dict r =>
      match raw_user_id r, raw_amount r, raw_category r,
            raw_description r, raw_date r with
      | Some u, Some a, Some c, Some d, Some dt =>
          inr {| user_id := u; amount := a; category := c; description := d;
                 date := dt; expense_id := raw_expense_id r |}
      | _, _, _, _, _ =>
          inl ("Invalid expense data: missing "
               +:+ PyStr.repr_list (missing_fields r))
      end
  end.

(** The validation loop: the first violation, or the validated batch. *)
Fixpoint validate (i : nat) (items : list item) : string + list expense :=
  match items with
  | [] => inr []
  | it :: items' =>
      match check_expense i it with
      | inl err => inl err
      | inr e =>
          match validate (S i) items' with
          | inl err => inl err
          | inr es => inr (e :: es)
          end
      end
  end.

(** One line of the context built from the raw expenses. *)
Definition context_line (e : expense) : result string :=
  let* amt := PyNum.format_2f (amount e) in
  let context_parts :=
    ["Date: " +:+ format_date (date e);
     "Amount: ₹" +:+ amt;
     "Category: " +:+ category e]
    ++ (if has_description e then ["Description: " +:+ description e] else []) in
  Ret (PyStr.join ", " context_parts).

Definition fallback_context (expenses : list expense) : result string :=
  let* context_lines := map_result context_line expenses in
  Ret (PyStr.join PyStr.nl context_lines).

Definition error_indicators : list string :=
  ["not properly configured"; "authentication issue"; "permissions";
   "forbidden"; "not available"; "unavailable"; "error with the ai service"].

(** Step 4, inside its [try]: the context from the matches, or from the
    raw expenses. *)
Definition make_context (results : list match_) (expenses : list expense)
  : result string :=
  let context := format_context_from_results results in
  if negb (PyStr.truthy context) || String.eqb context sentinel
  then fallback_context expenses
  else Ret context.

(** Step 5, inside its [try]: the template is filled with two strings,
    which does not fail. *)
Definition build_prompt_try (question context : string) : result string :=
  Ret (build_prompt question context).

(** Step 6: the answer of the backend, or of the local analysis. An
    exception inside the [try], also one of the local analysis, hands
    over to the local analysis in the handler; an exception there is not
    caught here. *)
Definition make_answer (question : string) (expenses : list expense)
    (prompt : string) : result string :=
  match (let* answer := call_fingpt_api prompt in
         if PyStr.any_in error_indicators (PyStr.lower answer)
         then local_expense_analysis question expenses
         else Ret answer) with
  | Ret answer => Ret answer
  | Raise _ => local_expense_analysis question expenses
  end.

(** The [try] block of [query_fingpt]; [tget] and [tset] are the two
    readings of the clock the retrieval cache makes. *)
Definition query_fingpt_try (question : string) (items : list item)
    (tget tset : Z) : M query_result :=
  fun st =>
    if negb (PyStr.truthy question) || negb (PyStr.truthy (PyStr.strip question))
    then (Ret (QError "Question cannot be empty"), st)
    else
      match items with
      | [] => (Ret (QError "No expenses provided to analyze."), st)
      | _ =>
          match validate 0 items with
          | inl err => (Ret (QError err), st)
          | inr [] =>
              (* [expenses[0]] of an empty batch; the check above excludes it *)
              (Raise (OtherException "list index out of range"), st)
          | inr ((first :: _) as expenses) =>
              let uid := user_id first in
              (* Step 1 *)
              match upsert_expenses_to_pinecone E expenses st with
              | (Raise (ValueError m), st1) =>
                  (Ret (QError ("Failed to store expenses: " +:+ m)), st1)
              | (Raise e, st1) =>
                  (Ret (QError ("Storage error: " +:+ exn_str e)), st1)
              | (Ret _, st1) =>
                  (* Step 2 *)
                  match extract_filters_from_query E question uid with
                  | Raise e =>
                      (Ret (QError ("Failed to process query filters: "
                                    +:+ exn_str e)), st1)
                  | Ret filter_data =>
                      (* Step 3 *)
                      match query_user_expenses E (pinecone_index E) uid
                              question 5 tget tset st1 with
                      | (Raise e, st2) =>
                          (Ret (QError ("Failed to retrieve context: "
                                        +:+ exn_str e)), st2)
                      | (Ret results, st2) =>
                          (* Step 4 *)
                          match make_context results expenses with
                          | Raise e =>
                              (Ret (QError ("Failed to format context: "
                                            +:+ exn_str e)), st2)
                          | Ret context =>
                              (* Step 5 *)
                              match build_prompt_try question context with
                              | Raise e =>
                                  (Ret (QError ("Failed to build prompt: "
                                                +:+ exn_str e)), st2)
                              | Ret prompt =>
                                  (* Steps 6 and 7 *)
                                  match make_answer question expenses prompt with
                                  | Raise e => (Raise e, st2)
                                  | Ret answer =>
                                      (Ret (QSuccess
                                              {| answer := answer;
                                                 context_used := context;
                                                 result_metadata := filter_data;
                                                 num_chunks := length results |}),
                                       st2)
                                  end
                              end
                          end
                      end
                  end
              end
          end
      end.

Definition query_fingpt (question : string) (items : list item)
    (tget tset : Z) : M query_result :=
  fun st =>
    match query_fingpt_try question items tget tset st with
    | (Ret r, st') => (Ret r, st')
    | (Raise e, st') => (Ret (QError ("Unexpected error: " +:+ exn_str e)), st')
    end.

End FinGPT.

(** ** backend/main.py *)

(** What a route handler gives the framework: the body of the
    response, or an [HTTPException]. *)
Inductive http (A : Type) : Type :=
| Respond (content : A)
| HTTPException (code : Z) (detail : string).
Arguments Respond {A} content.
Arguments HTTPException {A} code detail.

(** The body of [/api/health]. *)
Record health : Type := {
  h_status : string;
  h_timestamp : string;
  pinecone_available : bool;
  hf_token_configured : bool
}.

Section Main.
Variable E : Env.

(** [str(e)] of an [HTTPException] *)
Variable str_http_exception : Z -> string -> string.

(** The validation loop of the endpoint: the error of the first expense
    with a missing field. The framework has made every element a
    mapping. *)
Fixpoint endpoint_check (expenses : list raw_expense) : option string :=
  match expenses with
  | [] => None
  | expense :: expenses' =>
      match missing_fields expense with
      | [] => endpoint_check expenses'
      | missing =>
          Some ("Invalid expense data: missing " +:+ PyStr.repr_list missing)
      end
  end.

(** [POST /api/query-fingpt]. An exception of the pipeline becomes an
    [HTTPException], which the outer handler catches and raises again
    with the text of the first as detail. *)
Definition query_fingpt_endpoint (question : string)
    (expenses : list raw_expense) (tget tset : Z)
  : state -> http query_result * state :=
  fun st =>
    match expenses with
    | [] => (Respond (QError "No expenses provided to analyze."), st)
    | _ =>
        match endpoint_check expenses with
        | Some err => (Respond (QError err), st)
        | None =>
            match query_fingpt E question (map Dict expenses) tget tset st with
            | (Ret result, st') => (Respond result, st')
            | (Raise pipeline_error, st') =>
                (HTTPException 500
                   (str_http_exception 500
                      ("FinGPT processing failed: " +:+ exn_str pipeline_error)),
                 st')
            end
        end
    end.

(** [GET /api/health], at the time [now] reads as. The process never
    changes its environment: [os.getenv("HF_API_TOKEN")] is the token the
    client read when it was loaded, and the manager's index is the handle
    the pipeline holds. *)
Definition health_check (now : string) : health :=
  {| h_status := "healthy";
     h_timestamp := now;
     pinecone_available := isSome (pinecone_index E);
     hf_token_configured :=
       match HF_API_TOKEN E with
       | Some tok => PyStr.truthy tok && negb (String.eqb tok placeholder_token)
       | None => false
       end |}.

End Main.

(** ** backend/config.py *)

Module Config.

(** The class attributes [validate_config] reads: what [os.getenv] gave
    when the module was loaded. *)
Record t : Type := {
  PINECONE_API_KEY : option string;
  HF_API_TOKEN : option string;
  HF_MODEL : option string
}.

Definition required_vars : list string :=
  ["PINECONE_API_KEY"; "HF_API_TOKEN"; "HF_MODEL"].

(** [getattr(cls, var)] for a required variable *)
Definition getattr (cls : t) (var : string) : option string :=
  if String.eqb var "PINECONE_API_KEY" then PINECONE_API_KEY cls
  else if String.eqb var "HF_API_TOKEN" then HF_API_TOKEN cls
  else if String.eqb var "HF_MODEL" then HF_MODEL cls
  else None.

(** [not v] for a value that is [None] or a string *)
Definition not_ (v : option string) : bool :=
  match v with
  | Some s => negb (PyStr.truthy s)
  | None => true
  end.

Definition missing_vars (cls : t) : list string :=
  List.filter (fun var => not_ (getattr cls var)) required_vars.

Definition validate_config (cls : t) : result bool :=
  match missing_vars cls with
  | [] => Ret true
  | missing =>
      Raise (ValueError ("Missing required environment variables: "
                         +:+ PyStr.join ", " missing))
  end.

End Config.

(** ** backend/pinecone_manager.py *)

Module PineconeManager.

(** The calls the manager makes on the Pinecone client, and its waits. *)
Inductive call : Type :=
| CallPinecone (api_key : string)
| CallListIndexes
| CallCreateIndex (name : string) (dimension : Z) (metric cloud region : string)
| CallDescribeIndex (name : string)
| CallSleep (seconds : Z)
| CallIndex (name : string)
| CallDescribeIndexStats.

(** The environment and the Pinecone service. What the service answers
    depends on the calls made so far. *)
Record Client : Type := {
  (** [os.getenv] *)
  getenv : string -> option string;
  (** [Pinecone(api_key=..)] *)
  Pinecone : string -> result unit;
  (** the names of [pc.list_indexes()] *)
  list_indexes : list call -> result (list string);
  (** [pc.create_index(name, dimension, metric, spec)] *)
  create_index : list call -> string -> result unit;
  (** [pc.describe_index(name).status.get("ready", False)] *)
  describe_index : list call -> string -> result bool;
  (** [pc.Index(name)] *)
  Index : list call -> string -> result handle;
  (** [index.describe_index_stats()] *)
  describe_index_stats : list call -> result string
}.

(** The attributes of the manager. *)
Record manager : Type := {
  api_key : option string;
  index_name : string;
  pc : bool;
  index : option handle
}.

Definition set_index (i : option handle) (self : manager) : manager :=
  {| api_key := api_key self; index_name := index_name self; pc := pc self;
     index := i |}.

(** What [test_connection] returns. *)
Inductive connection : Type :=
| ConnError (message : string)
| ConnSuccess (stats : string).

Section Manager.
Variable C : Client.

(** The wait of [_create_index]: [while True], at most [fuel] polls of
    which are run here; [None] when the loop is still running after
    them. *)
Fixpoint wait_until_ready (fuel : nat) (name : string) (log : list call)
  : option (result unit * list call) :=
  match fuel with
  | O => None
  | S fuel' =>
      let log1 := log ++ [CallDescribeIndex name] in
      match describe_index C log name with
      | Raise e => Some (Raise e, log1)
      | Ret ready =>
          if ready then Some (Ret tt, log1)
          else wait_until_ready fuel' name (log1 ++ [CallSleep 2])
      end
  end.

Definition _create_index (fuel : nat) (self : manager) (log : list call)
  : option (manager * list call) :=
  let name := index_name self in
  let log1 := log ++ [CallCreateIndex name 1536 "cosine" "aws" "us-east-1"] in
  match create_index C log name with
  | Raise _ => Some (set_index None self, log1)
  | Ret _ =>
      match wait_until_ready fuel name log1 with
      | None => None
      | Some (Raise _, log2) => Some (set_index None self, log2)
      | Some (Ret _, log2) =>
          match Index C log2 name with
          | Raise _ => Some (set_index None self, log2 ++ [CallIndex name])
          | Ret h => Some (set_index (Some h) self, log2 ++ [CallIndex name])
          end
      end
  end.

(** The probe that ends [_setup_index] when there is an index (a handle
    is an object, which is true in a condition). *)
Definition probe (self : manager) (log : list call) : manager * list call :=
  match index self with
  | None => (self, log)
  | Some _ =>
      match describe_index_stats C log with
      | Ret _ => (self, log ++ [CallDescribeIndexStats])
      | Raise _ => (set_index None self, log ++ [CallDescribeIndexStats])
      end
  end.

Definition _setup_index (fuel : nat) (self : manager) (log : list call)
  : option (manager * list call) :=
  let name := index_name self in
  let log1 := log ++ [CallListIndexes] in
  match list_indexes C log with
  | Raise _ => Some (set_index None self, log1)
  | Ret existing_indexes =>
      if negb (existsb (String.eqb name) existing_indexes) then
        match _create_index fuel self log1 with
        | None => None
        | Some (self1, log2) => Some (probe self1 log2)
        end
      else
        match Index C log1 name with
        | Raise _ => Some (set_index None self, log1 ++ [CallIndex name])
        | Ret h => Some (probe (set_index (Some h) self) (log1 ++ [CallIndex name]))
        end
  end.

(** [PineconeManager()]: the manager and the calls made, when the
    constructor is over after [fuel] polls at most. *)
Definition __init__ (fuel : nat) : option (manager * list call) :=
  let self :=
    {| api_key := getenv C "PINECONE_API_KEY";
       index_name :=
         match getenv C "PINECONE_INDEX_NAME" with
         | Some name => name
         | None => "budget-bot"
         end;
       pc := false;
       index := None |} in
  match api_key self with
  | None => Some (self, [])
  | Some key =>
      if negb (PyStr.truthy key) then Some (self, [])
      else
        match Pinecone C key with
        | Raise _ => Some (self, [CallPinecone key])
        | Ret _ =>
            _setup_index fuel
              {| api_key := api_key self; index_name := index_name self;
                 pc := true; index := None |}
              [CallPinecone key]
        end
  end.

Definition get_index (self : manager) : option handle := index self.

Definition is_available (self : manager) : bool := isSome (index self).

Definition test_connection (self : manager) (log : list call)
  : connection * list call :=
  match index self with
  | None => (ConnError "Index not available", log)
  | Some _ =>
      match describe_index_stats C log with
      | Ret stats => (ConnSuccess stats, log ++ [CallDescribeIndexStats])
      | Raise e => (ConnError (exn_str e), log ++ [CallDescribeIndexStats])
      end
  end.

End Manager.
End PineconeManager.

(** * The vocabulary of the specification *)

(** The words of the specification: the first non-empty of [text],
    [chunk_text], [description] in the metadata of a match, if any. *)
Definition preferred_text (m : match_) : option string :=
  let meta := match metadata m with Some d => d | None => ∅ end in
  List.find PyStr.truthy
    (omap (fun key => meta !! key) ["text"; "chunk_text"; "description"]).

(** The snippets selected from a match list: one per match with usable
    text. *)
Definition selected_snippets (results : list match_) : list string :=
  omap preferred_text results.

(** The number a finite amount stands for. *)
Definition exact (x : PyNum.t) : Q :=
  match x with
  | PyNum.Int z => inject_Z z
  | PyNum.Float (PyNum.Fin q) => q
  | PyNum.Float _ => 0%Q
  end.



Definition int_of (x : PyNum.t) : Z :=
  match x with PyNum.Int z => z | PyNum.Float _ => 0 end.



Fixpoint mass (amounts : list PyNum.t) : Z :=
  match amounts with
  | [] => 0
  | x :: amounts' => Z.abs (int_of x) + mass amounts'
  end.

Definition int_mass (expenses : list expense) : Z := mass (map amount expenses).

(** A number that is a float, or an int of absolute value at most [B]. *)
Definition bounded (B : Z) (x : PyNum.t) : Prop := Z.abs (int_of x) <= B.

(** A batch whose amounts the code can turn into floats and render: the
    ints among them add up, in absolute value, to less than [2 ^ 1023];
    and the batch is no longer than a Python list can be. *)
Definition in_float_range (expenses : list expense) : Prop :=
  int_mass expenses < 2 ^ 1023 /\ Z.of_nat (length expenses) < 2 ^ 63.

(** A float that is not a number. *)
Definition is_nan (x : PyNum.t) : bool :=
  match x with PyNum.Float PyNum.NaN => true | _ => false end.

(** The five intents of a question, and the words that signal each. *)
Inductive intent : Type := Biggest | Total | Categories | Saving | Summary.

Definition intent_words (i : intent) : list string :=
  match i with
  | Biggest => biggest_words
  | Total => total_words
  | Categories => category_words
  | Saving => saving_words
  | Summary => []
  end.

(** The fixed priority order of the classes. *)
Definition priority_order : list intent := [Biggest; Total; Categories; Saving].

(** The words of the specification: the first class, in the priority
    order, one of whose words the lower-cased question contains; the
    generic summary when there is none. *)
Definition first_matching_class (question : string) : intent :=
  match List.find (fun i => PyStr.any_in (intent_words i) (PyStr.lower question))
                  priority_order with
  | Some i => i
  | None => Summary
  end.

(** The answer of a class on the batch [first :: rest], once the total
    and the totals by category are there. *)
Definition answer_for (E : Env) (i : intent) (first : expense)
    (rest : list expense) : result string :=
  let expenses := first :: rest in
  let* total := total_amount expenses in
  let* totals := category_totals expenses in
  let top := top_category_of totals in
  let biggest := py_max amount first rest in
  match i with
  | Biggest => answer_biggest E biggest
  | Total => answer_total total (length expenses) top
  | Categories => answer_categories totals top
  | Saving => answer_saving biggest top
  | Summary => answer_summary total (length expenses) biggest top
  end.

(** The expiry time the cache holds for a key, if it holds the key. *)
Definition expiry_of (k : cache_key) (st : state) : option Z :=
  option_map TTLCache.e_expires (TTLCache.find k (query_cache st)).

(** A call of the retriever: its arguments and the two clock readings. *)
Record call : Type := {
  c_index : option handle;
  c_user_id : string;
  c_query : string;
  c_top_k : Z;
  c_tget : Z;
  c_tset : Z
}.

Definition run_call (E : Env) (c : call) (st : state) : state :=
  snd (query_user_expenses E (c_index c) (c_user_id c) (c_query c) (c_top_k c)
         (c_tget c) (c_tset c) st).

(** The state after a sequence of calls. *)
Definition run_calls (E : Env) (cs : list call) (st : state) : state :=
  fold_left (fun st c => run_call E c st) cs st.

(** The state of a fresh process. *)
Definition initial_state : state := {| trace := []; query_cache := [] |}.

(** The cache key of a call. *)
Definition call_key (c : call) : cache_key :=
  (c_index c, c_user_id c, c_query c, c_top_k c).

(** The events a call adds to the log: all of them satisfy [P]. *)
Definition adds (P : event -> Prop) (st st' : state) : Prop :=
  exists evs, trace st' = trace st ++ evs /\ Forall P evs.

(** A store query whose filter requires the user [uid]. *)
Definition query_for (uid : string) (ev : event) : Prop :=
  match ev with
  | EvQuery _ _ f => fc_user_id_eq f = uid
  | EvUpsert _ _ => False
  end.

(** The user a match belongs to: the [user_id] of its metadata. *)
Definition match_user (m : match_) : option string :=
  match metadata m with
  | Some d => d !! "user_id"
  | None => None
  end.

(** Matches that all belong to the user [uid]. *)
Definition scoped_to (uid : string) (ms : list match_) : Prop :=
  Forall (fun m => match_user m = Some uid) ms.

(** A store that applies the filter it is given: every match it returns
    belongs to the user the filter requires. *)
Definition honours_filter (E : Env) : Prop :=
  forall tr text top_k f ms,
    index_query E tr text top_k f = Ret (Some ms) ->
    scoped_to (fc_user_id_eq f) ms.

(** The user of a cache key. *)
Definition key_user (k : cache_key) : string :=
  let '(_, uid, _, _) := k in uid.

(** A cache in which every entry holds matches of the user of its key. *)
Definition cache_scoped (c : TTLCache.t cache_key (list match_)) : Prop :=
  Forall (fun e => scoped_to (key_user (TTLCache.e_key e)) (TTLCache.e_value e)) c.

(** The error message of a query whose upsert step raised [e]. *)
Definition upsert_error (e : exn) : string :=
  match e with
  | ValueError m => "Failed to store expenses: " +:+ m
  | _ => "Storage error: " +:+ exn_str e
  end.

(** What an error result of the orchestrator reports: a blank
    question; an empty batch; the first invalid expense; a raise of the
    upsert step, on a batch of several users or on an int amount beyond
    the floats; a raise of the filter extraction; a context that cannot
    be rendered; a local analysis that raises. *)
Definition error_report (E : Env) (question : string) (items : list item)
    (st : state) (msg : string) : Prop :=
  (PyStr.strip question = EmptyString /\ msg = "Question cannot be empty")
  \/ (items = [] /\ msg = "No expenses provided to analyze.")
  \/ validate 0 items = inl msg
  \/ (exists es e,
        validate 0 items = inr es
        /\ upsert_expenses_to_pinecone E es st = (Raise e, st)
        /\ pinecone_index E <> None
        /\ (size (user_ids es) <> 1%nat
            /\ msg = "Failed to store expenses: All expenses to upsert must belong to the same user_id."
            \/ size (user_ids es) = 1%nat
               /\ msg = "Storage error: int too large to convert to float"
               /\ exists x z, In x es /\ amount x = PyNum.Int z
                               /\ 2 ^ 1023 <= Z.abs z))
  \/ (exists first rest e,
        validate 0 items = inr (first :: rest)
        /\ extract_filters_from_query E question (user_id first) = Raise e
        /\ msg = "Failed to process query filters: " +:+ exn_str e)
  \/ (exists first rest e,
        validate 0 items = inr (first :: rest)
        /\ fallback_context E (first :: rest) = Raise e
        /\ msg = "Failed to format context: " +:+ exn_str e)
  \/ (exists first rest e,
        validate 0 items = inr (first :: rest)
        /\ local_expense_analysis E question (first :: rest) = Raise e
        /\ msg = "Unexpected error: " +:+ exn_str e).

(** The backend answered 200 with a generated text that is blank. *)
Definition generated_blank (E : Env) (prompt : string) : Prop :=
  exists tok r fields others key s,
    HF_API_TOKEN E = Some tok
    /\ requests_post E (HF_API_URL E) tok prompt = Ret r
    /\ status_code r = 200
    /\ body r = Some (JArr (JObj fields :: others))
    /\ List.find (fun kv => String.eqb (fst kv) "generated_text") fields
       = Some (key, JStr s)
    /\ PyStr.strip s = EmptyString.

(** A request to the orchestrator: its arguments and the two clock
    readings of its retrieval. *)
Record request : Type := {
  r_question : string;
  r_items : list item;
  r_tget : Z;
  r_tset : Z
}.

Definition run_request (E : Env) (r : request) (st : state) : state :=
  snd (query_fingpt E (r_question r) (r_items r) (r_tget r) (r_tset r) st).

(** The state after a sequence of requests. *)
Definition run_requests (E : Env) (rs : list request) (st : state) : state :=
  fold_left (fun st r => run_request E r st) rs st.

(** The amounts of the expenses of the category [c], in the order of
    the batch, and their sum as Python adds them. *)
Definition category_amounts (c : string) (expenses : list expense)
  : list PyNum.t :=
  map amount (List.filter (fun e => String.eqb (category e) c) expenses).

Definition category_sum (c : string) (expenses : list expense)
  : result PyNum.t :=
  py_sum (category_amounts c expenses).

(** What the loop keeps true of the totals by category: every category
    met so far is there once, with the sum of its amounts in the order
    they were met. *)
Definition totals_of (seen : list expense) (cats : totals) : Prop :=
  List.NoDup (map fst cats)
  /\ (forall c, In c (map fst cats) <-> In c (map category seen))
  /\ (forall c v, In (c, v) cats -> category_sum c seen = Ret v).

(** [d.get(k)] *)
Definition dict_get (k : string) (d : totals) : option PyNum.t :=
  option_map snd (List.find (fun kv => String.eqb (fst kv) k) d).





(** The record written to the store for an expense whose text is [text]. *)
Definition vector_of (E : Env) (e : expense) (text : string) : vector :=
  {| vec_id := doc_id E e; vec_values := text; vec_metadata := doc_meta e text |}.

(** [v] is the record of the expense [e]: its text is the rendering of
    [e], and its id and metadata are those of [e]. *)
Definition record_of (E : Env) (e : expense) (v : vector) : Prop :=
  doc_text e = Ret (vec_values v) /\ v = vector_of E e (vec_values v).

(** The store query the retriever makes for a question and its filter
    set. *)
Definition store_query (uid query : string) (top_k : Z) (flt : filters) : event :=
  EvQuery (query_text_of query flt) top_k
    {| fc_user_id_eq := uid; fc_date := date_filter flt |}.

(** A store that fails every query. *)
Definition store_down (E : Env) : Prop :=
  forall tr text top_k f, exists ex, index_query E tr text top_k f = Raise ex.

(** The keys a cache holds, least recently used first. *)
Definition cache_keys (c : TTLCache.t cache_key (list match_)) : list cache_key :=
  map TTLCache.e_key c.

(** An environment whose token [tok] the client accepts: set, not empty,
    not the placeholder of the documentation. *)
Definition configured (E : Env) (tok : string) : Prop :=
  HF_API_TOKEN E = Some tok /\ tok <> EmptyString /\ tok <> placeholder_token.

(** A text the orchestrator takes for a failure of the backend. *)
Definition reads_as_error (s : string) : bool :=
  PyStr.any_in error_indicators (PyStr.lower s).

(** A cache whose results are all empty. *)
Definition cache_blank (c : TTLCache.t cache_key (list match_)) : Prop :=
  Forall (fun e => TTLCache.e_value e = []) c.

(** A value that is set and not empty. *)
Definition present (v : option string) : Prop :=
  exists s, v = Some s /\ s <> EmptyString.

(** The log of the manager after [n] polls that found the index not
    ready, each followed by its wait. *)
Fixpoint after_polls (name : string) (log : list PineconeManager.call) (n : nat)
  : list PineconeManager.call :=
  match n with
  | O => log
  | S n' =>
      after_polls name
        ((log ++ [PineconeManager.CallDescribeIndex name])
           ++ [PineconeManager.CallSleep 2]) n'
  end.

(** The seconds a log has the process sleep. *)
Fixpoint slept (log : list PineconeManager.call) : Z :=
  match log with
  | [] => 0
  | PineconeManager.CallSleep seconds :: log' => seconds + slept log'
  | _ :: log' => slept log'
  end.

(** The calls with which the constructor asks for a new index. *)
Definition creation_log (key name : string) : list PineconeManager.call :=
  [PineconeManager.CallPinecone key; PineconeManager.CallListIndexes;
   PineconeManager.CallCreateIndex name 1536 "cosine" "aws" "us-east-1"].

(** The name of the index the manager works with. *)
Definition index_name_of (C : PineconeManager.Client) : string :=
  match PineconeManager.getenv C "PINECONE_INDEX_NAME" with
  | Some name => name
  | None => "budget-bot"
  end.

(** The calls that ask for a new index or wait for it. *)
Definition creates (c : PineconeManager.call) : bool :=
  match c with
  | PineconeManager.CallCreateIndex _ _ _ _ _
  | PineconeManager.CallDescribeIndex _
  | PineconeManager.CallSleep _ => true
  | _ => false
  end.

(** The messages of the client about a failure all begin alike. *)
Definition is_apology (s : string) : bool := String.prefix "I apologize, but " s.

(** The backend answered 200 with the generated text [s]. *)
Definition generated_by (E : Env) (prompt s : string) : Prop :=
  exists tok r fields others key,
    configured E tok
    /\ requests_post E (HF_API_URL E) tok prompt = Ret r
    /\ status_code r = 200
    /\ body r = Some (JArr (JObj fields :: others))
    /\ List.find (fun kv => String.eqb (fst kv) "generated_text") fields
       = Some (key, JStr s).

(** * Example worlds and batches *)

(** A rendering of numbers for the example worlds. *)
Definition str_number (x : PyNum.t) : string :=
  match x with
  | PyNum.Int z => PyStr.of_Z z
  | PyNum.Float f => PyNum.format_float f
  end.

(** A match whose text reads as the sentinel does. *)
Definition sentinel_match : match_ :=
  {| metadata := Some {[ "text" := sentinel ]} |}.

(** A query in which spaCy finds two dates. *)
Definition two_dates_doc : doc :=
  {| doc_ents := [ {| ent_text := "january 2024"; ent_label := "DATE" |};
                   {| ent_text := "march 2024"; ent_label := "DATE" |} ];
     doc_tokens := [] |}.

Definition no_response : response :=
  {| status_code := 503; text := EmptyString; body := None |}.

Definition two_dates_env : Env :=
  {| nlp := fun _ => Some two_dates_doc;
     dateparser_parse_str := fun _ => Some {| dt_year := 2024; dt_month := 1; dt_day := 1 |};
     fromisoformat := fun _ => None;
     strftime := fun _ _ => "2024-01-01";
     str_amount := str_number;
     unsupported := fun _ => "unsupported";
     HF_API_TOKEN := None;
     HF_API_URL := "https://api-inference.huggingface.co/models/gpt2";
     requests_post := fun _ _ _ => Ret no_response;
     pinecone_index := None;
     has_upsert := true;
     has_query := true;
     index_upsert := fun _ _ _ => Ret tt;
     index_query := fun _ _ _ _ => Ret None |}.

(** Two expenses of one user. *)
Definition lunch : expense :=
  {| user_id := "u1"; amount := PyNum.Int 500; category := "Food";
     description := "lunch"; date := "2024-01-05"; expense_id := None |}.

Definition rent : expense :=
  {| user_id := "u1"; amount := PyNum.Int 12000; category := "Rent";
     description := EmptyString; date := "2024-01-01"; expense_id := None |}.

(** A store that knows one expense of user [u1]. *)
Definition lunch_match : match_ :=
  {| metadata := Some {[ "user_id" := "u1";
                         "text" := "Date: 2024-01-05, Amount: 500.00, Category: Food" ]} |}.

Definition plain_doc : doc := {| doc_ents := []; doc_tokens := [] |}.

Definition unauthorized : response :=
  {| status_code := 401; text := "Unauthorized"; body := None |}.

Definition online_env : Env :=
  {| nlp := fun _ => Some plain_doc;
     dateparser_parse_str := fun _ => None;
     fromisoformat := fun _ => None;
     strftime := fun _ _ => EmptyString;
     str_amount := str_number;
     unsupported := fun _ => "unsupported";
     HF_API_TOKEN := Some "hf_secret";
     HF_API_URL := "https://api-inference.huggingface.co/models/gpt2";
     requests_post := fun _ _ _ => Ret unauthorized;
     pinecone_index := Some PineconeIndex;
     has_upsert := true;
     has_query := true;
     index_upsert := fun _ _ _ => Ret tt;
     index_query := fun _ _ _ f =>
       if String.eqb (fc_user_id_eq f) "u1" then Ret (Some [lunch_match])
       else Ret (Some []) |}.

(** The state after one call of the retriever in a fresh process. *)
Definition cached_state : state :=
  snd (query_user_expenses online_env (Some PineconeIndex) "u1" "food" 5 0 1
         initial_state).

(** The batches of the examples, as the caller sends them. *)
Definition raw_lunch : raw_expense :=
  {| raw_user_id := Some "u1"; raw_amount := Some (PyNum.Int 500);
     raw_category := Some "Food"; raw_description := Some "lunch";
     raw_date := Some "2024-01-05"; raw_expense_id := None |}.

Definition raw_taxi : raw_expense :=
  {| raw_user_id := Some "u2"; raw_amount := Some (PyNum.Int 120);
     raw_category := Some "Transport"; raw_description := Some "taxi";
     raw_date := Some "2024-01-06"; raw_expense_id := None |}.

(** A store whose writes fail and whose queries work. *)
Definition failing_store_env : Env :=
  {| nlp := nlp online_env;
     dateparser_parse_str := dateparser_parse_str online_env;
     fromisoformat := fromisoformat online_env;
     strftime := strftime online_env;
     str_amount := str_amount online_env;
     unsupported := unsupported online_env;
     HF_API_TOKEN := HF_API_TOKEN online_env;
     HF_API_URL := HF_API_URL online_env;
     requests_post := requests_post online_env;
     pinecone_index := Some PineconeIndex;
     has_upsert := true;
     has_query := true;
     index_upsert := fun _ _ _ => Raise (OtherException "connection reset");
     index_query := index_query online_env |}.

(** No store at all. *)
Definition offline_env : Env :=
  {| nlp := nlp online_env;
     dateparser_parse_str := dateparser_parse_str online_env;
     fromisoformat := fromisoformat online_env;
     strftime := strftime online_env;
     str_amount := str_amount online_env;
     unsupported := unsupported online_env;
     HF_API_TOKEN := HF_API_TOKEN online_env;
     HF_API_URL := HF_API_URL online_env;
     requests_post := requests_post online_env;
     pinecone_index := None;
     has_upsert := false;
     has_query := false;
     index_upsert := index_upsert online_env;
     index_query := index_query online_env |}.

(** A backend that answers 200 with a generated text of spaces. *)
Definition blank_generation : response :=
  {| status_code := 200; text := EmptyString;
     body := Some (JArr [JObj [("generated_text", JStr "   ")]]) |}.

Definition blank_env : Env :=
  {| nlp := nlp online_env;
     dateparser_parse_str := dateparser_parse_str online_env;
     fromisoformat := fromisoformat online_env;
     strftime := strftime online_env;
     str_amount := str_amount online_env;
     unsupported := unsupported online_env;
     HF_API_TOKEN := HF_API_TOKEN online_env;
     HF_API_URL := HF_API_URL online_env;
     requests_post := fun _ _ _ => Ret blank_generation;
     pinecone_index := pinecone_index online_env;
     has_upsert := has_upsert online_env;
     has_query := has_query online_env;
     index_upsert := index_upsert online_env;
     index_query := index_query online_env |}.

(** A query in which spaCy finds one date and one keyword. *)
Definition one_date_doc : doc :=
  {| doc_ents := [ {| ent_text := "5 january 2024"; ent_label := "DATE" |} ];
     doc_tokens := [ {| tok_lemma := "food"; tok_pos := "NOUN"; tok_is_stop := false |} ] |}.

Definition one_date_env : Env :=
  {| nlp := fun _ => Some one_date_doc;
     dateparser_parse_str := fun _ => Some {| dt_year := 2024; dt_month := 1; dt_day := 5 |};
     fromisoformat := fromisoformat online_env;
     strftime := fun _ _ => "2024-01-05";
     str_amount := str_amount online_env;
     unsupported := unsupported online_env;
     HF_API_TOKEN := HF_API_TOKEN online_env;
     HF_API_URL := HF_API_URL online_env;
     requests_post := requests_post online_env;
     pinecone_index := pinecone_index online_env;
     has_upsert := has_upsert online_env;
     has_query := has_query online_env;
     index_upsert := index_upsert online_env;
     index_query := index_query online_env |}.

(** spaCy fails on every text. *)
Definition no_spacy_env : Env :=
  {| nlp := fun _ => None;
     dateparser_parse_str := dateparser_parse_str online_env;
     fromisoformat := fromisoformat online_env;
     strftime := strftime online_env;
     str_amount := str_amount online_env;
     unsupported := unsupported online_env;
     HF_API_TOKEN := HF_API_TOKEN online_env;
     HF_API_URL := HF_API_URL online_env;
     requests_post := requests_post online_env;
     pinecone_index := pinecone_index online_env;
     has_upsert := has_upsert online_env;
     has_query := has_query online_env;
     index_upsert := index_upsert online_env;
     index_query := index_query online_env |}.

(** A store whose queries fail. *)
Definition query_down_env : Env :=
  {| nlp := nlp online_env;
     dateparser_parse_str := dateparser_parse_str online_env;
     fromisoformat := fromisoformat online_env;
     strftime := strftime online_env;
     str_amount := str_amount online_env;
     unsupported := unsupported online_env;
     HF_API_TOKEN := HF_API_TOKEN online_env;
     HF_API_URL := HF_API_URL online_env;
     requests_post := requests_post online_env;
     pinecone_index := pinecone_index online_env;
     has_upsert := has_upsert online_env;
     has_query := has_query online_env;
     index_upsert := index_upsert online_env;
     index_query := fun _ _ _ _ => Raise (OtherException "503 Service Unavailable") |}.

(** A cache that is full: a hundred results, each of a question of its
    own, none of them about to expire. *)
Definition numbered_entry (n : nat) : TTLCache.entry cache_key (list match_) :=
  {| TTLCache.e_key := (Some PineconeIndex, "u1", PyStr.of_nat n, 5);
     TTLCache.e_value := [];
     TTLCache.e_expires := 1000 |}.

Definition full_state : state :=
  {| trace := []; query_cache := map numbered_entry (seq 0 100) |}.

(** Backends: one that answers 500, one that does not answer in time,
    one that generates a text. *)
Definition server_error : response :=
  {| status_code := 500; text := "Internal Server Error"; body := None |}.

Definition with_backend (post : string -> string -> string -> result response)
  : Env :=
  {| nlp := nlp online_env;
     dateparser_parse_str := dateparser_parse_str online_env;
     fromisoformat := fromisoformat online_env;
     strftime := strftime online_env;
     str_amount := str_amount online_env;
     unsupported := unsupported online_env;
     HF_API_TOKEN := HF_API_TOKEN online_env;
     HF_API_URL := HF_API_URL online_env;
     requests_post := post;
     pinecone_index := pinecone_index online_env;
     has_upsert := has_upsert online_env;
     has_query := has_query online_env;
     index_upsert := index_upsert online_env;
     index_query := index_query online_env |}.

Definition server_error_env : Env := with_backend (fun _ _ _ => Ret server_error).

Definition timeout_env : Env :=
  with_backend (fun _ _ _ => Raise (RequestsTimeout "Read timed out.")).

Definition generation : response :=
  {| status_code := 200; text := EmptyString;
     body := Some (JArr [JObj [("generated_text", JStr " You spent 500 on food. ")]]) |}.

Definition generation_env : Env := with_backend (fun _ _ _ => Ret generation).

(** An expense without a date, as the caller sends it. *)
Definition raw_undated : raw_expense :=
  {| raw_user_id := Some "u1"; raw_amount := Some (PyNum.Int 80);
     raw_category := Some "Food"; raw_description := Some "snack";
     raw_date := None; raw_expense_id := None |}.

(** The text of an [HTTPException], as the framework renders it. *)
Definition http_text (code : Z) (detail : string) : string :=
  PyStr.of_Z code +:+ ": " +:+ detail.

(** No token for the backend. *)
Definition no_token_env : Env :=
  {| nlp := nlp online_env;
     dateparser_parse_str := dateparser_parse_str online_env;
     fromisoformat := fromisoformat online_env;
     strftime := strftime online_env;
     str_amount := str_amount online_env;
     unsupported := unsupported online_env;
     HF_API_TOKEN := Some placeholder_token;
     HF_API_URL := HF_API_URL online_env;
     requests_post := fun _ _ _ => Ret generation;
     pinecone_index := pinecone_index online_env;
     has_upsert := has_upsert online_env;
     has_query := has_query online_env;
     index_upsert := index_upsert online_env;
     index_query := index_query online_env |}.

(** A configuration without a model. *)
Definition no_model_config : Config.t :=
  {| Config.PINECONE_API_KEY := Some "pc_secret";
     Config.HF_API_TOKEN := Some "hf_secret";
     Config.HF_MODEL := None |}.

(** Pinecone services: one whose new index is ready at the third poll,
    one whose new index is never ready, one that lists the index. *)
Definition pinecone_env (var : string) : option string :=
  if String.eqb var "PINECONE_API_KEY" then Some "pc_secret" else None.

Definition slow_client : PineconeManager.Client :=
  {| PineconeManager.getenv := pinecone_env;
     PineconeManager.Pinecone := fun _ => Ret tt;
     PineconeManager.list_indexes := fun _ => Ret [];
     PineconeManager.create_index := fun _ _ => Ret tt;
     PineconeManager.describe_index := fun log _ => Ret (7 <=? length log)%nat;
     PineconeManager.Index := fun _ _ => Ret PineconeIndex;
     PineconeManager.describe_index_stats := fun _ => Ret "{}" |}.

Definition stuck_client : PineconeManager.Client :=
  {| PineconeManager.getenv := pinecone_env;
     PineconeManager.Pinecone := fun _ => Ret tt;
     PineconeManager.list_indexes := fun _ => Ret [];
     PineconeManager.create_index := fun _ _ => Ret tt;
     PineconeManager.describe_index := fun _ _ => Ret false;
     PineconeManager.Index := fun _ _ => Ret PineconeIndex;
     PineconeManager.describe_index_stats := fun _ => Ret "{}" |}.

Definition ready_client : PineconeManager.Client :=
  {| PineconeManager.getenv := pinecone_env;
     PineconeManager.Pinecone := fun _ => Ret tt;
     PineconeManager.list_indexes := fun _ => Ret ["other"; "budget-bot"];
     PineconeManager.create_index := fun _ _ => Raise (OtherException "quota");
     PineconeManager.describe_index := fun _ _ => Ret false;
     PineconeManager.Index := fun _ _ => Ret PineconeIndex;
     PineconeManager.describe_index_stats := fun _ => Ret "{}" |}.

(** Two dates in the question, and a store that is there. *)
Definition two_dates_online_env : Env :=
  {| nlp := nlp two_dates_env;
     dateparser_parse_str := dateparser_parse_str two_dates_env;
     fromisoformat := fromisoformat online_env;
     strftime := strftime two_dates_env;
     str_amount := str_amount online_env;
     unsupported := unsupported online_env;
     HF_API_TOKEN := HF_API_TOKEN online_env;
     HF_API_URL := HF_API_URL online_env;
     requests_post := requests_post online_env;
     pinecone_index := pinecone_index online_env;
     has_upsert := has_upsert online_env;
     has_query := has_query online_env;
     index_upsert := index_upsert online_env;
     index_query := index_query online_env |}.




(** An amount that is an int beyond the floats. *)
Definition raw_fortune : raw_expense :=
  {| raw_user_id := Some "u1"; raw_amount := Some (PyNum.Int (10 ^ 400));
     raw_category := Some "Savings"; raw_description := Some "fortune";
     raw_date := Some "2024-01-07"; raw_expense_id := None |}.

Definition fortune : expense :=
  {| user_id := "u1"; amount := PyNum.Int (10 ^ 400); category := "Savings";
     description := "fortune"; date := "2024-01-07"; expense_id := None |}.

(** A hundred calls of the retriever with other queries, all of them
    two seconds after the first call. *)
Definition other_call (n : nat) : call :=
  {| c_index := Some PineconeIndex; c_user_id := "u1"; c_query := PyStr.of_nat n;
     c_top_k := 5; c_tget := 2; c_tset := 3 |}.

Definition hundred_other_calls : list call := map other_call (seq 0 100).
(** * Properties *)

(** ** Strings *)

Lemma truthy_true (s : string) : PyStr.truthy s = true <-> s <> EmptyString.
Proof.
  destruct s; simpl; split; intros H; try discriminate; try reflexivity.
  now elim H.
Qed.

Lemma append_nonempty_l (a b : string) : a <> EmptyString -> a +:+ b <> EmptyString.
Proof. destruct a; simpl; [intros H; now elim H | discriminate]. Qed.

Lemma join_nonempty (sep x : string) (l : list string) :
  x <> EmptyString -> PyStr.join sep (x :: l) <> EmptyString.
Proof.
  intros Hx. unfold PyStr.join. destruct l as [|y l]; simpl; [exact Hx|].
  now apply append_nonempty_l.
Qed.

(** ** Numbers *)



Lemma round_half_even_bounds (q : Q) :
  Qfloor q <= Amount.round_half_even q <= Qfloor q + 1.
Proof.
  unfold Amount.round_half_even.
  destruct (2 * (q - inject_Z (Qfloor q)) ?= 1)%Q; [destruct (Z.even _)| |]; lia.
Qed.



Lemma pow2_pos (e : Z) : (0 < 2 ^ e)%Q.
Proof. now apply Qpower_0_lt. Qed.

Lemma pow2_Z (n : Z) : 0 <= n -> (2 ^ n == inject_Z (2 ^ n))%Q.
Proof. intros Hn. now rewrite Zpower_Qpower. Qed.

Lemma pow2_le (a b : Z) : a <= b -> (2 ^ a <= 2 ^ b)%Q.
Proof. intros Hab. apply Qpower_le_compat_l; [exact Hab | discriminate]. Qed.

(** The logarithm the rounding starts from is at most that of the
    numerator. *)
Lemma ilog2_le (q : Q) : PyNum.ilog2 q <= Z.log2 (Qnum q).
Proof.
  unfold PyNum.ilog2.
  pose proof (Z.log2_nonneg (Z.pos (Qden q))).
  destruct (Qle_bool _ _); lia.
Qed.

Lemma Qabs_le_num (q : Q) : (Qabs q <= inject_Z (Z.abs (Qnum q)))%Q.
Proof.
  destruct q as [n d]. unfold Qabs, Qle, inject_Z. cbn [Qnum Qden].
  pose proof (Z.abs_nonneg n). pose proof (Pos2Z.is_pos d). apply Z.mul_le_mono_nonneg_l; lia.
Qed.

(** The exponent the rounding works at, for a numerator of fewer than
    [bound] bits. *)
Lemma round_exponent_le (q : Q) (bound : Z) :
  0 < bound -> Z.abs (Qnum q) < 2 ^ bound ->
  Z.max (PyNum.ilog2 (Qabs q) - 52) (-1074) <= Z.max (bound - 53) (-1074).
Proof.
  intros bound_pos Hnum. pose proof (ilog2_le (Qabs q)) as Hl.
  assert (Z.log2 (Qnum (Qabs q)) < bound).
  { destruct q as [n d]. cbn [Qabs Qnum].
    destruct (Z.eq_dec n 0) as [-> | Hn]; [exact bound_pos|].
    apply Z.log2_lt_pow2; [lia | exact Hnum]. }
  lia.
Qed.

(** The rounded value is less than one unit of the last place above the
    value. *)
Lemma round_value_le (q : Q) (e : Z) :
  (inject_Z (Amount.round_half_even (Qabs q / 2 ^ e)) * 2 ^ e
   <= Qabs q + 2 ^ e)%Q.
Proof.
  set (a := Qabs q).
  assert (Hm : (inject_Z (Amount.round_half_even (a / 2 ^ e)) <= a / 2 ^ e + 1)%Q).
  { pose proof (round_half_even_bounds (a / 2 ^ e)) as [_ Hu].
    apply Qle_trans with (inject_Z (Qfloor (a / 2 ^ e) + 1)).
    - now rewrite <- Zle_Qle.
    - rewrite inject_Z_plus. apply Qplus_le_l. apply Qfloor_le. }
  apply Qle_trans with ((a / 2 ^ e + 1) * 2 ^ e)%Q.
  - apply Qmult_le_compat_r; [exact Hm | apply Qlt_le_weak, pow2_pos].
  - assert (Hne : ~ (2 ^ e == 0)%Q).
    { intros H0. pose proof (pow2_pos e) as Hp. rewrite H0 in Hp. discriminate. }
    apply Qle_lteq. right. field. exact Hne.
Qed.

Lemma pow2_numeral_lt (a b : Z) : 0 <= a -> a < b -> (2 ^ a < 2 ^ b)%Q.
Proof.
  intros Ha Hab. rewrite !pow2_Z by lia. rewrite <- Zlt_Qlt.
  apply Z.pow_lt_mono_r; lia.
Qed.

(** An amount whose numerator is below [2 ^ 1023] is not rounded to an
    infinity. *)
Lemma round_not_inf (neg0 s : bool) (q : Q) :
  Z.abs (Qnum q) < 2 ^ 1023 -> PyNum.round neg0 q <> PyNum.Inf s.
Proof.
  intros Hnum. unfold PyNum.round.
  destruct (Qeq_bool q 0); [discriminate|].
  destruct (_ =? 0); [discriminate|].
  destruct (Qle_bool (2 ^ 1024) _) eqn:Hbig; [|discriminate].
  exfalso. apply Qle_bool_iff in Hbig.
  pose proof (round_exponent_le q 1023 ltac:(lia) Hnum) as He.
  set (e := Z.max (PyNum.ilog2 (Qabs q) - 52) (-1074)) in *.
  pose proof (round_value_le q e) as Hv.
  assert (H2e : (2 ^ e <= 2 ^ 970)%Q) by (apply pow2_le; lia).
  assert (Ha : (Qabs q < 2 ^ 1023)%Q).
  { apply Qle_lt_trans with (inject_Z (Z.abs (Qnum q))); [apply Qabs_le_num|].
    rewrite pow2_Z by lia. now rewrite <- Zlt_Qlt. }
  assert (Hsum : (2 ^ 1023 + 2 ^ 970 < 2 ^ 1024)%Q).
  { rewrite !pow2_Z by lia. rewrite <- inject_Z_plus, <- Zlt_Qlt.
    change (2 ^ 1024) with (2 ^ 1023 + 2 ^ 1023).
    apply Z.add_lt_mono_l. apply Z.pow_lt_mono_r; lia. }
  apply (Qlt_irrefl (2 ^ 1024)).
  eapply Qle_lt_trans; [exact Hbig|].
  eapply Qle_lt_trans; [exact Hv|].
  eapply Qle_lt_trans; [apply Qplus_le_r; exact H2e|].
  eapply Qlt_trans; [apply Qplus_lt_l; exact Ha | exact Hsum].
Qed.

Lemma to_float_returns (z : Z) :
  Z.abs z < 2 ^ 1023 -> exists f, PyNum.to_float z = Ret f.
Proof.
  intros Hz. unfold PyNum.to_float.
  pose proof (fun s => round_not_inf false s (inject_Z z) Hz) as Hinf.
  destruct (PyNum.round false (inject_Z z)) as [|s| |]; eauto.
  now elim (Hinf s).
Qed.

Lemma Qeq_bool_inject_Z (z : Z) : z <> 0 -> Qeq_bool (inject_Z z) 0 = false.
Proof.
  intros Hz. destruct (Qeq_bool (inject_Z z) 0) eqn:H; [|reflexivity].
  apply Qeq_bool_eq in H. unfold Qeq in H. cbn in H. lia.
Qed.


(** A positive int below [2 ^ 1023] is a finite float other than zero. *)
Lemma to_float_pos (z : Z) :
  0 < z -> z < 2 ^ 1023 -> exists q, PyNum.to_float z = Ret (PyNum.Fin q).
Proof.
  intros Hpos Hz. unfold PyNum.to_float.
  assert (Habs : Z.abs (Qnum (inject_Z z)) < 2 ^ 1023) by (cbn [inject_Z Qnum]; lia).
  pose proof (fun s => round_not_inf false s (inject_Z z) Habs) as Hinf.
  destruct (PyNum.round false (inject_Z z)) as [|s|s|q] eqn:Hr;
    [ | now elim (Hinf s) | | eauto].
  - exfalso. unfold PyNum.round in Hr.
    destruct (Qeq_bool _ _); [discriminate|].
    destruct (_ =? 0); [discriminate|]. destruct (Qle_bool _ _); discriminate.
  - exfalso. unfold PyNum.round in Hr.
    rewrite Qeq_bool_inject_Z in Hr by lia.
    change (Qabs (inject_Z z)) with (inject_Z (Z.abs z)) in Hr.
    rewrite (Z.abs_eq z) in Hr by lia.
    set (e := Z.max (PyNum.ilog2 (inject_Z z) - 52) (-1074)) in *.
    destruct (Amount.round_half_even (inject_Z z / 2 ^ e) =? 0) eqn:Hm;
      [|destruct (Qle_bool _ _); discriminate].
    apply Z.eqb_eq in Hm.
    pose proof (round_half_even_bounds (inject_Z z / 2 ^ e)) as [Hlo _].
    assert (He : e <= Z.log2 z).
    { pose proof (ilog2_le (inject_Z z)) as Hl. cbn [inject_Z Qnum] in Hl.
      pose proof (Z.log2_nonneg z). unfold e. lia. }
    assert (H1 : (1 <= inject_Z z / 2 ^ e)%Q).
    { apply Qle_shift_div_l; [apply pow2_pos|]. rewrite Qmult_1_l.
      apply Qle_trans with (2 ^ Z.log2 z)%Q; [now apply pow2_le|].
      rewrite pow2_Z by apply Z.log2_nonneg. rewrite <- Zle_Qle.
      apply Z.log2_spec. exact Hpos. }
    apply Qfloor_resp_le in H1. change (Qfloor 1) with 1 in H1. lia.
Qed.




(** *** Sums that stay within the floats *)

Lemma mass_nonneg (amounts : list PyNum.t) : 0 <= mass amounts.
Proof. induction amounts as [|x l IH]; cbn [mass]; lia. Qed.

Lemma bounded_weaken (B B' : Z) (x : PyNum.t) :
  B <= B' -> bounded B x -> bounded B' x.
Proof. unfold bounded. lia. Qed.

Lemma bounded_self (x : PyNum.t) : bounded (Z.abs (int_of x)) x.
Proof. unfold bounded. lia. Qed.

Lemma bounded_float (B : Z) (f : PyNum.float) : 0 <= B -> bounded B (PyNum.Float f).
Proof. unfold bounded. cbn. lia. Qed.

Lemma to_float_bounded (B : Z) (z : Z) :
  bounded B (PyNum.Int z) -> B < 2 ^ 1023 -> exists f, PyNum.to_float z = Ret f.
Proof. unfold bounded. cbn. intros Hb HB. apply to_float_returns. lia. Qed.

Lemma add_bounded (Bx By : Z) (x y : PyNum.t) :
  bounded Bx x -> bounded By y -> Bx + By < 2 ^ 1023 ->
  exists r, PyNum.add x y = Ret r /\ bounded (Bx + By) r.
Proof.
  intros Hx Hy HB.
  assert (0 <= Bx) by (unfold bounded in Hx; lia).
  assert (0 <= By) by (unfold bounded in Hy; lia).
  destruct x as [a|f], y as [b|g]; cbn [PyNum.add].
  - eexists. split; [reflexivity|]. unfold bounded in *. cbn in *. lia.
  - destruct (to_float_bounded Bx a Hx ltac:(lia)) as [f ->]. cbn [bind].
    eexists. split; [reflexivity | apply bounded_float; lia].
  - destruct (to_float_bounded By b Hy ltac:(lia)) as [g ->]. cbn [bind].
    eexists. split; [reflexivity | apply bounded_float; lia].
  - eexists. split; [reflexivity | apply bounded_float; lia].
Qed.

Lemma sum_from_bounded (B : Z) (acc : PyNum.t) (amounts : list PyNum.t) :
  bounded B acc -> B + mass amounts < 2 ^ 1023 ->
  exists r, sum_from acc amounts = Ret r /\ bounded (B + mass amounts) r.
Proof.
  revert B acc. induction amounts as [|x l IH]; intros B acc Hacc HB; cbn [sum_from mass] in *.
  - eexists. split; [reflexivity|]. now rewrite Z.add_0_r.
  - pose proof (mass_nonneg l).
    destruct (add_bounded B (Z.abs (int_of x)) acc x Hacc (bounded_self x) ltac:(lia))
      as (r & -> & Hr). cbn [bind].
    destruct (IH _ r Hr ltac:(lia)) as (r' & -> & Hr').
    eexists. split; [reflexivity|]. now rewrite Z.add_assoc.
Qed.

Lemma py_sum_bounded (amounts : list PyNum.t) :
  mass amounts < 2 ^ 1023 ->
  exists r, py_sum amounts = Ret r /\ bounded (mass amounts) r.
Proof.
  intros HB. unfold py_sum.
  destruct (sum_from_bounded 0 (PyNum.Int 0) amounts) as (r & Hr & Hb);
    [unfold bounded; cbn; lia | lia | eauto].
Qed.

Lemma dict_add_bounded (B Bv : Z) (k : string) (v : PyNum.t) (d : totals) :
  0 <= B -> List.Forall (fun kv => bounded B (snd kv)) d -> bounded Bv v ->
  B + Bv < 2 ^ 1023 ->
  exists d', dict_add k v d = Ret d'
             /\ List.Forall (fun kv => bounded (B + Bv) (snd kv)) d'.
Proof.
  intros HB0 Hd Hv HB.
  assert (0 <= Bv) by (unfold bounded in Hv; lia).
  induction Hd as [|[k' v'] d Hkv Hd IH]; cbn [dict_add].
  - destruct (add_bounded 0 Bv (PyNum.Int 0) v) as (s & -> & Hs);
      [unfold bounded; cbn; lia | exact Hv | lia |]. cbn [bind].
    eexists. split; [reflexivity|]. constructor; [|constructor].
    cbn [snd]. eapply bounded_weaken; [|exact Hs]. lia.
  - destruct (String.eqb k' k).
    + destruct (add_bounded B Bv v' v Hkv Hv HB) as (s & -> & Hs). cbn [bind].
      eexists. split; [reflexivity|]. constructor; [exact Hs|].
      eapply List.Forall_impl; [|exact Hd]. intros kv. apply bounded_weaken. lia.
    + destruct IH as (d' & -> & Hd'). cbn [bind].
      eexists. split; [reflexivity|]. constructor; [|exact Hd'].
      cbn [snd] in *. eapply bounded_weaken; [|exact Hkv]. lia.
Qed.

Lemma accumulate_bounded (B : Z) (expenses : list expense) (cats dates : totals) :
  0 <= B ->
  List.Forall (fun kv => bounded B (snd kv)) cats ->
  List.Forall (fun kv => bounded B (snd kv)) dates ->
  B + int_mass expenses < 2 ^ 1023 ->
  exists cats' dates',
    accumulate expenses cats dates = Ret (cats', dates')
    /\ List.Forall (fun kv => bounded (B + int_mass expenses) (snd kv)) cats'.
Proof.
  revert B cats dates.
  induction expenses as [|e es IH]; intros B cats dates HB0 Hc Hd HB;
    unfold int_mass in *; cbn [accumulate map mass] in *.
  - do 2 eexists. split; [reflexivity|]. now rewrite Z.add_0_r.
  - pose proof (mass_nonneg (map amount es)).
    destruct (dict_add_bounded B _ (category e) (amount e) cats HB0 Hc
                (bounded_self _) ltac:(lia)) as (cats' & -> & Hc').
    destruct (dict_add_bounded B _ (date e) (amount e) dates HB0 Hd
                (bounded_self _) ltac:(lia)) as (dates' & -> & Hd').
    cbn [bind].
    destruct (IH (B + Z.abs (int_of (amount e))) cats' dates' ltac:(lia) Hc' Hd'
                ltac:(lia)) as (c2 & d2 & -> & H2).
    do 2 eexists. split; [reflexivity|]. now rewrite Z.add_assoc.
Qed.

Lemma format_2f_bounded (B : Z) (x : PyNum.t) :
  bounded B x -> B < 2 ^ 1023 -> exists s, PyNum.format_2f x = Ret s.
Proof.
  intros Hx HB. destruct x as [z|f]; cbn [PyNum.format_2f]; [|eauto].
  destruct (to_float_bounded B z Hx HB) as [f ->]. cbn [bind]. eauto.
Qed.

(** The average: a total within range, over the length of a batch. *)
Lemma div_bounded (B : Z) (total : PyNum.t) (n : Z) :
  bounded B total -> B < 2 ^ 1023 -> 0 < n -> n < 2 ^ 1023 ->
  exists f, PyNum.div total n = Ret (PyNum.Float f).
Proof.
  intros Hx HB Hn0 Hn. destruct total as [a|f]; cbn [PyNum.div].
  - destruct (n =? 0) eqn:Hz; [apply Z.eqb_eq in Hz; lia|].
    destruct (a =? 0); [eauto|].
    assert (Hnum : Z.abs (Qnum (inject_Z a / inject_Z n)) < 2 ^ 1023).
    { destruct n as [|p|p]; try lia. cbn. rewrite Z.mul_1_r.
      unfold bounded in Hx. cbn in Hx. lia. }
    pose proof (fun s => round_not_inf false s _ Hnum) as Hinf.
    destruct (PyNum.round false _) as [|s| |]; eauto. now elim (Hinf s).
  - destruct (to_float_pos n Hn0 Hn) as [q ->]. cbn [bind].
    destruct f; cbn [PyNum.fdiv bind]; eauto.
Qed.

(** The rendering of a number raises for an int beyond the floats only. *)
Lemma format_2f_raises (x : PyNum.t) (e : exn) :
  PyNum.format_2f x = Raise e ->
  e = OverflowError "int too large to convert to float"
  /\ exists z, x = PyNum.Int z /\ 2 ^ 1023 <= Z.abs z.
Proof.
  destruct x as [z|f]; cbn [PyNum.format_2f]; [|discriminate].
  destruct (Z.lt_ge_cases (Z.abs z) (2 ^ 1023)) as [Hlt | Hge].
  - destruct (to_float_returns z Hlt) as [f ->]. discriminate.
  - unfold PyNum.to_float.
    destruct (PyNum.round false (inject_Z z)); cbn [bind]; try discriminate.
    intros H. injection H as <-. eauto.
Qed.

(** ** The context formatter *)

Lemma snippet_preferred (m : match_) :
  snippet m = match preferred_text m with Some s => s | None => EmptyString end.
Proof.
  unfold snippet, preferred_text, get_or.
  destruct (metadata m) as [meta|]; cbn [omap list_omap].
  - destruct (meta !! "text") as [a|]; cbn;
      [destruct (PyStr.truthy a) eqn:Ha; cbn; [reflexivity|] |];
      (destruct (meta !! "chunk_text") as [b|]; cbn;
       [destruct (PyStr.truthy b) eqn:Hb; cbn; [reflexivity|] |]);
      (destruct (meta !! "description") as [c|]; cbn;
       [destruct (PyStr.truthy c) eqn:Hc; cbn; reflexivity | reflexivity]).
  - rewrite !lookup_empty. reflexivity.
Qed.

Lemma preferred_text_truthy (m : match_) (s : string) :
  preferred_text m = Some s -> PyStr.truthy s = true.
Proof.
  unfold preferred_text. intros H. apply find_some in H. tauto.
Qed.

Lemma context_lines_selected (results : list match_) :
  List.filter PyStr.truthy (map snippet results) = selected_snippets results.
Proof.
  unfold selected_snippets.
  induction results as [|m results IH]; [reflexivity|].
  cbn [map List.filter omap list_omap]. rewrite snippet_preferred, IH.
  destruct (preferred_text m) as [s|] eqn:Hs.
  - now rewrite (preferred_text_truthy m s Hs).
  - reflexivity.
Qed.

Lemma selected_snippets_nonempty (results : list match_) (s : string) :
  In s (selected_snippets results) -> s <> EmptyString.
Proof.
  rewrite <- context_lines_selected. intros H.
  apply filter_In in H. destruct H as [_ H]. now apply truthy_true.
Qed.

Lemma format_context_nonempty (results : list match_) :
  format_context_from_results results <> EmptyString.
Proof.
  unfold format_context_from_results.
  destruct results as [|m results]; [discriminate|].
  rewrite context_lines_selected.
  destruct (selected_snippets (m :: results)) as [|x l] eqn:Hsel; [discriminate|].
  apply join_nonempty.
  apply (selected_snippets_nonempty (m :: results)). rewrite Hsel. now left.
Qed.

(** [C8], as the code has it: the formatter returns the sentinel whenever
    the match list is empty or no match yields a non-empty text under the
    preference order [text], [chunk_text], [description]; otherwise it
    returns the newline-join of the selected snippets, one per match with
    usable text; the empty list maps to exactly the sentinel. *)
Theorem format_context_from_results_spec (results : list match_) :
  (results = [] \/ selected_snippets results = [] ->
   format_context_from_results results = sentinel)
  /\ (selected_snippets results <> [] ->
      format_context_from_results results
      = PyStr.join PyStr.nl (selected_snippets results))
  /\ format_context_from_results [] = sentinel.
Proof.
  split; [|split]; [| |reflexivity].
  - intros [-> | Hnone]; [reflexivity|].
    unfold format_context_from_results. destruct results; [reflexivity|].
    now rewrite context_lines_selected, Hnone.
  - intros Hsome. unfold format_context_from_results.
    destruct results as [|m results]; [now elim Hsome|].
    rewrite context_lines_selected.
    destruct (selected_snippets (m :: results)); [now elim Hsome | reflexivity].
Qed.

(** [C8], as stated, fails: the sentinel also comes back for a list that
    is not empty and has usable text, when that text reads as the
    sentinel. *)
Lemma format_context_sentinel_not_exact :
  ~ (format_context_from_results [sentinel_match] = sentinel
     <-> ([sentinel_match] = [] \/ selected_snippets [sentinel_match] = [])).
Proof.
  intros [Hto _].
  assert (Hs : format_context_from_results [sentinel_match] = sentinel)
    by (vm_compute; reflexivity).
  destruct (Hto Hs) as [H | H]; [discriminate H|].
  vm_compute in H. discriminate H.
Qed.

(** ** The filter extractor *)

Lemma parse_date_range_nil (E : Env) : parse_date_range E [] = Ret None.
Proof. reflexivity. Qed.

Lemma parse_date_range_one (E : Env) (d : string) :
  exists r, parse_date_range E [d] = Ret r.
Proof.
  unfold parse_date_range. cbn.
  destruct (dateparser_parse_str E d) as [dt|]; cbn;
    [destruct (PyStr.truthy _)|]; eauto.
Qed.

Lemma parse_date_range_many (E : Env) (d0 d1 : string) (ds : list string) :
  parse_date_range E (d0 :: d1 :: ds) = Raise (TypeError "Input type must be str").
Proof. reflexivity. Qed.

(** With at most one date entity the extractor returns, and the filter
    set carries the user it was given. *)
Lemma extract_filters_returns (E : Env) (query uid : string) :
  (length (extract_date_entities E query) <= 1)%nat ->
  exists flt, extract_filters_from_query E query uid = Ret flt
              /\ flt_user_id flt = uid.
Proof.
  intros Hlen. unfold extract_filters_from_query.
  destruct (extract_date_entities E query) as [|d0 [|d1 ds]].
  - rewrite parse_date_range_nil. cbn. eauto.
  - destruct (parse_date_range_one E d0) as [r ->]. cbn. eauto.
  - cbn in Hlen. lia.
Qed.

Lemma extract_filters_returns_user (E : Env) (query uid : string) (flt : filters) :
  extract_filters_from_query E query uid = Ret flt -> flt_user_id flt = uid.
Proof.
  unfold extract_filters_from_query.
  destruct (parse_date_range E _); [|discriminate].
  cbn [bind]. intros Heq. now injection Heq as <-.
Qed.

(** [C4], where the code departs from it: as soon as two date entities
    are recognised, [parse_date_range] hands the whole list to
    [dateparser.parse], which raises, and the extractor lets the
    exception through. *)
Theorem extract_filters_raises_on_two_dates (E : Env) (query uid : string) :
  (2 <= length (extract_date_entities E query))%nat ->
  extract_filters_from_query E query uid
  = Raise (TypeError "Input type must be str").
Proof.
  intros Hlen. unfold extract_filters_from_query.
  destruct (extract_date_entities E query) as [|d0 [|d1 ds]]; cbn in Hlen; try lia.
  now rewrite parse_date_range_many.
Qed.

Lemma extract_filters_raises_on_two_dates_witness :
  (2 <= length (extract_date_entities two_dates_env
                  "spending from january 2024 to march 2024"))%nat
  /\ extract_filters_from_query two_dates_env
       "spending from january 2024 to march 2024" "u1"
     = Raise (TypeError "Input type must be str").
Proof.
  split.
  - vm_compute. lia.
  - apply (extract_filters_raises_on_two_dates two_dates_env). vm_compute. lia.
Defined.

(** ** The local analyzer *)

Lemma py_max_in {A : Type} (key : A -> PyNum.t) (best : A) (rest : list A) :
  In (py_max key best rest) (best :: rest).
Proof.
  revert best. induction rest as [|x rest IH]; intros best; cbn [py_max].
  - now left.
  - destruct (IH (if PyNum.gt (key x) (key best) then x else best)) as [H | H].
    + destruct (PyNum.gt _ _); rewrite <- H; [right; now left | now left].
    + right. now right.
Qed.

Lemma insert_desc_perm (x : string * PyNum.t) (l : totals) :
  Permutation (insert_desc x l) (x :: l).
Proof.
  induction l as [|y l IH]; cbn [insert_desc]; [reflexivity|].
  destruct (PyNum.gt _ _); [reflexivity|].
  rewrite IH. apply perm_swap.
Qed.

Lemma sorted_desc_perm_from (items acc : totals) :
  Permutation (fold_left (fun acc x => insert_desc x acc) items acc) (acc ++ items).
Proof.
  revert acc. induction items as [|x items IH]; intros acc; cbn [fold_left].
  - now rewrite app_nil_r.
  - rewrite IH, insert_desc_perm. apply Permutation_middle.
Qed.

Lemma sorted_desc_perm (items : totals) : Permutation (sorted_desc items) items.
Proof. apply (sorted_desc_perm_from items []). Qed.

Lemma map_result_returns {A B : Type} (f : A -> result B) (l : list A) :
  (forall x, In x l -> exists y, f x = Ret y) -> exists ys, map_result f l = Ret ys.
Proof.
  induction l as [|x l IH]; intros Hf; cbn [map_result]; [eauto|].
  destruct (Hf x (or_introl eq_refl)) as [y ->]. cbn [bind].
  destruct IH as [ys ->]; [intros z Hz; apply Hf; now right|]. cbn [bind]. eauto.
Qed.

Lemma bounded_in_mass (e : expense) (expenses : list expense) :
  In e expenses -> bounded (int_mass expenses) (amount e).
Proof.
  unfold int_mass, bounded.
  induction expenses as [|e' es IH]; intros Hin; [destruct Hin|].
  cbn [map mass]. pose proof (mass_nonneg (map amount es)).
  destruct Hin as [-> | Hin]; [lia|]. specialize (IH Hin). lia.
Qed.

Lemma total_amount_bounded (expenses : list expense) :
  int_mass expenses < 2 ^ 1023 ->
  exists total, total_amount expenses = Ret total
                /\ bounded (int_mass expenses) total.
Proof. intros HB. now apply py_sum_bounded. Qed.

Lemma category_totals_bounded (expenses : list expense) :
  int_mass expenses < 2 ^ 1023 ->
  exists cats dates,
    accumulate expenses [] [] = Ret (cats, dates)
    /\ List.Forall (fun kv => bounded (int_mass expenses) (snd kv)) cats.
Proof.
  intros HB.
  destruct (accumulate_bounded 0 expenses [] [] ltac:(lia)) as (c & d & Ha & Hc);
    [constructor | constructor | lia | eauto].
Qed.

Lemma top_category_bounded (B : Z) (cats : totals) :
  0 <= B -> List.Forall (fun kv => bounded B (snd kv)) cats ->
  bounded B (snd (top_category_of cats)).
Proof.
  intros HB Hc. unfold top_category_of. destruct cats as [|ct rest].
  - unfold bounded. cbn. lia.
  - rewrite List.Forall_forall in Hc. apply Hc, py_max_in.
Qed.





Lemma local_analysis_by_class (E : Env) (question : string) (first : expense)
    (rest : list expense) :
  local_expense_analysis E question (first :: rest)
  = answer_for E (first_matching_class question) first rest.
Proof.
  unfold local_expense_analysis, first_matching_class, answer_for, priority_order,
    category_totals.
  destruct (total_amount (first :: rest)) as [total|ex]; [|reflexivity].
  cbn [bind].
  destruct (accumulate (first :: rest) [] []) as [both|ex]; [|reflexivity].
  cbn [bind List.find intent_words].
  destruct (PyStr.any_in biggest_words _); [reflexivity|].
  destruct (PyStr.any_in total_words _); [reflexivity|].
  destruct (PyStr.any_in category_words _); [reflexivity|].
  destruct (PyStr.any_in saving_words _); reflexivity.
Qed.

Lemma any_in_of_contains (w : string) (words : list string) (s : string) :
  In w words -> PyStr.contains w s = true -> PyStr.any_in words s = true.
Proof.
  intros Hin Hc. unfold PyStr.any_in. apply existsb_exists. eauto.
Qed.

Lemma answer_biggest_not_total (E : Env) (b : expense) (t : PyNum.t) (n : nat)
    (top : string * PyNum.t) (s : string) :
  answer_biggest E b = Ret s -> answer_total t n top <> Ret s.
Proof.
  unfold answer_biggest, answer_total.
  destruct (PyNum.format_2f (amount b)); [|discriminate].
  cbn [bind]. intros Hb. injection Hb as <-.
  destruct (PyNum.format_2f t); [|discriminate].
  destruct (PyNum.format_2f (snd top)); [|discriminate].
  destruct (PyNum.div t _); [|discriminate]. cbn [bind].
  destruct (PyNum.format_2f _); [|discriminate]. cbn. discriminate.
Qed.

(** [C9]: on a batch that is not empty the local analysis answers for the
    first class, in the order biggest, total, categories, saving, whose
    words the lower-cased question contains, and with the summary when
    none does; a question with both [biggest] and [total] in it gets the
    biggest-expense answer, and no answer it returns is the total one. *)
Theorem local_analysis_priority (E : Env) (question : string) (first : expense)
    (rest : list expense) :
  local_expense_analysis E question (first :: rest)
  = answer_for E (first_matching_class question) first rest
  /\ (PyStr.contains "biggest" (PyStr.lower question) = true ->
      PyStr.contains "total" (PyStr.lower question) = true ->
      local_expense_analysis E question (first :: rest)
      = answer_for E Biggest first rest
      /\ forall s,
           local_expense_analysis E question (first :: rest) = Ret s ->
           answer_for E Total first rest <> Ret s).
Proof.
  split; [apply local_analysis_by_class|].
  intros Hb _.
  assert (Hany : PyStr.any_in biggest_words (PyStr.lower question) = true).
  { apply (any_in_of_contains "biggest"); [now left | exact Hb]. }
  assert (Hl : local_expense_analysis E question (first :: rest)
               = answer_for E Biggest first rest).
  { rewrite local_analysis_by_class.
    unfold first_matching_class, priority_order. cbn [List.find intent_words].
    now rewrite Hany. }
  split; [exact Hl|].
  intros s. rewrite Hl. unfold answer_for.
  destruct (total_amount (first :: rest)); [|discriminate].
  destruct (category_totals (first :: rest)); [|discriminate].
  cbn [bind]. apply answer_biggest_not_total.
Qed.

Lemma local_analysis_priority_witness :
  PyStr.contains "biggest" (PyStr.lower "Is my BIGGEST cost above the total?") = true
  /\ PyStr.contains "total" (PyStr.lower "Is my BIGGEST cost above the total?") = true
  /\ local_expense_analysis online_env "Is my BIGGEST cost above the total?"
       [lunch; rent]
     = answer_for online_env Biggest lunch [rent]
  /\ exists s,
       local_expense_analysis online_env "Is my BIGGEST cost above the total?"
         [lunch; rent] = Ret s
       /\ answer_for online_env Total lunch [rent] <> Ret s.
Proof.
  split; [reflexivity|]. split; [reflexivity|].
  destruct (proj2 (local_analysis_priority online_env
                     "Is my BIGGEST cost above the total?" lunch [rent])
              eq_refl eq_refl) as [Hl Hne].
  split; [exact Hl|].
  eexists. split; [vm_compute; reflexivity|].
  apply Hne. vm_compute. reflexivity.
Defined.






(** ** The retrieval cache *)

Module TTLCacheFacts.
Section Facts.
Context {K V : Type} `{EqDecision K}.

Local Abbreviation entry := (TTLCache.entry K V).
Local Abbreviation t := (TTLCache.t K V).

Lemma find_key (k : K) (c : t) (e : entry) :
  TTLCache.find k c = Some e -> TTLCache.e_key e = k.
Proof.
  unfold TTLCache.find. intros Hf. apply find_some in Hf.
  destruct Hf as [_ Hk]. unfold TTLCache.has_key in Hk.
  now apply bool_decide_eq_true in Hk.
Qed.

Lemma find_remove_app (k : K) (c l : t) :
  TTLCache.find k (TTLCache.remove k c ++ l) = TTLCache.find k l.
Proof.
  unfold TTLCache.find, TTLCache.remove.
  induction c as [|x c IH]; [reflexivity|].
  cbn [List.filter]. destruct (TTLCache.has_key k x) eqn:Hx; cbn [negb].
  - exact IH.
  - cbn [app List.find]. now rewrite Hx.
Qed.

Lemma find_last (k : K) (c : t) (e : entry) :
  TTLCache.e_key e = k -> TTLCache.find k (TTLCache.remove k c ++ [e]) = Some e.
Proof.
  intros Hk. rewrite find_remove_app. unfold TTLCache.find. cbn [List.find].
  unfold TTLCache.has_key. now rewrite bool_decide_eq_true_2.
Qed.

Lemma remove_length (k : K) (c : t) :
  (length (TTLCache.remove k c) <= length c)%nat.
Proof.
  unfold TTLCache.remove. induction c as [|x c IH]; [reflexivity|].
  cbn [List.filter]. destruct (negb _); cbn [length]; lia.
Qed.

Lemma remove_length_found (k : K) (c : t) (e : entry) :
  TTLCache.find k c = Some e ->
  (length (TTLCache.remove k c) + 1 <= length c)%nat.
Proof.
  unfold TTLCache.find, TTLCache.remove.
  induction c as [|x c IH]; [discriminate|].
  cbn [List.find List.filter]. destruct (TTLCache.has_key k x) eqn:Hx; cbn [negb length].
  - intros _. pose proof (remove_length k c) as Hle.
    unfold TTLCache.remove in Hle. lia.
  - intros Hf. specialize (IH Hf). lia.
Qed.

Lemma expire_length (time : Z) (c : t) :
  (length (TTLCache.expire time c) <= length c)%nat.
Proof.
  unfold TTLCache.expire. induction c as [|x c IH]; [reflexivity|].
  cbn [List.filter]. destruct (_ <? _); cbn [length]; lia.
Qed.

(** A lookup never makes the cache longer. *)
Lemma getitem_length (k : K) (time : Z) (c : t) :
  (length (snd (TTLCache.getitem k time c)) <= length c)%nat.
Proof.
  unfold TTLCache.getitem.
  destruct (TTLCache.find k c) as [e|] eqn:Hf; [|reflexivity].
  pose proof (remove_length_found k c e Hf) as Hle.
  destruct (_ <? _); cbn [snd]; rewrite length_app; cbn [length]; lia.
Qed.

(** A hit leaves the item in the cache, unchanged. *)
Lemma getitem_hit (k : K) (time : Z) (c c' : t) (v : V) :
  TTLCache.getitem k time c = (Some v, c') ->
  exists e, TTLCache.find k c = Some e /\ TTLCache.find k c' = Some e
            /\ TTLCache.e_value e = v /\ time < TTLCache.e_expires e.
Proof.
  unfold TTLCache.getitem.
  destruct (TTLCache.find k c) as [e|] eqn:Hf; [|discriminate].
  destruct (Z.ltb_spec time (TTLCache.e_expires e)); [|discriminate].
  intros Heq. injection Heq as <- <-. exists e.
  repeat split; try assumption. apply find_last. now apply (find_key k c).
Qed.

(** An item that is there and has not expired is a hit. *)
Lemma getitem_fresh (k : K) (time : Z) (c : t) (e : entry) :
  TTLCache.find k c = Some e -> time < TTLCache.e_expires e ->
  TTLCache.getitem k time c
  = (Some (TTLCache.e_value e), TTLCache.remove k c ++ [e]).
Proof.
  intros Hf Hlt. unfold TTLCache.getitem. rewrite Hf.
  destruct (Z.ltb_spec time (TTLCache.e_expires e)); [reflexivity | lia].
Qed.

Lemma find_filter (k : K) (f : entry -> bool) (c : t) (e : entry) :
  TTLCache.find k c = Some e -> f e = true ->
  TTLCache.find k (List.filter f c) = Some e
  /\ TTLCache.after k (List.filter f c) = List.filter f (TTLCache.after k c).
Proof.
  unfold TTLCache.find. intros Hf He.
  induction c as [|x c IH]; [discriminate|].
  cbn [List.find TTLCache.after] in *.
  destruct (TTLCache.has_key k x) eqn:Hx.
  - injection Hf as ->. cbn [List.filter]. rewrite He. cbn [List.find TTLCache.after].
    now rewrite Hx.
  - specialize (IH Hf). cbn [List.filter].
    destruct (f x); [cbn [List.find TTLCache.after]; now rewrite Hx | exact IH].
Qed.

Lemma find_app (k : K) (c l : t) (e : entry) :
  TTLCache.find k c = Some e ->
  TTLCache.find k (c ++ l) = Some e /\ TTLCache.after k (c ++ l) = TTLCache.after k c ++ l.
Proof.
  unfold TTLCache.find. intros Hf.
  induction c as [|x c IH]; [discriminate|].
  cbn [List.find TTLCache.after app] in *.
  destruct (TTLCache.has_key k x); [now split | now apply IH].
Qed.

Lemma find_none_filter (k : K) (f : entry -> bool) (c : t) :
  TTLCache.find k c = None -> TTLCache.find k (List.filter f c) = None.
Proof.
  unfold TTLCache.find. induction c as [|x c IH]; [reflexivity|].
  cbn [List.find List.filter]. destruct (TTLCache.has_key k x) eqn:Hx; [discriminate|].
  intros Hf. destruct (f x); [cbn [List.find]; rewrite Hx|]; now apply IH.
Qed.

Lemma find_none_after (k k' : K) (c : t) :
  TTLCache.find k' c = None -> TTLCache.find k' (TTLCache.after k c) = None.
Proof.
  unfold TTLCache.find. induction c as [|x c IH]; [reflexivity|].
  cbn [List.find TTLCache.after]. destruct (TTLCache.has_key k' x); [discriminate|].
  intros Hf. destruct (TTLCache.has_key k x); [exact Hf | now apply IH].
Qed.

Lemma remove_absent (k : K) (c : t) :
  TTLCache.find k c = None -> TTLCache.remove k c = c.
Proof.
  unfold TTLCache.find, TTLCache.remove. induction c as [|x c IH]; [reflexivity|].
  cbn [List.find List.filter]. destruct (TTLCache.has_key k x); [discriminate|].
  intros Hf. cbn [negb]. now rewrite (IH Hf).
Qed.

Lemma remove_remove (k : K) (c : t) :
  TTLCache.remove k (TTLCache.remove k c) = TTLCache.remove k c.
Proof.
  unfold TTLCache.remove. induction c as [|x c IH]; [reflexivity|].
  cbn [List.filter]. destruct (negb (TTLCache.has_key k x)) eqn:Hx; [|exact IH].
  cbn [List.filter]. now rewrite Hx, IH.
Qed.

Lemma filter_length (f : entry -> bool) (c : t) :
  (length (List.filter f c) <= length c)%nat.
Proof.
  induction c as [|x c IH]; [reflexivity|].
  cbn [List.filter]. destruct (f x); cbn [length]; lia.
Qed.

Lemma has_key_other (k k' : K) (e : entry) :
  TTLCache.e_key e = k -> k' <> k -> negb (TTLCache.has_key k' e) = true.
Proof.
  intros Hk Hne. unfold TTLCache.has_key.
  rewrite bool_decide_eq_false_2; [reflexivity | congruence].
Qed.

Lemma getitem_snd (k : K) (time : Z) (c : t) :
  snd (TTLCache.getitem k time c)
  = match TTLCache.find k c with
    | Some e => TTLCache.remove k c ++ [e]
    | None => c
    end.
Proof.
  unfold TTLCache.getitem. destruct (TTLCache.find k c); [|reflexivity].
  cbv zeta. now destruct (_ <? _).
Qed.

(** A lookup of another key keeps the item of [k], and puts at most one
    item after it: the one it looked up, which a later store of that key
    replaces. *)
Lemma getitem_keeps (k k' : K) (time : Z) (c : t) (e : entry) (n : nat) :
  k' <> k -> TTLCache.find k c = Some e ->
  (length (TTLCache.remove k' (TTLCache.after k c)) <= n)%nat ->
  TTLCache.find k (snd (TTLCache.getitem k' time c)) = Some e
  /\ (length (TTLCache.remove k' (TTLCache.after k (snd (TTLCache.getitem k' time c))))
      <= n)%nat
  /\ (length (TTLCache.after k (snd (TTLCache.getitem k' time c))) <= length (TTLCache.after k c) + 1)%nat.
Proof.
  intros Hne Hf Hn. pose proof (find_key k c e Hf) as Hk.
  rewrite getitem_snd.
  destruct (TTLCache.find k' c) as [e'|] eqn:Hf'.
  - 
    destruct (find_filter k (fun x => negb (TTLCache.has_key k' x)) c e Hf
                (has_key_other k k' e Hk Hne)) as [Hfr Har].
    destruct (find_app k (TTLCache.remove k' c) [e'] e Hfr) as [Hfa Haa].
    assert (Har' : TTLCache.after k (TTLCache.remove k' c) = TTLCache.remove k' (TTLCache.after k c))
      by exact Har.
    split; [exact Hfa|]. rewrite Haa, Har'.
    split.
    + unfold TTLCache.remove at 1. rewrite List.filter_app.
      fold (TTLCache.remove k' (TTLCache.remove k' (TTLCache.after k c))).
      rewrite remove_remove. cbn [List.filter].
      pose proof (find_key k' c e' Hf') as Hk'.
      unfold TTLCache.has_key at 1. rewrite bool_decide_eq_true_2 by exact Hk'.
      cbn [negb]. rewrite app_nil_r. exact Hn.
    + rewrite length_app. cbn [length].
      pose proof (remove_length k' (TTLCache.after k c)). lia.
  - split; [exact Hf|]. split; [exact Hn | lia].
Qed.

Lemma after_last (k : K) (c : t) (e : entry) :
  TTLCache.e_key e = k -> TTLCache.after k (TTLCache.remove k c ++ [e]) = [].
Proof.
  intros Hk. unfold TTLCache.remove.
  induction c as [|x c IH]; cbn [List.filter app TTLCache.after].
  - unfold TTLCache.has_key. now rewrite bool_decide_eq_true_2.
  - destruct (TTLCache.has_key k x) eqn:Hx; cbn [negb]; [exact IH|].
    cbn [app TTLCache.after]. now rewrite Hx.
Qed.

Lemma filter_filter_length (f g : entry -> bool) (c : t) :
  (length (List.filter f (List.filter g c)) <= length (List.filter f c))%nat.
Proof.
  induction c as [|x c IH]; [reflexivity|].
  cbn [List.filter]. destruct (g x); cbn [List.filter];
    destruct (f x); cbn [length]; lia.
Qed.

Section Bounded.
Variable maxsize : nat.
Variable ttl : Z.
Hypothesis maxsize_pos : (1 <= maxsize)%nat.

Lemma make_room_length (c : t) :
  (length (TTLCache.make_room maxsize c) + 1 <= maxsize)%nat.
Proof.
  induction c as [|x c IH]; cbn [TTLCache.make_room].
  - cbn. lia.
  - destruct (Nat.ltb_spec maxsize (length (x :: c) + 1)); [exact IH | lia].
Qed.

(** A store keeps the cache within its capacity. *)
Lemma setitem_length (k : K) (v : V) (time : Z) (c : t) :
  (length c <= maxsize)%nat ->
  (length (TTLCache.setitem maxsize ttl k v time c) <= maxsize)%nat.
Proof.
  intros Hc. unfold TTLCache.setitem.
  pose proof (expire_length time c) as Hexp.
  destruct (Nat.ltb_spec maxsize 1); [lia|].
  rewrite length_app. cbn [length].
  destruct (TTLCache.find k (TTLCache.expire time c)) as [e|] eqn:Hf.
  - pose proof (remove_length_found k _ e Hf). lia.
  - pose proof (make_room_length (TTLCache.expire time c)).
    pose proof (remove_length k (TTLCache.make_room maxsize (TTLCache.expire time c))).
    lia.
Qed.

(** What was just stored is what a lookup finds. *)
Lemma find_setitem (k : K) (v : V) (time : Z) (c : t) :
  TTLCache.find k (TTLCache.setitem maxsize ttl k v time c)
  = Some {| TTLCache.e_key := k; TTLCache.e_value := v;
            TTLCache.e_expires := time + ttl |}.
Proof.
  unfold TTLCache.setitem. destruct (Nat.ltb_spec maxsize 1); [lia|].
  now apply find_last.
Qed.

Lemma make_room_keeps (k : K) (c : t) (e : entry) :
  TTLCache.find k c = Some e ->
  (length (TTLCache.after k c) + 2 <= maxsize)%nat ->
  TTLCache.find k (TTLCache.make_room maxsize c) = Some e
  /\ TTLCache.after k (TTLCache.make_room maxsize c) = TTLCache.after k c.
Proof.
  unfold TTLCache.find.
  induction c as [|x c IH]; [discriminate|].
  cbn [List.find TTLCache.after TTLCache.make_room].
  destruct (Nat.ltb_spec maxsize (length (x :: c) + 1)) as [Hfull|Hroom].
  - destruct (TTLCache.has_key k x) eqn:Hx.
    + intros _ Hlen. cbn [length] in Hfull. lia.
    + exact IH.
  - intros Hf _. cbn [List.find TTLCache.after]. now split.
Qed.

(** A store under another key keeps the item of [k], with one more item
    after it at most, as long as the cache has room for both. *)
Lemma setitem_keeps (k k' : K) (v : V) (time : Z) (c : t) (e : entry) (n : nat) :
  k' <> k -> TTLCache.find k c = Some e -> time < TTLCache.e_expires e ->
  (length (TTLCache.remove k' (TTLCache.after k c)) <= n)%nat ->
  (n + 2 <= maxsize)%nat ->
  TTLCache.find k (TTLCache.setitem maxsize ttl k' v time c) = Some e
  /\ (length (TTLCache.after k (TTLCache.setitem maxsize ttl k' v time c)) <= n + 1)%nat.
Proof.
  intros Hne Hf Hlt Hn Hmax. pose proof (find_key k c e Hf) as Hk.
  unfold TTLCache.setitem.
  destruct (Nat.ltb_spec maxsize 1); [lia|].
  assert (Hfresh : (fun x => time <? TTLCache.e_expires x) e = true)
    by (now apply Z.ltb_lt).
  destruct (find_filter k _ c e Hf Hfresh) as [Hf1 Ha1].
  fold (TTLCache.expire time c) in Hf1, Ha1.
  fold (TTLCache.expire time (TTLCache.after k c)) in Ha1.
  assert (Hn1 : (length (TTLCache.remove k' (TTLCache.after k (TTLCache.expire time c))) <= n)%nat).
  { rewrite Ha1. unfold TTLCache.remove, TTLCache.expire.
    pose proof (filter_filter_length (fun x => negb (TTLCache.has_key k' x))
                  (fun x => time <? TTLCache.e_expires x) (TTLCache.after k c)) as Hff.
    unfold TTLCache.remove in Hn. lia. }
  assert (Hkeep : forall c2,
             TTLCache.find k c2 = Some e ->
             (length (TTLCache.remove k' (TTLCache.after k c2)) <= n)%nat ->
             TTLCache.find k
               (TTLCache.remove k' c2
                ++ [{| TTLCache.e_key := k'; TTLCache.e_value := v;
                       TTLCache.e_expires := time + ttl |}]) = Some e
             /\ (length (TTLCache.after k
                   (TTLCache.remove k' c2
                    ++ [{| TTLCache.e_key := k'; TTLCache.e_value := v;
                           TTLCache.e_expires := time + ttl |}])) <= n + 1)%nat).
  { intros c2 Hf2 Hn2.
    destruct (find_filter k (fun x => negb (TTLCache.has_key k' x)) c2 e Hf2
                (has_key_other k k' e Hk Hne)) as [Hfr Har].
    assert (Har' : TTLCache.after k (TTLCache.remove k' c2) = TTLCache.remove k' (TTLCache.after k c2))
      by exact Har.
    destruct (find_app k (TTLCache.remove k' c2)
                [{| TTLCache.e_key := k'; TTLCache.e_value := v;
                    TTLCache.e_expires := time + ttl |}] e Hfr) as [Hfa Haa].
    split; [exact Hfa|]. rewrite Haa, Har', length_app. cbn [length]. lia. }
  destruct (TTLCache.find k' (TTLCache.expire time c)) as [e'|] eqn:Hf'.
  - now apply Hkeep.
  - assert (Hlen : (length (TTLCache.after k (TTLCache.expire time c)) <= n)%nat).
    { rewrite <- (remove_absent k' (TTLCache.after k (TTLCache.expire time c)));
        [exact Hn1 | now apply find_none_after]. }
    destruct (make_room_keeps k (TTLCache.expire time c) e Hf1) as [Hf2 Ha2]; [lia|].
    apply Hkeep; [exact Hf2|]. rewrite Ha2. exact Hn1.
Qed.

End Bounded.

End Facts.
End TTLCacheFacts.

Lemma body_keeps_cache (E : Env) (index : option handle) (uid query : string)
    (top_k : Z) (st : state) :
  query_cache (snd (query_user_expenses_body E index uid query top_k st))
  = query_cache st.
Proof.
  unfold query_user_expenses_body, call_query.
  destruct index; [|reflexivity].
  destruct (extract_filters_from_query E query uid); [|reflexivity].
  destruct (has_query E); [|reflexivity].
  destruct (index_query E (trace st) _ _ _) as [r|[]]; cbn; try reflexivity.
  destruct (index_query E _ _ _ _) as [r|e]; reflexivity.
Qed.

Lemma maxsize_pos : (1 <= maxsize)%nat.
Proof. unfold maxsize. lia. Qed.

Lemma query_user_expenses_bounded (E : Env) (index : option handle)
    (uid query : string) (top_k tget tset : Z) (st : state) :
  (length (query_cache st) <= maxsize)%nat ->
  (length (query_cache
             (snd (query_user_expenses E index uid query top_k tget tset st)))
   <= maxsize)%nat.
Proof.
  intros Hst. unfold query_user_expenses.
  pose proof (TTLCacheFacts.getitem_length (K:=cache_key)
                (index, uid, query, top_k) tget (query_cache st)) as Hget.
  destruct (TTLCache.getitem _ tget (query_cache st)) as [[v|] c]; cbn [snd] in *.
  - cbn [set_cache query_cache]. lia.
  - pose proof (body_keeps_cache E index uid query top_k (set_cache c st)) as Hb.
    destruct (query_user_expenses_body E index uid query top_k (set_cache c st))
      as [[v|e] st1]; cbn [snd] in *.
    + cbn [set_cache query_cache].
      apply TTLCacheFacts.setitem_length; [apply maxsize_pos|].
      rewrite Hb. cbn [set_cache query_cache]. lia.
    + rewrite Hb. cbn [set_cache query_cache]. lia.
Qed.

Lemma run_calls_bounded (E : Env) (cs : list call) (st : state) :
  (length (query_cache st) <= maxsize)%nat ->
  (length (query_cache (run_calls E cs st)) <= maxsize)%nat.
Proof.
  revert st. induction cs as [|c cs IH]; intros st Hst; [exact Hst|].
  cbn [run_calls fold_left]. apply IH. unfold run_call.
  now apply query_user_expenses_bounded.
Qed.

(** After a call that returned [r], the cache holds [r] under the key of
    the call, with the expiry the call gave it or found. *)
Lemma query_user_expenses_cached (E : Env) (index : option handle)
    (uid query : string) (top_k tget tset : Z) (st st1 : state)
    (r : list match_) :
  query_user_expenses E index uid query top_k tget tset st = (Ret r, st1) ->
  exists e,
    TTLCache.find (K:=cache_key) (index, uid, query, top_k) (query_cache st1)
    = Some e
    /\ TTLCache.after (K:=cache_key) (index, uid, query, top_k)
         (query_cache st1) = []
    /\ TTLCache.e_value e = r
    /\ (TTLCache.e_expires e = tset + ttl
        \/ (expiry_of (index, uid, query, top_k) st = Some (TTLCache.e_expires e)
            /\ tget < TTLCache.e_expires e)).
Proof.
  unfold query_user_expenses.
  destruct (TTLCache.getitem _ tget (query_cache st)) as [[v|] c] eqn:Hget.
  - intros Heq. injection Heq as <- <-.
    destruct (TTLCacheFacts.getitem_hit _ _ _ _ _ Hget) as (e & Hf & Hf' & Hv & Hlt).
    exists e. cbn [set_cache query_cache]. split; [exact Hf'|]. split.
    + pose proof (TTLCacheFacts.getitem_snd (K:=cache_key)
                    (index, uid, query, top_k) tget (query_cache st)) as Hsnd.
      rewrite Hget, Hf in Hsnd. cbn [snd] in Hsnd. rewrite Hsnd.
      apply TTLCacheFacts.after_last. now apply (TTLCacheFacts.find_key _ _ _ Hf).
    + split; [exact Hv|]. right. unfold expiry_of. rewrite Hf. now split.
  - destruct (query_user_expenses_body E index uid query top_k (set_cache c st))
      as [[v|e] st'] eqn:Hbody; [|discriminate].
    intros Heq. injection Heq as <- <-.
    eexists. cbn [set_cache query_cache].
    split; [apply (TTLCacheFacts.find_setitem maxsize ttl maxsize_pos)|].
    split.
    + unfold TTLCache.setitem. cbn [Nat.ltb Nat.leb maxsize].
      now apply TTLCacheFacts.after_last.
    + cbn. split; [reflexivity | now left].
Qed.

(** A call whose key the cache holds, unexpired, returns the cached value
    and leaves the store alone. *)
Lemma query_user_expenses_hit (E : Env) (index : option handle)
    (uid query : string) (top_k tget tset : Z) (st : state)
    (e : TTLCache.entry cache_key (list match_)) :
  TTLCache.find (K:=cache_key) (index, uid, query, top_k) (query_cache st)
  = Some e ->
  tget < TTLCache.e_expires e ->
  exists st', query_user_expenses E index uid query top_k tget tset st
              = (Ret (TTLCache.e_value e), st')
              /\ trace st' = trace st.
Proof.
  intros Hf Hlt. unfold query_user_expenses.
  rewrite (TTLCacheFacts.getitem_fresh _ _ _ _ Hf Hlt).
  eexists. split; reflexivity.
Qed.

(** A call under another key, whose store comes before the item of [k]
    expires, keeps that item, with one more item after it at most. *)
Lemma run_call_keeps (E : Env) (k : cache_key) (c : call) (st : state)
    (e : TTLCache.entry cache_key (list match_)) (n : nat) :
  call_key c <> k -> c_tset c < TTLCache.e_expires e ->
  TTLCache.find k (query_cache st) = Some e ->
  (length (TTLCache.after k (query_cache st)) <= n)%nat ->
  (n + 2 <= maxsize)%nat ->
  TTLCache.find k (query_cache (run_call E c st)) = Some e
  /\ (length (TTLCache.after k (query_cache (run_call E c st))) <= n + 1)%nat.
Proof.
  intros Hne Hlt Hf Hn Hmax. unfold run_call, query_user_expenses.
  fold (call_key c).
  assert (Hn' : (length (TTLCache.remove (call_key c)
                           (TTLCache.after k (query_cache st))) <= n)%nat).
  { pose proof (TTLCacheFacts.remove_length (call_key c)
                  (TTLCache.after k (query_cache st))). lia. }
  destruct (TTLCacheFacts.getitem_keeps k (call_key c) (c_tget c) (query_cache st)
              e n Hne Hf Hn') as (Hf1 & Hn1 & Ha1).
  destruct (TTLCache.getitem (call_key c) (c_tget c) (query_cache st))
    as [[v|] c1]; cbn [snd] in Hf1, Hn1, Ha1.
  - cbn [snd set_cache query_cache]. split; [exact Hf1 | lia].
  - pose proof (body_keeps_cache E (c_index c) (c_user_id c) (c_query c)
                  (c_top_k c) (set_cache c1 st)) as Hb.
    destruct (query_user_expenses_body E (c_index c) (c_user_id c) (c_query c)
                (c_top_k c) (set_cache c1 st)) as [[v|ex] st1];
      cbn [snd set_cache query_cache] in *.
    + rewrite Hb. apply TTLCacheFacts.setitem_keeps; try assumption.
      apply maxsize_pos.
    + rewrite Hb. split; [exact Hf1 | lia].
Qed.

Lemma run_calls_keep (E : Env) (k : cache_key)
    (e : TTLCache.entry cache_key (list match_)) (cs : list call) :
  forall (st : state) (n : nat),
    Forall (fun c => call_key c <> k /\ c_tset c < TTLCache.e_expires e) cs ->
    TTLCache.find k (query_cache st) = Some e ->
    (length (TTLCache.after k (query_cache st)) <= n)%nat ->
    (n + length cs + 1 <= maxsize)%nat ->
    TTLCache.find k (query_cache (run_calls E cs st)) = Some e.
Proof.
  induction cs as [|c cs IH]; intros st n Hcs Hf Hn Hmax; [exact Hf|].
  inversion Hcs as [|c' cs' [Hne Hlt] Hrest]; subst.
  cbn [length] in Hmax.
  destruct (run_call_keeps E k c st e n Hne Hlt Hf Hn) as [Hf1 Hn1]; [lia|].
  cbn [run_calls fold_left]. apply (IH (run_call E c st) (n + 1)%nat); try assumption.
  lia.
Qed.

(** A call that raised did so before it reached the store, and so does
    every later call with the same arguments that is not served from the
    cache. *)
Lemma query_user_expenses_raise (E : Env) (index : option handle)
    (uid query : string) (top_k tget tset : Z) (st st1 : state) (ex : exn) :
  query_user_expenses E index uid query top_k tget tset st = (Raise ex, st1) ->
  trace st1 = trace st
  /\ forall tget2 tset2 st2,
       trace (snd (query_user_expenses E index uid query top_k tget2 tset2 st2))
       = trace st2.
Proof.
  unfold query_user_expenses.
  destruct (TTLCache.getitem _ tget (query_cache st)) as [[v|] c]; [discriminate|].
  unfold query_user_expenses_body.
  destruct index as [h|]; [|discriminate].
  destruct (extract_filters_from_query E query uid) as [flt|e] eqn:Hx.
  - destruct (has_query E); [|discriminate].
    destruct (call_query E _ top_k _ (set_cache c st)) as [[r|[]] st']; try discriminate.
    destruct (call_query E _ top_k _ st') as [[r|e'] st'']; discriminate.
  - intros Heq. injection Heq as <- <-. split; [reflexivity|].
    intros tget2 tset2 st2.
    destruct (TTLCache.getitem _ tget2 (query_cache st2)) as [[v|] c2]; reflexivity.
Qed.

(** [C5]: in every state the process reaches by calls of the retriever,
    the cache holds at most 100 entries; and once a call has returned, a
    second call with the same arguments made before the entry expires
    (300 seconds after the first call stored it) returns the result of the
    first and issues no query to the store, also when up to 99 calls with
    other arguments came in between. A call that raised has issued no
    query, and neither does a second one. *)
Theorem query_user_expenses_memoized (E : Env) (history : list call)
    (index : option handle) (uid query : string) (top_k tget1 tset1 : Z) :
  (length (query_cache (run_calls E history initial_state)) <= 100)%nat
  /\ (length (query_cache
                (snd (query_user_expenses E index uid query top_k tget1 tset1
                        (run_calls E history initial_state)))) <= 100)%nat
  /\ (forall r1 st1,
        query_user_expenses E index uid query top_k tget1 tset1
          (run_calls E history initial_state) = (Ret r1, st1) ->
        exists expires,
          expiry_of (index, uid, query, top_k) st1 = Some expires
          /\ (expires = tset1 + 300
              \/ (expiry_of (index, uid, query, top_k)
                    (run_calls E history initial_state) = Some expires
                  /\ tget1 < expires))
          /\ forall between tget2 tset2,
               (length between < 100)%nat ->
               Forall (fun c => call_key c <> (index, uid, query, top_k)
                                /\ c_tset c < expires) between ->
               tget2 < expires ->
               exists st2,
                 query_user_expenses E index uid query top_k tget2 tset2
                   (run_calls E between st1) = (Ret r1, st2)
                 /\ trace st2 = trace (run_calls E between st1))
  /\ (forall ex st1,
        query_user_expenses E index uid query top_k tget1 tset1
          (run_calls E history initial_state) = (Raise ex, st1) ->
        trace st1 = trace (run_calls E history initial_state)
        /\ forall tget2 tset2,
             trace (snd (query_user_expenses E index uid query top_k tget2 tset2
                           st1)) = trace st1).
Proof.
  assert (H0 : (length (query_cache (run_calls E history initial_state))
                <= maxsize)%nat).
  { apply run_calls_bounded. cbn. lia. }
  split; [exact H0|]. split; [|split].
  - now apply query_user_expenses_bounded.
  - intros r1 st1 Hcall.
    destruct (query_user_expenses_cached _ _ _ _ _ _ _ _ _ _ Hcall)
      as (e & Hf & Hlast & Hv & Hexp).
    exists (TTLCache.e_expires e). split; [|split].
    + unfold expiry_of. now rewrite Hf.
    + exact Hexp.
    + intros between tget2 tset2 Hlen Hbetween Hlt.
      assert (Hf2 : TTLCache.find (K:=cache_key) (index, uid, query, top_k)
                      (query_cache (run_calls E between st1)) = Some e).
      { apply (run_calls_keep E _ e between st1 0%nat Hbetween Hf).
        - rewrite Hlast. cbn. lia.
        - unfold maxsize. lia. }
      destruct (query_user_expenses_hit E index uid query top_k tget2 tset2
                  (run_calls E between st1) e Hf2 Hlt) as (st2 & Hq & Ht).
      exists st2. now rewrite <- Hv.
  - intros ex st1 Hcall.
    destruct (query_user_expenses_raise _ _ _ _ _ _ _ _ _ _ Hcall) as [Ht Hnext].
    split; [exact Ht|]. intros tget2 tset2. apply Hnext.
Qed.

Lemma query_user_expenses_memoized_witness :
  query_user_expenses online_env (Some PineconeIndex) "u1" "food" 5 0 1
    (run_calls online_env [] initial_state) = (Ret [lunch_match], cached_state)
  /\ exists st2,
       query_user_expenses online_env (Some PineconeIndex) "u1" "food" 5 200 201
         (run_calls online_env [] cached_state) = (Ret [lunch_match], st2)
       /\ trace st2 = trace (run_calls online_env [] cached_state).
Proof.
  assert (H : query_user_expenses online_env (Some PineconeIndex) "u1" "food" 5 0 1
                (run_calls online_env [] initial_state)
              = (Ret [lunch_match], cached_state))
    by (vm_compute; reflexivity).
  split; [exact H|].
  destruct (query_user_expenses_memoized online_env [] (Some PineconeIndex)
              "u1" "food" 5 0 1)
    as (_ & _ & Hreturned & _).
  destruct (Hreturned [lunch_match] cached_state H)
    as (expires & Hexp & _ & Hsecond).
  apply Hsecond.
  - cbn. lia.
  - constructor.
  - vm_compute in Hexp. injection Hexp as <-. lia.
Defined.

(** [C5], as stated, fails: a hundred calls with other queries, all of
    them inside the window of the first call, fill the cache and push
    its entry out, and the second call queries the store again. *)
Lemma hundred_calls_evict_the_entry :
  query_user_expenses online_env (Some PineconeIndex) "u1" "food" 5 0 1
    initial_state = (Ret [lunch_match], cached_state)
  /\ expiry_of (Some PineconeIndex, "u1", "food", 5) cached_state = Some 301
  /\ length hundred_other_calls = 100%nat
  /\ Forall (fun c => call_key c <> (Some PineconeIndex, "u1", "food", 5)
                      /\ c_tset c < 301) hundred_other_calls
  /\ exists st2 ev,
       query_user_expenses online_env (Some PineconeIndex) "u1" "food" 5 200 201
         (run_calls online_env hundred_other_calls cached_state)
       = (Ret [lunch_match], st2)
       /\ trace st2
          = trace (run_calls online_env hundred_other_calls cached_state) ++ [ev]
       /\ is_query ev = true.
Proof.
  split; [vm_compute; reflexivity|]. split; [vm_compute; reflexivity|].
  split; [reflexivity|]. split.
  - unfold hundred_other_calls. apply Forall_forall. intros c Hin.
    apply list_elem_of_In, in_map_iff in Hin. destruct Hin as (n & <- & Hn).
    split; [|reflexivity].
    apply in_seq in Hn. unfold call_key, other_call. cbn.
    intros Heq. injection Heq as Heq.
    do 100 (destruct n as [|n]; [discriminate Heq|]). lia.
  - do 2 eexists. split; [vm_compute; reflexivity|].
    split; vm_compute; reflexivity.
Qed.

(** ** The write to the store *)

Lemma elem_of_user_ids (u : string) (expenses : list expense) :
  u ∈ user_ids expenses <-> In u (map user_id expenses).
Proof. unfold user_ids. now rewrite elem_of_list_to_set, list_elem_of_In. Qed.

Lemma user_ids_single (u : string) (first : expense) (rest : list expense) :
  (forall e, In e (first :: rest) -> user_id e = u) ->
  size (user_ids (first :: rest)) = 1%nat.
Proof.
  intros Hall.
  assert (Hset : user_ids (first :: rest) = {[ u ]}).
  { apply set_eq. intros x. rewrite elem_of_user_ids, elem_of_singleton, in_map_iff.
    split.
    - intros (e & <- & He). now apply Hall.
    - intros ->. exists first. split; [apply Hall|]; now left. }
  rewrite Hset. apply size_singleton.
Qed.

Lemma user_ids_mixed (u1 u2 : string) (expenses : list expense) :
  In u1 (map user_id expenses) -> In u2 (map user_id expenses) -> u1 <> u2 ->
  size (user_ids expenses) <> 1%nat.
Proof.
  intros H1 H2 Hne Hsize. apply Hne.
  apply (size_singleton_inv (user_ids expenses)); [exact Hsize| |];
    now apply elem_of_user_ids.
Qed.

Lemma adds_refl (P : event -> Prop) (st : state) : adds P st st.
Proof. exists []. split; [now rewrite app_nil_r | constructor]. Qed.

Lemma adds_log (P : event -> Prop) (ev : event) (st : state) :
  P ev -> adds P st (log ev st).
Proof. intros Hev. exists [ev]. split; [reflexivity | now repeat constructor]. Qed.

Lemma adds_trans (P : event -> Prop) (st1 st2 st3 : state) :
  adds P st1 st2 -> adds P st2 st3 -> adds P st1 st3.
Proof.
  intros (evs1 & H1 & F1) (evs2 & H2 & F2). exists (evs1 ++ evs2).
  split; [now rewrite H2, H1, app_assoc | now apply Forall_app].
Qed.

Lemma adds_weaken (P Q : event -> Prop) (st st' : state) :
  (forall ev, P ev -> Q ev) -> adds P st st' -> adds Q st st'.
Proof.
  intros HPQ (evs & Ht & F). exists evs. split; [exact Ht|].
  eapply Forall_impl; eauto.
Qed.

Lemma adds_same_trace (P : event -> Prop) (st st' st'' : state) :
  trace st'' = trace st' -> adds P st st' -> adds P st st''.
Proof. intros Ht (evs & H & F). exists evs. now rewrite Ht. Qed.

Lemma doc_text_returns (e : expense) (B : Z) :
  bounded B (amount e) -> B < 2 ^ 1023 -> exists text, doc_text e = Ret text.
Proof.
  intros Hb HB. unfold doc_text.
  destruct (format_2f_bounded B _ Hb HB) as [amt ->]. cbn [bind]. eauto.
Qed.

(** The documents of a batch within the range of the floats are built. *)
Lemma build_docs_returns (E : Env) (expenses : list expense) :
  int_mass expenses < 2 ^ 1023 ->
  exists docs, build_docs_from_expenses E expenses = Ret docs.
Proof.
  unfold int_mass.
  induction expenses as [|e es IH]; intros HB; cbn [build_docs_from_expenses];
    [eauto|].
  cbn [map mass] in HB. pose proof (mass_nonneg (map amount es)).
  destruct (doc_text_returns e _ (bounded_self _) ltac:(lia)) as [text ->].
  cbn [bind]. destruct IH as [[[texts ids] metas] ->]; [lia|]. cbn [bind]. eauto.
Qed.

(** The documents are not built when an amount is an int beyond the
    floats, and then only. *)
Lemma build_docs_raises (E : Env) (expenses : list expense) (e : exn) :
  build_docs_from_expenses E expenses = Raise e ->
  e = OverflowError "int too large to convert to float"
  /\ exists x z, In x expenses /\ amount x = PyNum.Int z /\ 2 ^ 1023 <= Z.abs z.
Proof.
  induction expenses as [|x es IH]; cbn [build_docs_from_expenses]; [discriminate|].
  unfold doc_text at 1.
  destruct (PyNum.format_2f (amount x)) as [amt|e'] eqn:Hamt; cbn [bind].
  - destruct (build_docs_from_expenses E es) as [[[texts ids] metas]|e'];
      cbn [bind]; [discriminate|].
    intros Heq. injection Heq as ->.
    destruct (IH eq_refl) as (He & y & z & Hin & Hy & Hz).
    split; [exact He|]. exists y, z. split; [now right | now split].
  - intros Heq. injection Heq as ->.
    destruct (format_2f_raises _ _ Hamt) as (He & z & Hx & Hz).
    split; [exact He|]. exists x, z. split; [now left | now split].
Qed.

(** The upsert step by cases: without a store handle it returns at once;
    with one it raises on a batch of several users, and on a batch of
    one user whose documents cannot be built, and then nothing has been
    written; otherwise it returns. *)
Lemma upsert_cases (E : Env) (first : expense) (rest : list expense)
    (st : state) :
  match pinecone_index E with
  | Some _ =>
      if (size (user_ids (first :: rest)) =? 1)%nat
      then match build_docs_from_expenses E (first :: rest) with
           | Ret _ =>
               exists st',
                 upsert_expenses_to_pinecone E (first :: rest) st = (Ret tt, st')
           | Raise e =>
               upsert_expenses_to_pinecone E (first :: rest) st = (Raise e, st)
           end
      else upsert_expenses_to_pinecone E (first :: rest) st
           = (Raise (ValueError
                "All expenses to upsert must belong to the same user_id."), st)
  | None => upsert_expenses_to_pinecone E (first :: rest) st = (Ret tt, st)
  end.
Proof.
  unfold upsert_expenses_to_pinecone.
  destruct (pinecone_index E); [|reflexivity].
  destruct (size (user_ids (first :: rest)) =? 1)%nat; cbn [negb]; [|reflexivity].
  destruct (build_docs_from_expenses E (first :: rest)) as [[[texts ids] metas]|e];
    [|reflexivity].
  destruct (has_upsert E); [|eauto].
  destruct (call_upsert E Vectors _ st) as [[[]|[]] st1]; eauto.
Qed.

Lemma upsert_raise_inv (E : Env) (expenses : list expense) (st st1 : state)
    (e : exn) :
  upsert_expenses_to_pinecone E expenses st = (Raise e, st1) ->
  st1 = st
  /\ pinecone_index E <> None
  /\ (size (user_ids expenses) <> 1%nat
      /\ e = ValueError "All expenses to upsert must belong to the same user_id."
      \/ size (user_ids expenses) = 1%nat
         /\ build_docs_from_expenses E expenses = Raise e).
Proof.
  destruct expenses as [|first rest]; [discriminate|].
  pose proof (upsert_cases E first rest st) as H.
  destruct (pinecone_index E); [|rewrite H; discriminate].
  destruct (Nat.eqb_spec (size (user_ids (first :: rest))) 1) as [Hone | Hmany].
  - destruct (build_docs_from_expenses E (first :: rest)) as [docs|e'].
    + destruct H as [st' ->]. discriminate.
    + rewrite H. intros Heq. injection Heq as <- <-.
      split; [reflexivity|]. split; [discriminate|]. right. now split.
  - rewrite H. intros Heq. injection Heq as <- <-.
    split; [reflexivity|]. split; [discriminate|]. left. now split.
Qed.

(** On a batch of one user within the range of the floats the upsert
    step returns. *)
Lemma upsert_returns (E : Env) (first : expense) (rest : list expense)
    (st : state) :
  (forall e, In e (first :: rest) -> user_id e = user_id first) ->
  int_mass (first :: rest) < 2 ^ 1023 ->
  exists st1, upsert_expenses_to_pinecone E (first :: rest) st = (Ret tt, st1).
Proof.
  intros Hone HB. pose proof (upsert_cases E first rest st) as H.
  destruct (pinecone_index E); [|eauto].
  rewrite (user_ids_single (user_id first) first rest Hone) in H.
  destruct (build_docs_returns E (first :: rest) HB) as [docs Hd].
  now rewrite Hd in H.
Qed.

(** The upsert step touches the cache never, and the log by upsert calls
    only. *)
Lemma upsert_adds (E : Env) (expenses : list expense) (st : state) :
  adds (fun ev => is_upsert ev = true) st
       (snd (upsert_expenses_to_pinecone E expenses st))
  /\ query_cache (snd (upsert_expenses_to_pinecone E expenses st))
     = query_cache st.
Proof.
  unfold upsert_expenses_to_pinecone.
  destruct expenses as [|first rest]; [split; [apply adds_refl | reflexivity]|].
  destruct (pinecone_index E); [|split; [apply adds_refl | reflexivity]].
  destruct (negb _); [split; [apply adds_refl | reflexivity]|].
  destruct (build_docs_from_expenses E (first :: rest)) as [[[texts ids] metas]|e];
    [|split; [apply adds_refl | reflexivity]].
  destruct (has_upsert E); [|split; [apply adds_refl | reflexivity]].
  unfold call_upsert.
  destruct (index_upsert E (trace st) Vectors _) as [[]|[]]; cbn [snd];
    (split; [|reflexivity]);
    try (now apply adds_log).
  eapply adds_trans; now apply adds_log.
Qed.

(** ** The retriever *)

Lemma body_adds (E : Env) (index : option handle) (uid query : string)
    (top_k : Z) (st : state) :
  adds (query_for uid) st (snd (query_user_expenses_body E index uid query top_k st)).
Proof.
  unfold query_user_expenses_body, call_query.
  destruct index; [|apply adds_refl].
  destruct (extract_filters_from_query E query uid); [|apply adds_refl].
  destruct (has_query E); [|apply adds_refl].
  destruct (index_query E (trace st) _ _ _) as [r|[]]; cbn [snd];
    try (now apply adds_log).
  destruct (index_query E _ _ _ _) as [r|e]; cbn [snd];
    (eapply adds_trans; now apply adds_log).
Qed.

Lemma query_user_expenses_adds (E : Env) (index : option handle)
    (uid query : string) (top_k tget tset : Z) (st : state) :
  adds (query_for uid) st
       (snd (query_user_expenses E index uid query top_k tget tset st)).
Proof.
  unfold query_user_expenses.
  destruct (TTLCache.getitem _ tget (query_cache st)) as [[v|] c]; cbn [snd].
  - apply (adds_same_trace _ st st); [reflexivity | apply adds_refl].
  - pose proof (body_adds E index uid query top_k (set_cache c st)) as Hb.
    destruct (query_user_expenses_body E index uid query top_k (set_cache c st))
      as [[v|e] st1]; cbn [snd] in *.
    + destruct Hb as (evs & Ht & F). exists evs. now split.
    + exact Hb.
Qed.

(** The retriever returns whenever the filter extraction does, and
    without a store handle in any case. *)
Lemma query_user_expenses_returns (E : Env) (index : option handle)
    (uid query : string) (top_k tget tset : Z) (st : state) :
  index = None \/ (length (extract_date_entities E query) <= 1)%nat ->
  exists results st',
    query_user_expenses E index uid query top_k tget tset st = (Ret results, st').
Proof.
  intros Hok. unfold query_user_expenses.
  destruct (TTLCache.getitem _ tget (query_cache st)) as [[v|] c]; [eauto|].
  unfold query_user_expenses_body.
  destruct index as [h|]; [|eauto].
  destruct Hok as [Hnone | Hlen]; [discriminate|].
  destruct (extract_filters_returns E query uid Hlen) as (flt & -> & _).
  destruct (has_query E); [|eauto].
  destruct (call_query E _ top_k _ (set_cache c st)) as [[r|[]] st1]; eauto.
  destruct (call_query E _ top_k _ st1) as [[r|e] st2]; eauto.
Qed.

Lemma Forall_lfilter {A : Type} (P : A -> Prop) (f : A -> bool) (l : list A) :
  Forall P l -> Forall P (List.filter f l).
Proof.
  induction 1 as [|x l Hx Hl IH]; cbn [List.filter]; [constructor|].
  destruct (f x); [now constructor | exact IH].
Qed.

Lemma Forall_make_room {K V : Type} (P : TTLCache.entry K V -> Prop) (n : nat)
    (c : TTLCache.t K V) :
  Forall P c -> Forall P (TTLCache.make_room n c).
Proof.
  induction 1 as [|x l Hx Hl IH]; cbn [TTLCache.make_room]; [constructor|].
  destruct (_ <? _)%nat; [exact IH | now constructor].
Qed.

Lemma cache_scoped_getitem (k : cache_key) (time : Z)
    (c : TTLCache.t cache_key (list match_)) :
  cache_scoped c ->
  cache_scoped (snd (TTLCache.getitem k time c))
  /\ forall v, fst (TTLCache.getitem k time c) = Some v -> scoped_to (key_user k) v.
Proof.
  intros Hc. unfold TTLCache.getitem.
  destruct (TTLCache.find k c) as [e|] eqn:Hf; [|split; [exact Hc | discriminate]].
  assert (He : scoped_to (key_user k) (TTLCache.e_value e)).
  { pose proof (TTLCacheFacts.find_key k c e Hf) as Hk.
    apply find_some in Hf. destruct Hf as [Hin _].
    unfold cache_scoped in Hc. rewrite List.Forall_forall in Hc.
    rewrite <- Hk. now apply Hc. }
  assert (Hc' : cache_scoped (TTLCache.remove k c ++ [e])).
  { apply Forall_app. split; [now apply Forall_lfilter|].
    constructor; [|constructor].
    now rewrite (TTLCacheFacts.find_key k c e Hf). }
  destruct (_ <? _); cbn [fst snd]; (split; [exact Hc'|]).
  - intros v Hv. now injection Hv as <-.
  - discriminate.
Qed.

Lemma cache_scoped_setitem (k : cache_key) (v : list match_) (time : Z)
    (c : TTLCache.t cache_key (list match_)) :
  cache_scoped c -> scoped_to (key_user k) v ->
  cache_scoped (TTLCache.setitem maxsize ttl k v time c).
Proof.
  intros Hc Hv. unfold TTLCache.setitem.
  assert (He : cache_scoped (TTLCache.expire time c)) by now apply Forall_lfilter.
  destruct (_ <? _)%nat; [exact He|].
  apply Forall_app. split; [|now repeat constructor].
  apply Forall_lfilter.
  destruct (TTLCache.find k _); [exact He | now apply Forall_make_room].
Qed.

Lemma body_scoped (E : Env) (index : option handle) (uid query : string)
    (top_k : Z) (st st' : state) (results : list match_) :
  honours_filter E ->
  query_user_expenses_body E index uid query top_k st = (Ret results, st') ->
  scoped_to uid results.
Proof.
  intros Hh. unfold query_user_expenses_body, call_query.
  destruct index; [|intros Heq; injection Heq as <- _; constructor].
  destruct (extract_filters_from_query E query uid) as [flt|]; [|discriminate].
  destruct (has_query E); [|intros Heq; injection Heq as <- _; constructor].
  assert (Hm : forall tr r,
             index_query E tr (query_text_of query flt) top_k
               {| fc_user_id_eq := uid; fc_date := date_filter flt |} = Ret r ->
             scoped_to uid (matches_of r)).
  { intros tr [ms|] Hq; [|constructor]. exact (Hh _ _ _ _ _ Hq). }
  destruct (index_query E (trace st) _ _ _) as [r|[]] eqn:Hq1;
    try (intros Heq; injection Heq as <- _; first [now apply (Hm _ _ Hq1) | constructor]).
  destruct (index_query E _ _ _ _) as [r|e] eqn:Hq2 in |- *;
    intros Heq; injection Heq as <- _; [now apply (Hm _ _ Hq2) | constructor].
Qed.

(** With a store that applies its filters, the retriever returns matches
    of the user it was asked for only, and keeps the cache so. *)
Lemma query_user_expenses_scoped (E : Env) (index : option handle)
    (uid query : string) (top_k tget tset : Z) (st : state) :
  honours_filter E -> cache_scoped (query_cache st) ->
  cache_scoped
    (query_cache (snd (query_user_expenses E index uid query top_k tget tset st)))
  /\ forall results,
       fst (query_user_expenses E index uid query top_k tget tset st) = Ret results ->
       scoped_to uid results.
Proof.
  intros Hh Hc. unfold query_user_expenses.
  destruct (cache_scoped_getitem (index, uid, query, top_k) tget _ Hc) as [Hc' Hv].
  destruct (TTLCache.getitem _ tget (query_cache st)) as [[v|] c];
    cbn [fst snd] in *.
  - split; [exact Hc'|]. intros results Hr. injection Hr as <-. now apply Hv.
  - pose proof (body_keeps_cache E index uid query top_k (set_cache c st)) as Hk.
    destruct (query_user_expenses_body E index uid query top_k (set_cache c st))
      as [[v|e] st1] eqn:Hb; cbn [fst snd] in *.
    + pose proof (body_scoped _ _ _ _ _ _ _ _ Hh Hb) as Hs.
      split; [|intros results Hr; now injection Hr as <-].
      apply cache_scoped_setitem; [now rewrite Hk | exact Hs].
    + split; [now rewrite Hk | discriminate].
Qed.

(** ** The orchestrator *)

Lemma question_accepted (question : string) :
  PyStr.strip question <> EmptyString ->
  negb (PyStr.truthy question) || negb (PyStr.truthy (PyStr.strip question)) = false.
Proof.
  intros Hq. apply truthy_true in Hq as Hs. rewrite Hs.
  destruct question; [now elim Hq | reflexivity].
Qed.

(** An element passes the check exactly when no required field is
    missing. *)
Lemma check_expense_missing (i : nat) (r : raw_expense) :
  missing_fields r = [] <-> exists e, check_expense i (Dict r) = inr e.
Proof.
  unfold missing_fields, check_expense. destruct r as [u a c d dt x].
  cbn [raw_user_id raw_amount raw_category raw_description raw_date].
  destruct u, a, c, d, dt; cbn; split;
    first [intros _; eexists; reflexivity | reflexivity
          | discriminate | intros [e He]; discriminate He].
Qed.

Lemma check_expense_user (i : nat) (r : raw_expense) (e : expense) (u : string) :
  check_expense i (Dict r) = inr e -> raw_user_id r = Some u -> user_id e = u.
Proof.
  unfold check_expense. intros Hc Hu. rewrite Hu in Hc.
  destruct (raw_amount r), (raw_category r), (raw_description r), (raw_date r);
    try discriminate.
  now injection Hc as <-.
Qed.

Lemma validate_user_ids (items : list item) :
  forall (i : nat) (es : list expense) (r : raw_expense) (u : string),
    validate i items = inr es -> In (Dict r) items -> raw_user_id r = Some u ->
    In u (map user_id es).
Proof.
  induction items as [|it items IH]; intros i es r u Hv Hin Hu; [now elim Hin|].
  cbn [validate] in Hv.
  destruct (check_expense i it) as [err|e] eqn:Hc; [discriminate|].
  destruct (validate (S i) items) as [err|es'] eqn:Hv'; [discriminate|].
  injection Hv as <-. destruct Hin as [-> | Hin].
  - left. now apply (check_expense_user i r).
  - right. now apply (IH (S i) es' r u).
Qed.

Lemma filter_upserts_adds (uid : string) (st st' : state) :
  adds (query_for uid) st st' ->
  List.filter is_upsert (trace st') = List.filter is_upsert (trace st).
Proof.
  intros (evs & -> & F). rewrite List.filter_app.
  assert (Hnil : List.filter is_upsert evs = []).
  { induction F as [|ev evs Hev _ IH]; [reflexivity|].
    destruct ev; [now elim Hev | exact IH]. }
  now rewrite Hnil, app_nil_r.
Qed.

(** A query that succeeds went through every step. *)
Lemma query_fingpt_success_inv (E : Env) (question : string) (items : list item)
    (tget tset : Z) (st st' : state) (res : answered) :
  query_fingpt E question items tget tset st = (Ret (QSuccess res), st') ->
  exists first rest st1 flt results,
    validate 0 items = inr (first :: rest)
    /\ upsert_expenses_to_pinecone E (first :: rest) st = (Ret tt, st1)
    /\ extract_filters_from_query E question (user_id first) = Ret flt
    /\ query_user_expenses E (pinecone_index E) (user_id first) question 5
         tget tset st1 = (Ret results, st')
    /\ make_context E results (first :: rest) = Ret (context_used res)
    /\ make_answer E question (first :: rest)
         (build_prompt question (context_used res)) = Ret (answer res)
    /\ result_metadata res = flt
    /\ num_chunks res = length results.
Proof.
  unfold query_fingpt, query_fingpt_try.
  destruct (negb _ || negb _); [discriminate|].
  destruct items as [|it items]; [discriminate|].
  destruct (validate 0 (it :: items)) as [err|[|first rest]] eqn:Hv;
    try discriminate.
  destruct (upsert_expenses_to_pinecone E (first :: rest) st) as [[[]|[]] st1]
    eqn:Hu; try discriminate.
  destruct (extract_filters_from_query E question (user_id first)) as [flt|]
    eqn:Hf; [|discriminate].
  destruct (query_user_expenses E _ _ question 5 tget tset st1)
    as [[results|] st2] eqn:Hr; [|discriminate].
  destruct (make_context E results (first :: rest)) as [context|] eqn:Hc;
    [|discriminate].
  unfold build_prompt_try.
  destruct (make_answer E question (first :: rest) (build_prompt question context))
    as [a|] eqn:Ha; [|discriminate].
  intros Heq. injection Heq as <- <-.
  exists first, rest, st1, flt, results. cbn [context_used answer].
  repeat split; assumption.
Qed.

(** The steps that make a query succeed. *)
Lemma query_fingpt_success (E : Env) (question : string) (items : list item)
    (tget tset : Z) (st st1 st' : state) (first : expense) (rest : list expense)
    (flt : filters) (results : list match_) (context a : string) :
  PyStr.strip question <> EmptyString ->
  validate 0 items = inr (first :: rest) ->
  upsert_expenses_to_pinecone E (first :: rest) st = (Ret tt, st1) ->
  extract_filters_from_query E question (user_id first) = Ret flt ->
  query_user_expenses E (pinecone_index E) (user_id first) question 5
    tget tset st1 = (Ret results, st') ->
  make_context E results (first :: rest) = Ret context ->
  make_answer E question (first :: rest) (build_prompt question context) = Ret a ->
  query_fingpt E question items tget tset st
  = (Ret (QSuccess
       {| answer := a;
          context_used := context;
          result_metadata := flt;
          num_chunks := length results |}), st').
Proof.
  intros Hq Hv Hu Hf Hr Hc Ha. unfold query_fingpt, query_fingpt_try.
  rewrite (question_accepted question Hq).
  destruct items as [|it items]; [discriminate|].
  rewrite Hv, Hu, Hf, Hr, Hc. unfold build_prompt_try. now rewrite Ha.
Qed.

(** A raise of the upsert step ends the query with an error result, in
    the state the step left. *)
Lemma query_fingpt_upsert_raise (E : Env) (question : string) (items : list item)
    (tget tset : Z) (st st1 : state) (es : list expense) (e : exn) :
  PyStr.strip question <> EmptyString ->
  validate 0 items = inr es ->
  upsert_expenses_to_pinecone E es st = (Raise e, st1) ->
  query_fingpt E question items tget tset st
  = (Ret (QError (upsert_error e)), st1).
Proof.
  intros Hq Hv Hu. unfold query_fingpt, query_fingpt_try.
  rewrite (question_accepted question Hq).
  destruct es as [|first rest]; [discriminate|].
  destruct items as [|it items]; [discriminate|].
  rewrite Hv, Hu. destruct e; reflexivity.
Qed.

(** The orchestrator always returns. *)
Lemma query_fingpt_returns (E : Env) (question : string) (items : list item)
    (tget tset : Z) (st : state) :
  exists r st', query_fingpt E question items tget tset st = (Ret r, st').
Proof.
  unfold query_fingpt.
  destruct (query_fingpt_try E question items tget tset st) as [[r|e] st']; eauto.
Qed.

(** The state a query ends in: the one it started from; or, once the
    batch is written, the one the upsert step left (when the filters
    fail) or the one the retrieval left. *)
Lemma query_fingpt_state (E : Env) (question : string) (items : list item)
    (tget tset : Z) (st : state) :
  snd (query_fingpt E question items tget tset st) = st
  \/ exists first rest st1,
       validate 0 items = inr (first :: rest)
       /\ upsert_expenses_to_pinecone E (first :: rest) st = (Ret tt, st1)
       /\ (snd (query_fingpt E question items tget tset st) = st1
           \/ snd (query_fingpt E question items tget tset st)
              = snd (query_user_expenses E (pinecone_index E) (user_id first)
                       question 5 tget tset st1)).
Proof.
  unfold query_fingpt, query_fingpt_try.
  destruct (negb _ || negb _); [now left|].
  destruct items as [|it items]; [now left|].
  destruct (validate 0 (it :: items)) as [err|[|first rest]] eqn:Hv;
    [now left | now left |].
  destruct (upsert_expenses_to_pinecone E (first :: rest) st) as [[[]|ex] st1]
    eqn:Hu.
  - right. exists first, rest, st1. split; [reflexivity|]. split; [exact Hu|].
    destruct (extract_filters_from_query E question (user_id first)) as [flt|e];
      [|now left].
    right.
    destruct (query_user_expenses E _ _ question 5 tget tset st1)
      as [[results|e] st2]; [|reflexivity].
    destruct (make_context E results (first :: rest)) as [context|e];
      [|reflexivity].
    unfold build_prompt_try.
    destruct (make_answer E question (first :: rest) _); reflexivity.
  - left. destruct (upsert_raise_inv E _ _ _ _ Hu) as (-> & _).
    destruct ex; reflexivity.
Qed.

(** [C2], as the code has it: the query is aborted with an error result,
    before any store call or retrieval, whenever the upsert step raises.
    The step raises with a store handle only: on a batch of several
    users, and on a batch of one user with an amount that is an int
    beyond the floats, for which the documents cannot be built. What the
    store's own upsert call raises is dropped inside the step, which then
    returns. *)
Theorem upsert_raise_aborts (E : Env) (question : string) (items : list item)
    (tget tset : Z) (st st1 : state) (es : list expense) (e : exn) :
  PyStr.strip question <> EmptyString ->
  validate 0 items = inr es ->
  upsert_expenses_to_pinecone E es st = (Raise e, st1) ->
  query_fingpt E question items tget tset st = (Ret (QError (upsert_error e)), st)
  /\ pinecone_index E <> None
  /\ (size (user_ids es) <> 1%nat
      /\ e = ValueError "All expenses to upsert must belong to the same user_id."
      \/ size (user_ids es) = 1%nat
         /\ e = OverflowError "int too large to convert to float"
         /\ exists x z, In x es /\ amount x = PyNum.Int z /\ 2 ^ 1023 <= Z.abs z)
  /\ (forall first rest st0,
        size (user_ids (first :: rest)) = 1%nat ->
        int_mass (first :: rest) < 2 ^ 1023 ->
        exists st0', upsert_expenses_to_pinecone E (first :: rest) st0 = (Ret tt, st0'))
  /\ (forall first rest st0,
        size (user_ids (first :: rest)) <> 1%nat ->
        upsert_expenses_to_pinecone E (first :: rest) st0
        = (Raise (ValueError
             "All expenses to upsert must belong to the same user_id."), st0)).
Proof.
  intros Hq Hv Hu.
  destruct (upsert_raise_inv E es st st1 e Hu) as (-> & Hidx & Hwhy).
  split; [now apply (query_fingpt_upsert_raise E question items tget tset st st es e)|].
  split; [exact Hidx|]. split; [|split].
  - destruct Hwhy as [[Hmany He] | [Hone Hdocs]]; [left; now split|].
    right. split; [exact Hone|]. now apply (build_docs_raises E).
  - intros first rest st0 Hone HB.
    pose proof (upsert_cases E first rest st0) as H.
    destruct (pinecone_index E); [|eauto].
    rewrite Hone in H. destruct (build_docs_returns E (first :: rest) HB) as [docs Hd].
    now rewrite Hd in H.
  - intros first rest st0 Hmany.
    pose proof (upsert_cases E first rest st0) as H.
    destruct (pinecone_index E); [|now elim Hidx].
    now destruct (Nat.eqb_spec (size (user_ids (first :: rest))) 1).
Qed.

Lemma upsert_raise_aborts_witness :
  query_fingpt online_env "What is the total?" [Dict raw_lunch; Dict raw_taxi]
    0 1 initial_state
  = (Ret (QError "Failed to store expenses: All expenses to upsert must belong to the same user_id."),
     initial_state).
Proof.
  apply (upsert_raise_aborts online_env "What is the total?"
           [Dict raw_lunch; Dict raw_taxi] 0 1 initial_state initial_state
           [lunch; {| user_id := "u2"; amount := PyNum.Int 120;
                      category := "Transport"; description := "taxi";
                      date := "2024-01-06"; expense_id := None |}]
           (ValueError "All expenses to upsert must belong to the same user_id.")).
  - vm_compute. discriminate.
  - reflexivity.
  - vm_compute. reflexivity.
Defined.

(** [C2], as stated, fails: the store refuses the write, and the query is
    answered all the same, after a retrieval. *)
Lemma failed_upsert_still_retrieves :
  (forall tr kw vs,
     index_upsert failing_store_env tr kw vs
     = Raise (OtherException "connection reset"))
  /\ exists res st' vs text top_k f,
       query_fingpt failing_store_env "What is the total?" [Dict raw_lunch]
         0 1 initial_state = (Ret (QSuccess res), st')
       /\ trace st' = [EvUpsert Vectors vs; EvQuery text top_k f].
Proof.
  split; [reflexivity|].
  do 6 eexists. split; vm_compute; reflexivity.
Qed.

(** [C3], as the code has it: a batch with two different users never
    leads to an upsert call; and with an available store the query ends
    with an error result, in the state it started from. *)
Theorem mixed_batch_rejected (E : Env) (question : string) (items : list item)
    (tget tset : Z) (st : state) (r1 r2 : raw_expense) (u1 u2 : string) :
  In (Dict r1) items -> In (Dict r2) items ->
  raw_user_id r1 = Some u1 -> raw_user_id r2 = Some u2 -> u1 <> u2 ->
  List.filter is_upsert (trace (snd (query_fingpt E question items tget tset st)))
  = List.filter is_upsert (trace st)
  /\ (pinecone_index E <> None ->
      exists msg,
        query_fingpt E question items tget tset st = (Ret (QError msg), st)).
Proof.
  intros Hin1 Hin2 Hu1 Hu2 Hne.
  assert (Hmixed : forall es, validate 0 items = inr es ->
                              size (user_ids es) <> 1%nat).
  { intros es Hv. apply (user_ids_mixed u1 u2); [| |exact Hne].
    - exact (validate_user_ids _ _ _ r1 u1 Hv Hin1 Hu1).
    - exact (validate_user_ids _ _ _ r2 u2 Hv Hin2 Hu2). }
  split.
  - destruct (query_fingpt_state E question items tget tset st)
      as [-> | (first & rest & st1 & Hv & Hu & Hst)]; [reflexivity|].
    pose proof (upsert_cases E first rest st) as Hup.
    destruct (pinecone_index E) as [h|] eqn:Hidx.
    + destruct (Nat.eqb_spec (size (user_ids (first :: rest))) 1) as [Hone|];
        [now elim (Hmixed _ Hv) | rewrite Hup in Hu; discriminate].
    + rewrite Hup in Hu. injection Hu as <-.
      destruct Hst as [-> | ->]; [reflexivity|].
      apply (filter_upserts_adds (user_id first)).
      apply query_user_expenses_adds.
  - intros Hidx. unfold query_fingpt, query_fingpt_try.
    destruct (negb _ || negb _); [eauto|].
    destruct items as [|it items]; [now elim Hin1|].
    destruct (validate 0 (it :: items)) as [err|[|first rest]] eqn:Hv; [eauto..|].
    pose proof (upsert_cases E first rest st) as Hup.
    destruct (pinecone_index E) as [h|]; [|now elim Hidx].
    destruct (Nat.eqb_spec (size (user_ids (first :: rest))) 1) as [Hone|];
      [now elim (Hmixed _ eq_refl)|].
    rewrite Hup. eauto.
Qed.

Lemma mixed_batch_rejected_witness :
  List.filter is_upsert
    (trace (snd (query_fingpt online_env "What is the total?"
                   [Dict raw_lunch; Dict raw_taxi] 0 1 initial_state)))
  = List.filter is_upsert (trace initial_state)
  /\ (pinecone_index online_env <> None ->
      exists msg,
        query_fingpt online_env "What is the total?"
          [Dict raw_lunch; Dict raw_taxi] 0 1 initial_state
        = (Ret (QError msg), initial_state)).
Proof.
  apply (mixed_batch_rejected online_env "What is the total?"
           [Dict raw_lunch; Dict raw_taxi] 0 1 initial_state
           raw_lunch raw_taxi "u1" "u2").
  - left. reflexivity.
  - right. left. reflexivity.
  - reflexivity.
  - reflexivity.
  - discriminate.
Defined.

(** [C3], as stated, fails: without a store handle the upsert step is
    skipped before it looks at the users, and the mixed batch is
    answered. *)
Lemma mixed_batch_answered_offline :
  In (Dict raw_lunch) [Dict raw_lunch; Dict raw_taxi]
  /\ In (Dict raw_taxi) [Dict raw_lunch; Dict raw_taxi]
  /\ raw_user_id raw_lunch = Some "u1"
  /\ raw_user_id raw_taxi = Some "u2"
  /\ (exists res st',
        query_fingpt offline_env "What is the total?"
          [Dict raw_lunch; Dict raw_taxi] 0 1 initial_state
        = (Ret (QSuccess res), st'))
  /\ ~ (exists msg,
          fst (query_fingpt offline_env "What is the total?"
                 [Dict raw_lunch; Dict raw_taxi] 0 1 initial_state)
          = Ret (QError msg)).
Proof.
  split; [now left|]. split; [right; now left|].
  split; [reflexivity|]. split; [reflexivity|]. split.
  - do 2 eexists. vm_compute. reflexivity.
  - intros [msg H]. vm_compute in H. discriminate H.
Qed.

(** With a store that applies its filters, a request keeps the cache
    scoped. *)
Lemma query_fingpt_keeps_scoped (E : Env) (question : string)
    (items : list item) (tget tset : Z) (st : state) :
  honours_filter E -> cache_scoped (query_cache st) ->
  cache_scoped (query_cache (snd (query_fingpt E question items tget tset st))).
Proof.
  intros Hh Hc.
  destruct (query_fingpt_state E question items tget tset st)
    as [-> | (first & rest & st1 & Hv & Hu & Hst)]; [exact Hc|].
  pose proof (upsert_adds E (first :: rest) st) as [_ Hup].
  rewrite Hu in Hup. cbn [snd] in Hup.
  assert (Hc1 : cache_scoped (query_cache st1)) by now rewrite Hup.
  destruct Hst as [-> | ->]; [exact Hc1|].
  now apply query_user_expenses_scoped.
Qed.

Lemma run_requests_scoped (E : Env) (rs : list request) (st : state) :
  honours_filter E -> cache_scoped (query_cache st) ->
  cache_scoped (query_cache (run_requests E rs st)).
Proof.
  intros Hh. revert st. induction rs as [|r rs IH]; intros st Hc; [exact Hc|].
  cbn [run_requests fold_left]. apply IH. unfold run_request.
  now apply query_fingpt_keeps_scoped.
Qed.

(** [C10]: the user of the first expense of the batch is the scope of the
    whole query. Every store query the orchestrator issues carries a
    filter that requires that user; the filter set of the result names
    that user; and the matches come from the retriever called for that
    user, so that, with a store that applies its filters, in a cache that
    holds matches of the user of each key only, which is every cache the
    process reaches, no retrieved match belongs to anyone else. *)
Theorem query_fingpt_user_scope (E : Env) (question : string) (items : list item)
    (tget tset : Z) (st : state) (first : expense) (rest : list expense) :
  validate 0 items = inr (first :: rest) ->
  (exists st1,
     adds (fun ev => is_upsert ev = true) st st1
     /\ adds (query_for (user_id first)) st1
          (snd (query_fingpt E question items tget tset st)))
  /\ (forall res st',
        query_fingpt E question items tget tset st = (Ret (QSuccess res), st') ->
        flt_user_id (result_metadata res) = user_id first
        /\ exists st1 results,
             query_user_expenses E (pinecone_index E) (user_id first) question 5
               tget tset st1 = (Ret results, st')
             /\ num_chunks res = length results
             /\ make_context E results (first :: rest) = Ret (context_used res)
             /\ (honours_filter E -> cache_scoped (query_cache st) ->
                 scoped_to (user_id first) results
                 /\ cache_scoped (query_cache st')))
  /\ (forall history,
        honours_filter E ->
        cache_scoped (query_cache (run_requests E history initial_state))).
Proof.
  intros Hv. split; [|split].
  - destruct (query_fingpt_state E question items tget tset st)
      as [-> | (first' & rest' & st1 & Hv' & Hu & Hst)];
      [exists st; split; apply adds_refl|].
    rewrite Hv in Hv'. injection Hv' as <- <-.
    pose proof (upsert_adds E (first :: rest) st) as [Hup _].
    rewrite Hu in Hup. cbn [snd] in Hup.
    exists st1. split; [exact Hup|].
    destruct Hst as [-> | ->]; [apply adds_refl|].
    apply query_user_expenses_adds.
  - intros res st' Hres.
    destruct (query_fingpt_success_inv _ _ _ _ _ _ _ _ Hres)
      as (first' & rest' & st1 & flt & results & Hv' & Hu & Hf & Hr & Hc & _ & Hm & Hn).
    rewrite Hv in Hv'. injection Hv' as <- <-.
    split.
    + rewrite Hm. exact (extract_filters_returns_user E question (user_id first) flt Hf).
    + exists st1, results.
      split; [exact Hr|]. split; [exact Hn|]. split; [exact Hc|].
      intros Hh Hc0.
      pose proof (upsert_adds E (first :: rest) st) as [_ Hcache0].
      rewrite Hu in Hcache0. cbn [snd] in Hcache0.
      assert (Hc1 : cache_scoped (query_cache st1)) by now rewrite Hcache0.
      destruct (query_user_expenses_scoped E (pinecone_index E) (user_id first)
                  question 5 tget tset st1 Hh Hc1) as [Hcache Hres'].
      rewrite Hr in Hcache, Hres'. cbn [fst snd] in Hcache, Hres'.
      split; [now apply Hres' | exact Hcache].
  - intros history Hh. apply run_requests_scoped; [exact Hh | constructor].
Qed.

Lemma online_store_honours_filter : honours_filter online_env.
Proof.
  intros tr text top_k f ms Hq. cbn in Hq.
  destruct (String.eqb (fc_user_id_eq f) "u1") eqn:Hu;
    injection Hq as <-; [|constructor].
  apply String.eqb_eq in Hu. rewrite Hu.
  constructor; [vm_compute; reflexivity | constructor].
Qed.

Lemma query_fingpt_user_scope_witness :
  validate 0 [Dict raw_lunch] = inr [lunch]
  /\ (exists st1,
        adds (fun ev => is_upsert ev = true) initial_state st1
        /\ adds (query_for "u1") st1
             (snd (query_fingpt online_env "What is the total?" [Dict raw_lunch]
                     0 1 initial_state)))
  /\ exists res st' results,
       query_fingpt online_env "What is the total?" [Dict raw_lunch] 0 1
         initial_state = (Ret (QSuccess res), st')
       /\ flt_user_id (result_metadata res) = "u1"
       /\ num_chunks res = length results
       /\ scoped_to "u1" results
       /\ cache_scoped (query_cache st').
Proof.
  pose proof (query_fingpt_user_scope online_env "What is the total?"
                [Dict raw_lunch] 0 1 initial_state lunch [] eq_refl)
    as (Hlog & Hscope & _).
  split; [reflexivity|]. split; [exact Hlog|].
  assert (Hrun : exists res st',
             query_fingpt online_env "What is the total?" [Dict raw_lunch] 0 1
               initial_state = (Ret (QSuccess res), st'))
    by (do 2 eexists; vm_compute; reflexivity).
  destruct Hrun as (res & st' & Hrun).
  destruct (Hscope res st' Hrun) as (Hu & st1 & results & _ & Hn & _ & Hs).
  destruct (Hs online_store_honours_filter (List.Forall_nil _)) as [Hres Hcache].
  exists res, st', results. repeat split; assumption.
Defined.

(** ** Answers *)

(** On a batch within the range of the floats the local analysis
    returns, and what it returns is not empty. *)
Lemma local_analysis_returns (E : Env) (question : string) (first : expense)
    (rest : list expense) :
  in_float_range (first :: rest) ->
  exists a, local_expense_analysis E question (first :: rest) = Ret a
            /\ a <> EmptyString.
Proof.
  intros [HB Hlen].
  assert (H63 : 2 ^ 63 < 2 ^ 1023) by (apply Z.pow_lt_mono_r; lia).
  pose proof (mass_nonneg (map amount (first :: rest))) as Hnn. fold (int_mass (first :: rest)) in Hnn.
  unfold local_expense_analysis.
  destruct (total_amount_bounded (first :: rest) HB) as (total & -> & Htotal). cbn [bind].
  destruct (category_totals_bounded (first :: rest) HB) as (cats & dates & -> & Hcats).
  cbn [bind fst].
  pose proof (top_category_bounded _ cats Hnn Hcats) as Htop.
  assert (Hbig : bounded (int_mass (first :: rest)) (amount (py_max amount first rest)))
    by (apply bounded_in_mass, py_max_in).
  destruct (format_2f_bounded _ _ Htotal HB) as [total_2f Htotal_2f].
  destruct (format_2f_bounded _ _ Htop HB) as [top_2f Htop_2f].
  destruct (format_2f_bounded _ _ Hbig HB) as [big_2f Hbig_2f].
  destruct (PyStr.any_in biggest_words _).
  { unfold answer_biggest. rewrite Hbig_2f. cbn [bind].
    eexists. split; [reflexivity | discriminate]. }
  destruct (PyStr.any_in total_words _).
  { unfold answer_total. rewrite Htotal_2f, Htop_2f. cbn [bind].
    destruct (div_bounded _ total (Z.of_nat (length (first :: rest))) Htotal HB)
      as [avg ->]; [cbn [length]; lia | lia |].
    cbn [bind PyNum.format_2f]. eexists. split; [reflexivity | discriminate]. }
  destruct (PyStr.any_in category_words _).
  { unfold answer_categories.
    destruct (map_result_returns
                (fun ca => let* amt := PyNum.format_2f (snd ca) in
                           Ret ("• " +:+ fst ca +:+ ": ₹" +:+ amt))
                (sorted_desc cats)) as [lines ->].
    { intros ca Hin.
      apply (Permutation_in _ (sorted_desc_perm cats)) in Hin.
      rewrite List.Forall_forall in Hcats.
      destruct (format_2f_bounded _ _ (Hcats ca Hin) HB) as [amt ->]. cbn [bind].
      eauto. }
    cbn [bind]. eexists. split; [reflexivity | discriminate]. }
  destruct (PyStr.any_in saving_words _).
  { unfold answer_saving. rewrite Htop_2f, Hbig_2f. cbn [bind].
    eexists. split; [reflexivity | discriminate]. }
  unfold answer_summary. rewrite Htotal_2f, Htop_2f, Hbig_2f. cbn [bind].
  eexists. split; [reflexivity | discriminate].
Qed.

Lemma context_line_returns (E : Env) (e : expense) (B : Z) :
  bounded B (amount e) -> B < 2 ^ 1023 ->
  exists line, context_line E e = Ret line /\ line <> EmptyString.
Proof.
  intros Hb HB. unfold context_line.
  destruct (format_2f_bounded B _ Hb HB) as [amt ->]. cbn [bind app].
  eexists. split; [reflexivity|].
  apply join_nonempty, append_nonempty_l. discriminate.
Qed.

Lemma fallback_context_returns (E : Env) (first : expense) (rest : list expense) :
  int_mass (first :: rest) < 2 ^ 1023 ->
  exists context, fallback_context E (first :: rest) = Ret context
                  /\ context <> EmptyString.
Proof.
  intros HB. unfold fallback_context. cbn [map_result].
  destruct (context_line_returns E first _
              (bounded_in_mass first (first :: rest) (or_introl eq_refl)) HB)
    as (line & -> & Hline). cbn [bind].
  destruct (map_result_returns (context_line E) rest) as [lines ->].
  { intros e Hin.
    destruct (context_line_returns E e _
                (bounded_in_mass e (first :: rest) (or_intror Hin)) HB)
      as (l & -> & _). eauto. }
  cbn [bind]. eexists. split; [reflexivity | now apply join_nonempty].
Qed.

Lemma make_context_returns (E : Env) (results : list match_) (first : expense)
    (rest : list expense) :
  int_mass (first :: rest) < 2 ^ 1023 ->
  exists context, make_context E results (first :: rest) = Ret context
                  /\ context <> EmptyString.
Proof.
  intros HB. unfold make_context.
  destruct (PyStr.truthy (format_context_from_results results)) eqn:Ht;
    cbn [negb orb]; [|now apply fallback_context_returns].
  destruct (String.eqb _ sentinel); [now apply fallback_context_returns|].
  eexists. split; [reflexivity | now apply truthy_true].
Qed.


Lemma error_status_message_nonempty (r : response) :
  error_status_message r <> EmptyString.
Proof.
  unfold error_status_message.
  destruct (_ =? 401); [discriminate|].
  destruct (_ =? 403); [destruct (_ || _); discriminate|].
  destruct (_ =? 404); [discriminate|].
  destruct (_ =? 503); [discriminate|].
  unfold msg_status. apply append_nonempty_l. discriminate.
Qed.

Lemma msg_unexpected_nonempty (e : exn) : msg_unexpected e <> EmptyString.
Proof. unfold msg_unexpected. apply append_nonempty_l. discriminate. Qed.

(** Whatever the configuration and whatever the endpoint does (a
    response of any status and body, a timeout, a connection error, any
    other exception), the client returns a message and never raises. *)
Lemma call_fingpt_api_returns (E : Env) (prompt : string) :
  exists msg, call_fingpt_api E prompt = Ret msg.
Proof.
  unfold call_fingpt_api.
  destruct (call_fingpt_api_try E prompt) as [msg|[]]; eauto.
Qed.

Lemma read_output_blank (E : Env) (output : json) :
  match read_output E output with
  | Ret msg => msg = EmptyString
  | Raise _ => False
  end ->
  exists fields others key s,
    output = JArr (JObj fields :: others)
    /\ List.find (fun kv => String.eqb (fst kv) "generated_text") fields
       = Some (key, JStr s)
    /\ PyStr.strip s = EmptyString.
Proof.
  unfold read_output.
  destruct output as [| | | |[|first others]|]; try discriminate.
  destruct first as [| | |s|l|fields]; cbn [has_generated_text bind];
    try (intros []).
  - destruct (PyStr.contains _ s); cbn [generated_text]; [intros [] | discriminate].
  - destruct (existsb _ l); cbn [generated_text]; [intros [] | discriminate].
  - destruct (existsb _ fields); [|discriminate].
    cbn [generated_text].
    destruct (List.find _ fields) as [[key v]|] eqn:Hf; [|intros []].
    destruct v as [| | |s| |]; try (intros Hfalse; contradiction).
    intros Hs. now exists fields, others, key, s.
Qed.

(** The only empty message of the client is a blank generated text. *)
Lemma call_fingpt_api_blank (E : Env) (prompt : string) :
  call_fingpt_api E prompt = Ret EmptyString -> generated_blank E prompt.
Proof.
  unfold call_fingpt_api, call_fingpt_api_try, generated_blank.
  destruct (HF_API_TOKEN E) as [tok|]; [|discriminate].
  destruct (negb _ || _); [discriminate|].
  destruct (requests_post E (HF_API_URL E) tok prompt) as [r|e] eqn:Hpost;
    cbn [bind].
  - destruct (Z.eqb_spec (status_code r) 200) as [H200|]; cbn [negb].
    + destruct (body r) as [output|] eqn:Hbody; [|discriminate].
      pose proof (read_output_blank E output) as Hblank.
      destruct (read_output E output) as [msg|e].
      * intros Heq. injection Heq as ->.
        destruct (Hblank eq_refl) as (fields & others & key & s & -> & Hf & Hs).
        exists tok, r, fields, others, key, s. repeat split; assumption.
      * destruct e; intros Heq; injection Heq as Heq;
          first [discriminate Heq | now apply msg_unexpected_nonempty in Heq].
    + intros Heq. injection Heq as Heq.
      now apply error_status_message_nonempty in Heq.
  - destruct e; intros Heq; injection Heq as Heq;
      first [discriminate Heq | now apply msg_unexpected_nonempty in Heq].
Qed.

Lemma make_answer_returns (E : Env) (question : string) (first : expense)
    (rest : list expense) (prompt : string) :
  in_float_range (first :: rest) ->
  exists a, make_answer E question (first :: rest) prompt = Ret a
            /\ (a <> EmptyString \/ generated_blank E prompt).
Proof.
  intros Hrange.
  destruct (local_analysis_returns E question first rest Hrange) as (a & Ha & Hne).
  unfold make_answer.
  destruct (call_fingpt_api_returns E prompt) as [msg Hcall]. rewrite Hcall.
  cbn [bind].
  destruct (PyStr.any_in _ _); [rewrite Ha; eauto|].
  exists msg. split; [reflexivity|].
  destruct msg; [right; now apply call_fingpt_api_blank | left; discriminate].
Qed.

(** A question that is not blank, on a valid batch of one user within
    the range of the floats and with at most one date in it, is
    answered. *)
Lemma query_fingpt_succeeds (E : Env) (question : string) (items : list item)
    (tget tset : Z) (st : state) (first : expense) (rest : list expense) :
  PyStr.strip question <> EmptyString ->
  validate 0 items = inr (first :: rest) ->
  (forall e, In e (first :: rest) -> user_id e = user_id first) ->
  (length (extract_date_entities E question) <= 1)%nat ->
  in_float_range (first :: rest) ->
  exists res st',
    query_fingpt E question items tget tset st = (Ret (QSuccess res), st')
    /\ context_used res <> EmptyString
    /\ make_answer E question (first :: rest)
         (build_prompt question (context_used res)) = Ret (answer res)
    /\ (answer res <> EmptyString
        \/ generated_blank E (build_prompt question (context_used res))).
Proof.
  intros Hq Hv Hone Hlen Hrange.
  destruct (upsert_returns E first rest st Hone (proj1 Hrange)) as [st1 Hup].
  destruct (extract_filters_returns E question (user_id first) Hlen)
    as (flt & Hf & _).
  destruct (query_user_expenses_returns E (pinecone_index E) (user_id first)
              question 5 tget tset st1 (or_intror Hlen)) as (results & st' & Hr).
  destruct (make_context_returns E results first rest (proj1 Hrange))
    as (context & Hc & Hcne).
  destruct (make_answer_returns E question first rest
              (build_prompt question context) Hrange) as (a & Ha & Hane).
  eexists. exists st'.
  split; [exact (query_fingpt_success E question items tget tset st st1 st'
                   first rest flt results context a Hq Hv Hup Hf Hr Hc Ha)|].
  cbn [context_used answer]. repeat split; assumption.
Qed.

(** [C1], as the code has it: the orchestrator never raises; and for a
    question that is not blank, with at most one date in it, on a valid
    batch of one user whose amounts are within the range of the floats,
    whatever the store and the backend do, it returns a success result
    whose context is not empty and whose answer is not empty either,
    unless the backend answered 200 with a blank generated text, which is
    passed on as it is. *)
Theorem query_fingpt_answers (E : Env) (question : string) (items : list item)
    (tget tset : Z) (st : state) (first : expense) (rest : list expense) :
  PyStr.strip question <> EmptyString ->
  validate 0 items = inr (first :: rest) ->
  (forall e, In e (first :: rest) -> user_id e = user_id first) ->
  (length (extract_date_entities E question) <= 1)%nat ->
  in_float_range (first :: rest) ->
  (exists res st',
     query_fingpt E question items tget tset st = (Ret (QSuccess res), st')
     /\ context_used res <> EmptyString
     /\ (answer res <> EmptyString
         \/ generated_blank E (build_prompt question (context_used res))))
  /\ (forall question' items' tget' tset' st0,
        exists r st0',
          query_fingpt E question' items' tget' tset' st0 = (Ret r, st0')).
Proof.
  intros Hq Hv Hone Hlen Hrange. split.
  - destruct (query_fingpt_succeeds E question items tget tset st first rest
                Hq Hv Hone Hlen Hrange) as (res & st' & Hres & Hc & _ & Ha).
    exists res, st'. repeat split; assumption.
  - intros question' items' tget' tset' st0. apply query_fingpt_returns.
Qed.

Lemma query_fingpt_answers_witness :
  in_float_range [lunch]
  /\ exists res st',
       query_fingpt online_env "What is the total?" [Dict raw_lunch] 0 1
         initial_state = (Ret (QSuccess res), st')
       /\ context_used res <> EmptyString
       /\ (answer res <> EmptyString
           \/ generated_blank online_env
                (build_prompt "What is the total?" (context_used res))).
Proof.
  assert (Hrange : in_float_range [lunch]) by (split; reflexivity).
  split; [exact Hrange|].
  apply (query_fingpt_answers online_env "What is the total?" [Dict raw_lunch]
           0 1 initial_state lunch []).
  - vm_compute. discriminate.
  - reflexivity.
  - intros e [<- | []]. reflexivity.
  - vm_compute. lia.
  - exact Hrange.
Defined.

(** [C1], as stated, fails: the backend answers 200 with a generated text
    of spaces, and the answer of the result is empty. *)
Lemma blank_generation_gives_empty_answer :
  PyStr.strip "What is the total?" <> EmptyString
  /\ validate 0 [Dict raw_lunch] = inr [lunch]
  /\ exists res st',
       query_fingpt blank_env "What is the total?" [Dict raw_lunch] 0 1
         initial_state = (Ret (QSuccess res), st')
       /\ answer res = EmptyString.
Proof.
  split; [vm_compute; discriminate|]. split; [reflexivity|].
  do 2 eexists. split; vm_compute; reflexivity.
Qed.

(** An int amount beyond the floats: with a store handle the documents
    cannot be built, without one the context cannot, and the query ends
    with an error result. *)
Lemma unrenderable_amount_is_an_error :
  validate 0 [Dict raw_fortune] = inr [fortune]
  /\ query_fingpt online_env "What is the total?" [Dict raw_fortune] 0 1
       initial_state
     = (Ret (QError "Storage error: int too large to convert to float"),
        initial_state)
  /\ fst (query_fingpt offline_env "What is the total?" [Dict raw_fortune] 0 1
            initial_state)
     = Ret (QError "Failed to format context: int too large to convert to float").
Proof. split; [|split]; vm_compute; reflexivity. Qed.



(** ** Further properties of the pipeline *)

(** *** The order of the numbers *)

Lemma Qgt_bool_true (p q : Q) : negb (Qle_bool q p) = true <-> (p < q)%Q.
Proof.
  rewrite negb_true_iff. split.
  - intros H. apply Qnot_le_lt. intros Hle.
    apply Qle_bool_iff in Hle. congruence.
  - intros H. destruct (Qle_bool q p) eqn:Hb; [|reflexivity].
    apply Qle_bool_iff in Hb. exfalso. exact (Qlt_not_le _ _ H Hb).
Qed.

Lemma Qgt_bool_false (p q : Q) : negb (Qle_bool q p) = false <-> (q <= p)%Q.
Proof. rewrite negb_false_iff. apply Qle_bool_iff. Qed.

Ltac ext_cases :=
  cbn [PyNum.ext_ltb]; intros;
  try discriminate; try reflexivity;
  repeat match goal with
         | H : negb (Qle_bool _ _) = true |- _ => apply Qgt_bool_true in H
         | H : negb (Qle_bool _ _) = false |- _ => apply Qgt_bool_false in H
         end;
  try (apply Qgt_bool_true); try (apply Qgt_bool_false).

Lemma ext_ltb_trans (a b c : PyNum.ext) :
  PyNum.ext_ltb a b = true -> PyNum.ext_ltb b c = true -> PyNum.ext_ltb a c = true.
Proof. destruct a, b, c; ext_cases. eapply Qlt_trans; eassumption. Qed.

Lemma ext_le_lt_trans (a b c : PyNum.ext) :
  PyNum.ext_ltb b a = false -> PyNum.ext_ltb b c = true -> PyNum.ext_ltb a c = true.
Proof. destruct a, b, c; ext_cases. eapply Qle_lt_trans; eassumption. Qed.


Lemma ext_ltb_asym (a b : PyNum.ext) :
  PyNum.ext_ltb a b = true -> PyNum.ext_ltb b a = false.
Proof. destruct a, b; ext_cases. now apply Qlt_le_weak. Qed.

Lemma value_of_number (x : PyNum.t) :
  is_nan x = false -> exists a, PyNum.value x = Some a.
Proof. destruct x as [z|[| | |]]; cbn; intros H; try discriminate; eauto. Qed.

Lemma gt_values (x y : PyNum.t) (a b : PyNum.ext) :
  PyNum.value x = Some a -> PyNum.value y = Some b ->
  PyNum.gt x y = PyNum.ext_ltb b a.
Proof. intros Hx Hy. unfold PyNum.gt. now rewrite Hx, Hy. Qed.

Lemma gt_true_values (x y : PyNum.t) :
  PyNum.gt x y = true ->
  exists a b, PyNum.value x = Some a /\ PyNum.value y = Some b
              /\ PyNum.ext_ltb b a = true.
Proof.
  unfold PyNum.gt.
  destruct (PyNum.value x) as [a|], (PyNum.value y) as [b|]; try discriminate.
  eauto.
Qed.

Lemma gt_trans (x y z : PyNum.t) :
  PyNum.gt x y = true -> PyNum.gt y z = true -> PyNum.gt x z = true.
Proof.
  intros Hxy Hyz.
  destruct (gt_true_values _ _ Hxy) as (a & b & Ha & Hb & Hba).
  destruct (gt_true_values _ _ Hyz) as (b' & c & Hb' & Hc & Hcb).
  rewrite Hb in Hb'. injection Hb' as <-.
  rewrite (gt_values x z a c Ha Hc). eapply ext_ltb_trans; eassumption.
Qed.

Lemma gt_asym (x y : PyNum.t) : PyNum.gt x y = true -> PyNum.gt y x = false.
Proof.
  intros Hxy. destruct (gt_true_values _ _ Hxy) as (a & b & Ha & Hb & Hba).
  rewrite (gt_values y x b a Hb Ha). now apply ext_ltb_asym.
Qed.

(** What is not greater than [b] is less than what is greater than [b]. *)
Lemma gt_le_lt (x b y : PyNum.t) :
  is_nan x = false -> PyNum.gt x b = false -> PyNum.gt y b = true ->
  PyNum.gt y x = true.
Proof.
  intros Hx Hxb Hyb.
  destruct (gt_true_values _ _ Hyb) as (c & b' & Hc & Hb & Hlt).
  destruct (value_of_number x Hx) as [a Ha].
  rewrite (gt_values x b a b' Ha Hb) in Hxb.
  rewrite (gt_values y x c a Hc Ha). eapply ext_le_lt_trans; eassumption.
Qed.

(** What is not greater than [b] is not greater than what is greater
    than [b]. *)
Lemma gt_not_above (x b y : PyNum.t) :
  PyNum.gt x b = false -> PyNum.gt y b = true -> PyNum.gt x y = false.
Proof.
  intros Hxb Hyb. destruct (is_nan x) eqn:Hx.
  - destruct x as [z|[| | |]]; try discriminate Hx. reflexivity.
  - apply gt_asym. now apply (gt_le_lt x b y).
Qed.


(** *** The local analyzer: the largest expense *)

(** [max] returns the first of the largest: nothing exceeds it, and
    among numbers nothing before it is as large. *)
Lemma py_max_split {A : Type} (key : A -> PyNum.t) (rest : list A) :
  forall (pre : list A) (best : A) (mid : list A),
    (forall x, In x pre -> PyNum.gt (key best) (key x) = true) ->
    (forall x, In x mid -> PyNum.gt (key x) (key best) = false) ->
    (forall x, In x mid -> is_nan (key x) = false) ->
    (forall x, In x rest -> is_nan (key x) = false) ->
    exists l1 l2,
      pre ++ best :: mid ++ rest = l1 ++ py_max key best rest :: l2
      /\ (forall x, In x l1 -> PyNum.gt (key (py_max key best rest)) (key x) = true)
      /\ (forall x, In x l2 -> PyNum.gt (key x) (key (py_max key best rest)) = false).
Proof.
  induction rest as [|y rest IH]; intros pre best mid Hpre Hmid Hnum Hrest.
  - exists pre, mid. rewrite app_nil_r. auto.
  - cbn [py_max]. destruct (PyNum.gt (key y) (key best)) eqn:Hgt.
    + destruct (IH (pre ++ best :: mid) y []) as (l1 & l2 & Heq & H1 & H2).
      * intros x Hx. apply in_app_or in Hx. destruct Hx as [Hx|[<-|Hx]].
        -- eapply gt_trans; [exact Hgt | apply Hpre, Hx].
        -- exact Hgt.
        -- apply (gt_le_lt (key x) (key best)); [apply Hnum, Hx | apply Hmid, Hx | exact Hgt].
      * intros x [].
      * intros x [].
      * intros x Hx. apply Hrest. now right.
      * exists l1, l2. split; [|auto].
        rewrite <- Heq. cbn [app]. rewrite <- app_assoc. reflexivity.
    + destruct (IH pre best (mid ++ [y])) as (l1 & l2 & Heq & H1 & H2).
      * exact Hpre.
      * intros x Hx. apply in_app_or in Hx. destruct Hx as [Hx|[<-|[]]].
        -- apply Hmid, Hx.
        -- exact Hgt.
      * intros x Hx. apply in_app_or in Hx. destruct Hx as [Hx|[<-|[]]].
        -- apply Hnum, Hx.
        -- apply Hrest. now left.
      * intros x Hx. apply Hrest. now right.
      * exists l1, l2. split; [|auto].
        rewrite <- Heq. rewrite <- app_assoc. reflexivity.
Qed.

Lemma py_max_first {A : Type} (key : A -> PyNum.t) (first : A) (rest : list A) :
  (forall x, In x rest -> is_nan (key x) = false) ->
  exists l1 l2,
    first :: rest = l1 ++ py_max key first rest :: l2
    /\ (forall x, In x l1 -> PyNum.gt (key (py_max key first rest)) (key x) = true)
    /\ (forall x, In x l2 -> PyNum.gt (key x) (key (py_max key first rest)) = false).
Proof.
  intros Hrest.
  destruct (py_max_split key rest [] first []) as (l1 & l2 & Heq & H1 & H2);
    try (intros x []); [exact Hrest|].
  exists l1, l2. auto.
Qed.

(** Nothing exceeds what [max] returns. *)
Lemma py_max_not_exceeded {A : Type} (key : A -> PyNum.t) (rest : list A) :
  forall (best : A) (seen : list A),
    (forall x, In x seen -> PyNum.gt (key x) (key best) = false) ->
    forall x, In x (seen ++ best :: rest) ->
              PyNum.gt (key x) (key (py_max key best rest)) = false.
Proof.
  induction rest as [|y rest IH]; intros best seen Hseen x Hx.
  - cbn [py_max]. apply in_app_or in Hx. destruct Hx as [Hx|[<-|[]]].
    + now apply Hseen.
    + destruct (PyNum.gt (key best) (key best)) eqn:H; [|reflexivity].
      now rewrite (gt_asym _ _ H) in H.
  - cbn [py_max]. destruct (PyNum.gt (key y) (key best)) eqn:Hgt.
    + apply (IH y (seen ++ [best])).
      * intros z Hz. apply in_app_or in Hz. destruct Hz as [Hz|[<-|[]]].
        -- apply (gt_not_above _ (key best)); [now apply Hseen | exact Hgt].
        -- now apply gt_asym.
      * rewrite <- app_assoc. exact Hx.
    + apply (IH best (seen ++ [y])).
      * intros z Hz. apply in_app_or in Hz. destruct Hz as [Hz|[<-|[]]].
        -- now apply Hseen.
        -- exact Hgt.
      * apply in_app_or in Hx. apply in_or_app.
        destruct Hx as [Hx|[<-|[<-|Hx]]].
        -- left. apply in_or_app. now left.
        -- right. now left.
        -- left. apply in_or_app. right. now left.
        -- right. now right.
Qed.

(** [X1]: a question about the biggest expense is answered with the
    amount and the category of the first expense of the batch that no
    other exceeds; the answer is there whenever the amounts are within
    the range of the floats. *)
Theorem biggest_answer_names_first_maximum (E : Env) (question : string)
    (first : expense) (rest : list expense) :
  PyStr.any_in biggest_words (PyStr.lower question) = true ->
  Forall (fun e => is_nan (amount e) = false) (first :: rest) ->
  exists earlier biggest later,
    first :: rest = earlier ++ biggest :: later
    /\ (forall e, In e earlier -> PyNum.gt (amount biggest) (amount e) = true)
    /\ (forall e, In e later -> PyNum.gt (amount e) (amount biggest) = false)
    /\ (forall a,
          local_expense_analysis E question (first :: rest) = Ret a ->
          exists amt details,
            PyNum.format_2f (amount biggest) = Ret amt
            /\ a = "Your biggest expense is ₹" +:+ amt
                   +:+ " for " +:+ category biggest +:+ "." +:+ details)
    /\ (in_float_range (first :: rest) ->
        exists a, local_expense_analysis E question (first :: rest) = Ret a).
Proof.
  intros Hq Hnum.
  destruct (py_max_first amount first rest) as (l1 & l2 & Heq & H1 & H2).
  { intros x Hx. rewrite List.Forall_forall in Hnum. apply Hnum. now right. }
  exists l1, (py_max amount first rest), l2.
  split; [exact Heq|]. split; [exact H1|]. split; [exact H2|]. split.
  - intros a. unfold local_expense_analysis.
    destruct (total_amount (first :: rest)); [|discriminate]. cbn [bind].
    destruct (accumulate (first :: rest) [] []); [|discriminate]. cbn [bind].
    rewrite Hq. unfold answer_biggest.
    destruct (PyNum.format_2f (amount (py_max amount first rest))) as [amt|];
      [|discriminate].
    cbn [bind]. intros Heq'. injection Heq' as <-.
    exists amt. eexists. split; reflexivity.
  - intros Hrange.
    destruct (local_analysis_returns E question first rest Hrange) as (a & Ha & _).
    eauto.
Qed.

Lemma biggest_answer_names_first_maximum_witness :
  Forall (fun e => is_nan (amount e) = false) [lunch; rent; lunch]
  /\ exists earlier biggest later,
       [lunch; rent; lunch] = earlier ++ biggest :: later
       /\ (forall e, In e earlier -> PyNum.gt (amount biggest) (amount e) = true)
       /\ (forall e, In e later -> PyNum.gt (amount e) (amount biggest) = false)
       /\ (forall a,
             local_expense_analysis online_env "What was my BIGGEST purchase?"
               [lunch; rent; lunch] = Ret a ->
             exists amt details,
               PyNum.format_2f (amount biggest) = Ret amt
               /\ a = "Your biggest expense is ₹" +:+ amt
                      +:+ " for " +:+ category biggest +:+ "." +:+ details)
       /\ (in_float_range [lunch; rent; lunch] ->
           exists a,
             local_expense_analysis online_env "What was my BIGGEST purchase?"
               [lunch; rent; lunch] = Ret a).
Proof.
  assert (Hnum : Forall (fun e => is_nan (amount e) = false) [lunch; rent; lunch])
    by (repeat constructor).
  split; [exact Hnum|].
  apply (biggest_answer_names_first_maximum online_env
           "What was my BIGGEST purchase?" lunch [rent; lunch]);
    [reflexivity | exact Hnum].
Defined.

(** *** The local analyzer: the totals by category *)

Lemma dict_add_keys (k : string) (v : PyNum.t) (d d' : totals) (k' : string) :
  dict_add k v d = Ret d' ->
  In k' (map fst d') <-> k' = k \/ In k' (map fst d).
Proof.
  revert d'. induction d as [|[k0 v0] d IH]; intros d'; cbn [dict_add].
  - destruct (PyNum.add _ v); [|discriminate]. cbn [bind].
    intros Heq. injection Heq as <-. cbn [map fst In]. intuition (subst; auto).
  - destruct (String.eqb_spec k0 k) as [->|Hne].
    + destruct (PyNum.add v0 v); [|discriminate]. cbn [bind].
      intros Heq. injection Heq as <-. cbn [map fst In]. intuition (subst; auto).
    + destruct (dict_add k v d) as [d1|]; [|discriminate]. cbn [bind].
      intros Heq. injection Heq as <-. cbn [map fst In].
      rewrite (IH d1 eq_refl). tauto.
Qed.

Lemma dict_add_NoDup (k : string) (v : PyNum.t) (d d' : totals) :
  dict_add k v d = Ret d' -> List.NoDup (map fst d) -> List.NoDup (map fst d').
Proof.
  revert d'. induction d as [|[k0 v0] d IH]; intros d'; cbn [dict_add].
  - destruct (PyNum.add _ v); [|discriminate]. cbn [bind].
    intros Heq _. injection Heq as <-. constructor; [intros [] | constructor].
  - destruct (String.eqb_spec k0 k) as [->|Hne].
    + destruct (PyNum.add v0 v); [|discriminate]. cbn [bind].
      intros Heq Hnd. injection Heq as <-. exact Hnd.
    + destruct (dict_add k v d) as [d1|] eqn:Hd1; [|discriminate]. cbn [bind].
      intros Heq Hnd. injection Heq as <-. cbn [map fst].
      inversion Hnd as [|? ? Hnotin Hnd']; subst.
      constructor; [|now apply IH].
      rewrite (dict_add_keys k v d d1 k0 Hd1).
      intros [->|Hin]; [now apply Hne | now apply Hnotin].
Qed.

(** The entries of a dictionary after [d[k] = d.get(k, 0) + v]. *)
Lemma dict_add_entries (k : string) (v : PyNum.t) (d d' : totals) (c : string)
    (w : PyNum.t) :
  List.NoDup (map fst d) -> dict_add k v d = Ret d' -> In (c, w) d' ->
  (c <> k /\ In (c, w) d)
  \/ (c = k /\ ((exists w0, In (k, w0) d /\ PyNum.add w0 v = Ret w)
               \/ (~ In k (map fst d) /\ PyNum.add (PyNum.Int 0) v = Ret w))).
Proof.
  revert d'. induction d as [|[k0 v0] d IH]; intros d' Hnd; cbn [dict_add].
  - destruct (PyNum.add _ v) as [s|] eqn:Hs; [|discriminate]. cbn [bind].
    intros Heq. injection Heq as <-. intros [Hin|[]]. injection Hin as <- <-.
    right. split; [reflexivity|]. right. split; [intros [] | reflexivity].
  - inversion Hnd as [|? ? Hnotin Hnd']; subst.
    destruct (String.eqb_spec k0 k) as [->|Hne].
    + destruct (PyNum.add v0 v) as [s|] eqn:Hs; [|discriminate]. cbn [bind].
      intros Heq. injection Heq as <-. intros [Hin|Hin].
      * injection Hin as <- <-. right. split; [reflexivity|]. left.
        exists v0. split; [now left | exact Hs].
      * left. split; [|now right].
        intros ->. apply Hnotin. now apply (in_map fst _ (k, w)).
    + destruct (dict_add k v d) as [d1|] eqn:Hd1; [|discriminate]. cbn [bind].
      intros Heq. injection Heq as <-. intros [Hin|Hin].
      * injection Hin as <- <-. left. split; [exact Hne | now left].
      * destruct (IH d1 Hnd' eq_refl Hin) as [[Hc Hd] | [-> [(w0 & Hw0 & Hadd) | [Hno Hadd]]]].
        -- left. split; [exact Hc | now right].
        -- right. split; [reflexivity|]. left. exists w0. split; [now right | exact Hadd].
        -- right. split; [reflexivity|]. right. split; [|exact Hadd].
           cbn [map fst In]. intros [Heq|Hin']; [now apply Hne | now apply Hno].
Qed.

Lemma sum_from_snoc (acc : PyNum.t) (amounts : list PyNum.t) (x : PyNum.t) :
  sum_from acc (amounts ++ [x]) = let* r := sum_from acc amounts in PyNum.add r x.
Proof.
  revert acc. induction amounts as [|y l IH]; intros acc; cbn [app sum_from bind].
  - destruct (PyNum.add acc x); reflexivity.
  - destruct (PyNum.add acc y); cbn [bind]; [apply IH | reflexivity].
Qed.

Lemma category_amounts_snoc (c : string) (prefix : list expense) (e : expense) :
  category_amounts c (prefix ++ [e])
  = category_amounts c prefix
    ++ (if String.eqb (category e) c then [amount e] else []).
Proof.
  unfold category_amounts. rewrite List.filter_app, map_app. cbn [List.filter].
  now destruct (String.eqb (category e) c).
Qed.

Lemma category_amounts_absent (c : string) (expenses : list expense) :
  ~ In c (map category expenses) -> category_amounts c expenses = [].
Proof.
  unfold category_amounts. induction expenses as [|e es IH]; [reflexivity|].
  cbn [map In List.filter]. intros Hno.
  destruct (String.eqb_spec (category e) c) as [Heq|_]; [elim Hno; now left|].
  apply IH. intros Hin. apply Hno. now right.
Qed.

Lemma totals_of_step (seen : list expense) (e : expense) (cats cats' : totals) :
  totals_of seen cats ->
  dict_add (category e) (amount e) cats = Ret cats' ->
  totals_of (seen ++ [e]) cats'.
Proof.
  intros (Hnd & Hkeys & Hval) Hadd. split; [|split].
  - exact (dict_add_NoDup _ _ _ _ Hadd Hnd).
  - intros c. rewrite (dict_add_keys _ _ _ _ c Hadd), Hkeys, map_app, in_app_iff.
    cbn [map In]. intuition (subst; auto).
  - intros c v Hin. unfold category_sum, py_sum.
    rewrite category_amounts_snoc.
    destruct (dict_add_entries _ _ _ _ c v Hnd Hadd Hin)
      as [[Hc Hd] | [-> [(w0 & Hw0 & Hsum) | [Hno Hsum]]]].
    + apply String.eqb_neq in Hc. rewrite String.eqb_sym, Hc, app_nil_r.
      exact (Hval c v Hd).
    + rewrite String.eqb_refl, sum_from_snoc.
      pose proof (Hval _ _ Hw0) as Hold. unfold category_sum, py_sum in Hold.
      rewrite Hold. exact Hsum.
    + rewrite String.eqb_refl, sum_from_snoc.
      rewrite category_amounts_absent by (now rewrite <- Hkeys).
      exact Hsum.
Qed.

Lemma accumulate_totals (expenses : list expense) :
  forall (seen : list expense) (cats dates cats' dates' : totals),
    totals_of seen cats ->
    accumulate expenses cats dates = Ret (cats', dates') ->
    totals_of (seen ++ expenses) cats'.
Proof.
  induction expenses as [|e es IH]; intros seen cats dates cats' dates' Hinv;
    cbn [accumulate].
  - intros Heq. injection Heq as <- _. now rewrite app_nil_r.
  - destruct (dict_add (category e) (amount e) cats) as [cats1|] eqn:Hc;
      [|discriminate].
    destruct (dict_add (date e) (amount e) dates) as [dates1|]; [|discriminate].
    cbn [bind]. intros Hacc.
    replace (seen ++ e :: es) with ((seen ++ [e]) ++ es)
      by (now rewrite <- app_assoc).
    apply (IH _ cats1 dates1 cats' dates'); [|exact Hacc].
    now apply (totals_of_step seen e cats).
Qed.

Lemma category_totals_facts (expenses : list expense) (cats : totals) :
  category_totals expenses = Ret cats -> totals_of expenses cats.
Proof.
  unfold category_totals.
  destruct (accumulate expenses [] []) as [[cats' dates']|] eqn:Hacc;
    [|discriminate].
  cbn [bind fst]. intros Heq. injection Heq as <-.
  apply (accumulate_totals expenses [] [] [] cats' dates'); [|exact Hacc].
  split; [constructor|]. split; [reflexivity | intros c v []].
Qed.

(** [X6]: the totals by category hold every category of the batch once,
    each with the sum of the amounts of its expenses, added from left to
    right as Python adds them; they are there whenever the amounts are
    within the range of the floats. *)
Theorem category_totals_are_category_sums (expenses : list expense) :
  (int_mass expenses < 2 ^ 1023 ->
   exists cats, category_totals expenses = Ret cats)
  /\ forall cats,
       category_totals expenses = Ret cats ->
       List.NoDup (map fst cats)
       /\ (forall c, In c (map fst cats) <-> In c (map category expenses))
       /\ (forall c v, In (c, v) cats -> category_sum c expenses = Ret v).
Proof.
  split.
  - intros HB. unfold category_totals.
    destruct (category_totals_bounded expenses HB) as (cats & dates & -> & _).
    cbn [bind fst]. eauto.
  - intros cats Hcats. exact (category_totals_facts expenses cats Hcats).
Qed.

(** [X7]: the top category an answer names is a category of the batch;
    the amount shown for it is the sum of the amounts of its expenses, as
    Python adds them; and the sum of no category of the batch is greater
    than it. *)
Theorem top_category_is_largest (first : expense) (rest : list expense)
    (cats : totals) :
  category_totals (first :: rest) = Ret cats ->
  In (top_category_of cats) cats
  /\ In (fst (top_category_of cats)) (map category (first :: rest))
  /\ category_sum (fst (top_category_of cats)) (first :: rest)
     = Ret (snd (top_category_of cats))
  /\ forall c, In c (map category (first :: rest)) ->
               exists v, category_sum c (first :: rest) = Ret v
                         /\ PyNum.gt v (snd (top_category_of cats)) = false.
Proof.
  intros Hcats.
  destruct (category_totals_facts _ _ Hcats) as (Hnd & Hkeys & Hval).
  destruct cats as [|ct cats].
  - exfalso. apply (proj2 (Hkeys (category first))). now left.
  - cbn [top_category_of].
    pose proof (py_max_in snd ct cats) as Hin.
    pose proof (py_max_not_exceeded snd cats ct [] (fun x H => match H with end))
      as Hmax. cbn [app] in Hmax.
    set (top := py_max snd ct cats) in *.
    split; [exact Hin|]. split; [|split].
    + apply Hkeys. now apply in_map.
    + apply Hval. now destruct top.
    + intros c Hc. apply Hkeys in Hc. apply in_map_iff in Hc.
      destruct Hc as ([c' v] & Hfst & Hcv). cbn [fst] in Hfst. subst c'.
      exists v. split; [exact (Hval c v Hcv) | exact (Hmax (c, v) Hcv)].
Qed.

Lemma top_category_is_largest_witness :
  category_totals [lunch; rent; lunch]
  = Ret [("Food", PyNum.Int 1000); ("Rent", PyNum.Int 12000)]
  /\ top_category_of [("Food", PyNum.Int 1000); ("Rent", PyNum.Int 12000)]
     = ("Rent", PyNum.Int 12000)
  /\ category_sum "Rent" [lunch; rent; lunch] = Ret (PyNum.Int 12000).
Proof.
  assert (Hcats : category_totals [lunch; rent; lunch]
                  = Ret [("Food", PyNum.Int 1000); ("Rent", PyNum.Int 12000)])
    by reflexivity.
  split; [exact Hcats|]. split; [reflexivity|].
  exact (proj1 (proj2 (proj2 (top_category_is_largest lunch [rent; lunch] _ Hcats)))).
Defined.

(** *** The local analyzer: the breakdown by category *)







(** *** The filter extractor *)

(** [X2]: whenever the extraction of the filters returns, the date range
    it found is a single day: the end date is the start date. A range
    comes from exactly one recognised date. *)
Theorem date_range_is_a_single_day (E : Env) (query uid : string) (flt : filters) :
  extract_filters_from_query E query uid = Ret flt ->
  flt_end_date flt = flt_start_date flt
  /\ (flt_start_date flt <> None ->
      length (extract_date_entities E query) = 1%nat)
  /\ (date_filter flt = None \/ exists day, date_filter flt = Some (day, day)).
Proof.
  unfold extract_filters_from_query, date_filter.
  destruct (extract_date_entities E query) as [|d0 [|d1 dates]].
  - cbn. intros [= <-]. cbn. split; [reflexivity|].
    split; [intros H; now elim H | now left].
  - cbn. destruct (dateparser_parse_str E d0) as [dt|]; cbn.
    + destruct (PyStr.truthy (strftime E dt "%Y-%m-%d")) eqn:Ht;
        cbn; intros [= <-]; cbn.
      * rewrite Ht. cbn. split; [reflexivity|]. split; [reflexivity|].
        right. now eexists.
      * split; [reflexivity|]. split; [intros H; now elim H | now left].
    + intros [= <-]. cbn. split; [reflexivity|].
      split; [intros H; now elim H | now left].
  - cbn. discriminate.
Qed.

Lemma date_range_is_a_single_day_witness :
  extract_filters_from_query one_date_env "food on 5 january 2024" "u1"
  = Ret {| flt_user_id := "u1"; flt_start_date := Some "2024-01-05";
           flt_end_date := Some "2024-01-05"; flt_keywords := Some ["food"] |}
  /\ length (extract_date_entities one_date_env "food on 5 january 2024") = 1%nat.
Proof.
  split; [reflexivity|].
  apply (date_range_is_a_single_day one_date_env "food on 5 january 2024" "u1"
           {| flt_user_id := "u1"; flt_start_date := Some "2024-01-05";
              flt_end_date := Some "2024-01-05"; flt_keywords := Some ["food"] |}).
  - reflexivity.
  - discriminate.
Defined.

(** [X9]: when spaCy fails on the question, neither extractor raises:
    no date and no keyword is found. With none found, the filter set
    holds the user alone, and the retriever asks the store for the
    question as it was typed, within that user. *)
Theorem spacy_failure_leaves_the_user_filter (E : Env) (h : handle)
    (uid query : string) (top_k : Z) (st : state) :
  (nlp E (PyStr.lower query) = None ->
   extract_date_entities E query = [] /\ extract_keywords E query = [])
  /\ (extract_date_entities E query = [] -> extract_keywords E query = [] ->
      extract_filters_from_query E query uid
      = Ret {| flt_user_id := uid; flt_start_date := None;
               flt_end_date := None; flt_keywords := None |}
      /\ (has_query E = true ->
          exists results later,
            query_user_expenses_body E (Some h) uid query top_k st
            = (Ret results,
               {| trace := trace st
                           ++ EvQuery query top_k
                                {| fc_user_id_eq := uid; fc_date := None |} :: later;
                  query_cache := query_cache st |}))).
Proof.
  split.
  { intros Hnlp. unfold extract_date_entities, extract_keywords.
    now rewrite Hnlp. }
  intros Hd Hk.
  assert (Hflt : extract_filters_from_query E query uid
                 = Ret {| flt_user_id := uid; flt_start_date := None;
                          flt_end_date := None; flt_keywords := None |}).
  { unfold extract_filters_from_query. rewrite Hd, Hk. reflexivity. }
  split; [exact Hflt|]. intros Hq.
  unfold query_user_expenses_body. rewrite Hflt, Hq.
  unfold call_query, log, query_text_of, date_filter. cbn.
  destruct (index_query E (trace st) query top_k _) as [r|ex].
  - exists (matches_of r), []. reflexivity.
  - destruct ex; try (exists [], []; reflexivity).
    cbn. rewrite <- app_assoc. cbn [app].
    destruct (index_query E _ query top_k _); eexists _, [_]; reflexivity.
Qed.

Lemma spacy_failure_leaves_the_user_filter_witness :
  extract_filters_from_query no_spacy_env "food in january" "u1"
  = Ret {| flt_user_id := "u1"; flt_start_date := None;
           flt_end_date := None; flt_keywords := None |}.
Proof.
  destruct (spacy_failure_leaves_the_user_filter no_spacy_env PineconeIndex "u1"
              "food in january" 5 initial_state) as [Hnone Hplain].
  destruct (Hnone eq_refl) as [Hd Hk].
  exact (proj1 (Hplain Hd Hk)).
Defined.

(** *** The write to the store *)

Lemma build_docs_records (E : Env) (expenses : list expense)
    (texts ids : list string) (metas : list doc_metadata) :
  build_docs_from_expenses E expenses = Ret (texts, ids, metas) ->
  Forall2 (record_of E) expenses (make_vectors texts ids metas).
Proof.
  revert texts ids metas.
  induction expenses as [|e expenses IH]; intros texts ids metas;
    cbn [build_docs_from_expenses].
  - intros Heq. injection Heq as <- <- <-. constructor.
  - destruct (doc_text e) as [text|] eqn:Ht; [|discriminate]. cbn [bind].
    destruct (build_docs_from_expenses E expenses) as [[[ts is_] ms]|];
      [|discriminate].
    cbn [bind]. intros Heq. injection Heq as <- <- <-. cbn [make_vectors].
    constructor; [|now apply IH].
    split; [exact Ht | reflexivity].
Qed.

Lemma user_ids_one (expenses : list expense) :
  size (user_ids expenses) = 1%nat ->
  exists u, forall e, In e expenses -> user_id e = u.
Proof.
  intros Hsize. apply size_1_elem_of in Hsize. destruct Hsize as [u Hu].
  exists u. intros e He.
  assert (Hin : user_id e ∈ user_ids expenses).
  { apply elem_of_user_ids. now apply in_map. }
  rewrite Hu in Hin. now apply elem_of_singleton in Hin.
Qed.

(** [X10]: a write to the store is one [upsert] call with one record per
    expense of the batch, in order, all of one user; a second call, in
    the legacy form and with the same records, follows only a
    [TypeError] of the first. Nothing else is sent. *)
Theorem upsert_writes_the_batch_once (E : Env) (expenses : list expense)
    (st : state) :
  exists evs,
    trace (snd (upsert_expenses_to_pinecone E expenses st)) = trace st ++ evs
    /\ (evs = []
        \/ exists vectors,
             Forall2 (record_of E) expenses vectors
             /\ (exists u, Forall (fun v => md_user_id (vec_metadata v) = u) vectors)
             /\ (evs = [EvUpsert Vectors vectors]
                 \/ (evs = [EvUpsert Vectors vectors; EvUpsert Records vectors]
                     /\ exists msg,
                          index_upsert E (trace st) Vectors vectors
                          = Raise (TypeError msg)))).
Proof.
  assert (Hnone : forall st', trace st' = trace st ->
            exists evs,
              trace st' = trace st ++ evs
              /\ (evs = []
                  \/ exists vectors,
                       Forall2 (record_of E) expenses vectors
                       /\ (exists u, Forall (fun v => md_user_id (vec_metadata v) = u)
                                       vectors)
                       /\ (evs = [EvUpsert Vectors vectors]
                           \/ (evs = [EvUpsert Vectors vectors;
                                      EvUpsert Records vectors]
                               /\ exists msg,
                                    index_upsert E (trace st) Vectors vectors
                                    = Raise (TypeError msg))))).
  { intros st' ->. exists []. rewrite app_nil_r. split; [reflexivity | now left]. }
  unfold upsert_expenses_to_pinecone.
  destruct expenses as [|first rest]; [now apply Hnone|].
  destruct (pinecone_index E); [|now apply Hnone].
  destruct (size (user_ids (first :: rest)) =? 1)%nat eqn:Hsize;
    [|now apply Hnone].
  apply Nat.eqb_eq in Hsize. cbn [negb].
  destruct (build_docs_from_expenses E (first :: rest)) as [[[texts ids] metas]|]
    eqn:Hdocs; [|now apply Hnone].
  pose proof (build_docs_records E _ _ _ _ Hdocs) as Hrec.
  set (vectors := make_vectors texts ids metas) in *.
  assert (Huser : exists u, Forall (fun v => md_user_id (vec_metadata v) = u) vectors).
  { destruct (user_ids_one _ Hsize) as [u Hu]. exists u.
    clear - Hrec Hu. induction Hrec as [|e v es vs [_ Hv] _ IH]; [constructor|].
    constructor.
    - rewrite Hv. cbn. apply Hu. now left.
    - apply IH. intros e' He'. apply Hu. now right. }
  destruct (has_upsert E); [|now apply Hnone].
  unfold call_upsert, log.
  destruct (index_upsert E (trace st) Vectors vectors) as [[]|ex] eqn:Hup.
  - exists [EvUpsert Vectors vectors]. cbn [snd trace]. split; [reflexivity|].
    right. exists vectors. split; [exact Hrec|]. split; [exact Huser | now left].
  - destruct ex;
      try (exists [EvUpsert Vectors vectors]; cbn [snd trace];
           split; [reflexivity|]; right; exists vectors;
           split; [exact Hrec|]; split; [exact Huser | now left]).
    exists [EvUpsert Vectors vectors; EvUpsert Records vectors].
    cbn [snd trace]. rewrite <- app_assoc. split; [reflexivity|].
    right. exists vectors. split; [exact Hrec|]. split; [exact Huser|].
    right. split; [reflexivity | eexists; first [reflexivity | exact Hup]].
Qed.

(** *** The retriever *)

Lemma body_returns (E : Env) (h : handle) (uid query : string) (top_k : Z)
    (st : state) (flt : filters) :
  extract_filters_from_query E query uid = Ret flt ->
  exists results evs,
    query_user_expenses_body E (Some h) uid query top_k st
    = (Ret results,
       {| trace := trace st ++ evs; query_cache := query_cache st |})
    /\ (length evs <= 2)%nat
    /\ Forall (eq (store_query uid query top_k flt)) evs
    /\ (store_down E -> results = []).
Proof.
  intros Hflt. unfold query_user_expenses_body. rewrite Hflt.
  unfold store_query, store_down, call_query, log.
  set (f := {| fc_user_id_eq := uid; fc_date := date_filter flt |}).
  set (text := query_text_of query flt).
  destruct (has_query E).
  2:{ exists [], []. rewrite app_nil_r. destruct st. cbn.
      split; [reflexivity|]. split; [lia|]. split; [constructor | reflexivity]. }
  destruct (index_query E (trace st) text top_k f) as [r|ex] eqn:Hq1.
  - exists (matches_of r), [EvQuery text top_k f].
    split; [reflexivity|]. split; [cbn; lia|].
    split; [repeat constructor|].
    intros Hdown. destruct (Hdown (trace st) text top_k f) as [ex Hex].
    congruence.
  - destruct ex;
      try (exists [], [EvQuery text top_k f];
           split; [reflexivity|]; split; [cbn; lia|];
           split; [repeat constructor | reflexivity]).
    cbn [trace query_cache].
    destruct (index_query E (trace st ++ [EvQuery text top_k f]) text top_k f)
      as [r|ex] eqn:Hq2.
    + exists (matches_of r), [EvQuery text top_k f; EvQuery text top_k f].
      rewrite <- app_assoc.
      split; [reflexivity|]. split; [cbn; lia|].
      split; [repeat constructor|].
      intros Hdown.
      destruct (Hdown (trace st ++ [EvQuery text top_k f]) text top_k f)
        as [ex Hex].
      congruence.
    + exists [], [EvQuery text top_k f; EvQuery text top_k f].
      rewrite <- app_assoc.
      split; [reflexivity|]. split; [cbn; lia|].
      split; [repeat constructor | reflexivity].
Qed.

(** [X11]: once the filters are extracted, the retriever contains every
    failure of the store: it returns a list, it has asked the store at
    most twice, each time the same query within the user, and when the
    store fails throughout the list is empty. The cache is not touched
    by the body. *)
Theorem retriever_contains_store_failures (E : Env) (h : handle)
    (uid query : string) (top_k : Z) (st : state) (flt : filters) :
  extract_filters_from_query E query uid = Ret flt ->
  exists results evs,
    query_user_expenses_body E (Some h) uid query top_k st
    = (Ret results,
       {| trace := trace st ++ evs; query_cache := query_cache st |})
    /\ (length evs <= 2)%nat
    /\ Forall (eq (store_query uid query top_k flt)) evs
    /\ (store_down E -> results = []).
Proof.
  intros Hflt.
  destruct (body_returns E h uid query top_k st flt Hflt)
    as (results & evs & Hbody & Hlen & Hevs & Hdown).
  exists results, evs. auto.
Qed.

Lemma retriever_contains_store_failures_witness :
  exists results evs,
    query_user_expenses_body query_down_env (Some PineconeIndex) "u1" "food" 5
      initial_state
    = (Ret results,
       {| trace := trace initial_state ++ evs;
          query_cache := query_cache initial_state |})
    /\ (length evs <= 2)%nat
    /\ Forall (eq (store_query "u1" "food" 5
                     {| flt_user_id := "u1"; flt_start_date := None;
                        flt_end_date := None; flt_keywords := None |})) evs
    /\ (store_down query_down_env -> results = []).
Proof.
  apply (retriever_contains_store_failures query_down_env PineconeIndex "u1"
           "food" 5 initial_state).
  reflexivity.
Defined.

(** [X12]: a retrieval that failed is remembered like any other: while
    the store is down the retriever returns the empty list, and until
    300 seconds later the same question gets that empty list from the
    cache, without the store being asked, whatever the store would
    answer by then, also after up to 99 calls with other arguments (a
    hundredth may push the entry out of the cache). *)
Theorem failed_retrieval_is_cached (E : Env) (h : handle) (uid query : string)
    (top_k tget tset : Z) (st : state) :
  (length (extract_date_entities E query) <= 1)%nat ->
  TTLCache.find (K:=cache_key) (Some h, uid, query, top_k) (query_cache st) = None ->
  store_down E ->
  exists st1,
    query_user_expenses E (Some h) uid query top_k tget tset st = (Ret [], st1)
    /\ forall (E' : Env) (between : list call) (tget2 tset2 : Z),
         (length between < 100)%nat ->
         Forall (fun c => call_key c <> (Some h, uid, query, top_k)
                          /\ c_tset c < tset + 300) between ->
         tget2 < tset + 300 ->
         exists st2,
           query_user_expenses E' (Some h) uid query top_k tget2 tset2
             (run_calls E' between st1) = (Ret [], st2)
           /\ trace st2 = trace (run_calls E' between st1).
Proof.
  intros Hdates Hmiss Hdown.
  destruct (extract_filters_returns E query uid Hdates) as (flt & Hflt & _).
  assert (Hcall : exists st1,
             query_user_expenses E (Some h) uid query top_k tget tset st
             = (Ret [], st1)).
  { unfold query_user_expenses. unfold TTLCache.getitem. rewrite Hmiss.
    destruct (body_returns E h uid query top_k (set_cache (query_cache st) st)
                flt Hflt) as (results & evs & Hbody & _ & _ & Hres).
    rewrite Hbody, (Hres Hdown). eauto. }
  destruct Hcall as [st1 Hcall]. exists st1. split; [exact Hcall|].
  destruct (query_user_expenses_cached _ _ _ _ _ _ _ _ _ _ Hcall)
    as (e & Hf & Hlast & Hv & Hexp).
  assert (Hexpires : TTLCache.e_expires e = tset + 300).
  { destruct Hexp as [Hexp | [Hold _]]; [exact Hexp|].
    unfold expiry_of in Hold. rewrite Hmiss in Hold. discriminate. }
  intros E' between tget2 tset2 Hlen Hbetween Hfresh.
  assert (Hf2 : TTLCache.find (K:=cache_key) (Some h, uid, query, top_k)
                  (query_cache (run_calls E' between st1)) = Some e).
  { apply (run_calls_keep E' _ e between st1 0%nat).
    - now rewrite Hexpires.
    - exact Hf.
    - rewrite Hlast. cbn. lia.
    - unfold maxsize. lia. }
  destruct (query_user_expenses_hit E' (Some h) uid query top_k tget2 tset2
              (run_calls E' between st1) e Hf2) as (st2 & Hq & Ht);
    [now rewrite Hexpires|].
  exists st2. now rewrite <- Hv.
Qed.

Lemma failed_retrieval_is_cached_witness :
  exists st1,
    query_user_expenses query_down_env (Some PineconeIndex) "u1" "food" 5 0 1
      initial_state = (Ret [], st1)
    /\ exists st2,
         query_user_expenses online_env (Some PineconeIndex) "u1" "food" 5 200 201
           (run_calls online_env [other_call 7] st1) = (Ret [], st2)
         /\ trace st2 = trace (run_calls online_env [other_call 7] st1).
Proof.
  destruct (failed_retrieval_is_cached query_down_env PineconeIndex "u1" "food" 5
              0 1 initial_state) as (st1 & Hfirst & Hlater).
  - vm_compute. lia.
  - reflexivity.
  - intros tr text top_k f. now eexists.
  - exists st1. split; [exact Hfirst|].
    apply Hlater.
    + cbn. lia.
    + constructor; [|constructor]. split; [discriminate | reflexivity].
    + lia.
Defined.

(** [X13]: a result is not served once its 300 seconds are over: the
    retriever asks the store again, returns what the store answers now,
    and keeps that for 300 seconds from the moment it is stored. *)
Theorem expired_result_is_fetched_again (E : Env) (h : handle)
    (uid query : string) (top_k tget tset : Z) (st : state)
    (e : TTLCache.entry cache_key (list match_)) (flt : filters)
    (r : option (list match_)) :
  TTLCache.find (K:=cache_key) (Some h, uid, query, top_k) (query_cache st) = Some e ->
  TTLCache.e_expires e <= tget ->
  extract_filters_from_query E query uid = Ret flt ->
  has_query E = true ->
  index_query E (trace st) (query_text_of query flt) top_k
    {| fc_user_id_eq := uid; fc_date := date_filter flt |} = Ret r ->
  exists st1,
    query_user_expenses E (Some h) uid query top_k tget tset st
    = (Ret (matches_of r), st1)
    /\ trace st1 = trace st ++ [store_query uid query top_k flt]
    /\ expiry_of (Some h, uid, query, top_k) st1 = Some (tset + 300).
Proof.
  intros Hfind Hexp Hflt Hq Hstore.
  unfold query_user_expenses, TTLCache.getitem. rewrite Hfind.
  destruct (tget <? TTLCache.e_expires e) eqn:Hlt; [lia|].
  unfold query_user_expenses_body. rewrite Hflt, Hq.
  unfold call_query, log. cbn [set_cache trace query_cache].
  rewrite Hstore. cbn [set_cache trace query_cache].
  eexists. split; [reflexivity|]. split; [reflexivity|].
  unfold expiry_of, set_cache. cbn [query_cache].
  now rewrite (TTLCacheFacts.find_setitem _ _ maxsize_pos).
Qed.

Lemma expired_result_is_fetched_again_witness :
  exists st1,
    query_user_expenses online_env (Some PineconeIndex) "u1" "food" 5 301 302
      cached_state = (Ret [lunch_match], st1)
    /\ trace st1
       = trace cached_state
         ++ [store_query "u1" "food" 5
               {| flt_user_id := "u1"; flt_start_date := None;
                  flt_end_date := None; flt_keywords := None |}]
    /\ expiry_of (Some PineconeIndex, "u1", "food", 5) st1 = Some (302 + 300).
Proof.
  apply (expired_result_is_fetched_again online_env PineconeIndex "u1" "food" 5
           301 302 cached_state
           {| TTLCache.e_key := (Some PineconeIndex, "u1", "food", 5);
              TTLCache.e_value := [lunch_match];
              TTLCache.e_expires := 301 |}
           {| flt_user_id := "u1"; flt_start_date := None;
              flt_end_date := None; flt_keywords := None |}
           (Some [lunch_match])).
  - reflexivity.
  - cbn. lia.
  - reflexivity.
  - reflexivity.
  - reflexivity.
Defined.

Lemma expire_all_fresh {K V : Type} (time : Z) (c : TTLCache.t K V) :
  Forall (fun e => time < TTLCache.e_expires e) c -> TTLCache.expire time c = c.
Proof.
  unfold TTLCache.expire.
  induction 1 as [|e c He _ IH]; [reflexivity|].
  cbn [List.filter]. rewrite IH.
  destruct (time <? TTLCache.e_expires e) eqn:Hlt; [reflexivity|lia].
Qed.

(** [X14]: the cache holds a hundred results at most. When a new
    question arrives while it holds a hundred that have not expired, the
    least recently used of them makes room, and no other. *)
Theorem full_cache_drops_least_recently_used (E : Env) (index : option handle)
    (uid query : string) (top_k tget tset : Z) (st st1 : state)
    (oldest : TTLCache.entry cache_key (list match_))
    (others : TTLCache.t cache_key (list match_)) (r : list match_) :
  query_cache st = oldest :: others ->
  length others = 99%nat ->
  Forall (fun e => tset < TTLCache.e_expires e) (query_cache st) ->
  TTLCache.find (K:=cache_key) (index, uid, query, top_k) (query_cache st) = None ->
  query_user_expenses E index uid query top_k tget tset st = (Ret r, st1) ->
  query_cache st1
  = others ++ [{| TTLCache.e_key := (index, uid, query, top_k);
                  TTLCache.e_value := r;
                  TTLCache.e_expires := tset + 300 |}].
Proof.
  intros Hc Hlen Hfresh Hmiss.
  unfold query_user_expenses, TTLCache.getitem. rewrite Hmiss.
  pose proof (body_keeps_cache E index uid query top_k
                (set_cache (query_cache st) st)) as Hkeep.
  destruct (query_user_expenses_body E index uid query top_k
              (set_cache (query_cache st) st)) as [[v|ex] st'] eqn:Hbody;
    [|discriminate].
  cbn [snd set_cache query_cache] in Hkeep.
  intros [= <- <-]. cbn [query_cache set_cache]. rewrite Hkeep.
  unfold TTLCache.setitem.
  rewrite (expire_all_fresh tset _ Hfresh), Hmiss.
  change (maxsize <? 1)%nat with false. cbn iota.
  rewrite Hc in *.
  assert (Hroom : TTLCache.make_room maxsize (oldest :: others) = others).
  { cbn [TTLCache.make_room length]. rewrite Hlen.
    change (maxsize <? S 99 + 1)%nat with true. cbn iota.
    destruct others as [|e' others']; [reflexivity|].
    cbn [TTLCache.make_room]. cbn [length] in Hlen |- *.
    replace (S (length others') + 1)%nat with 100%nat by lia.
    reflexivity. }
  rewrite Hroom. f_equal.
  apply TTLCacheFacts.remove_absent.
  unfold TTLCache.find in Hmiss |- *. cbn [List.find] in Hmiss.
  destruct (TTLCache.has_key (K:=cache_key) (index, uid, query, top_k) oldest);
    [discriminate | exact Hmiss].
Qed.

Lemma full_cache_drops_least_recently_used_witness :
  exists st1,
    query_user_expenses online_env (Some PineconeIndex) "u1" "food" 5 0 1
      full_state = (Ret [lunch_match], st1)
    /\ query_cache st1
       = map numbered_entry (seq 1 99)
         ++ [{| TTLCache.e_key := (Some PineconeIndex, "u1", "food", 5);
                TTLCache.e_value := [lunch_match];
                TTLCache.e_expires := 1 + 300 |}].
Proof.
  eexists. split; [reflexivity|].
  apply (full_cache_drops_least_recently_used online_env (Some PineconeIndex)
           "u1" "food" 5 0 1 full_state _ (numbered_entry 0)
           (map numbered_entry (seq 1 99)) [lunch_match]).
  - reflexivity.
  - reflexivity.
  - apply List.Forall_forall. intros e He. apply in_map_iff in He.
    destruct He as (n & <- & _). cbn. lia.
  - vm_compute. reflexivity.
  - reflexivity.
Defined.

(** *** The retrieval cache as a mapping *)

Lemma NoDup_snoc {A : Type} (l : list A) (a : A) :
  List.NoDup l -> ~ In a l -> List.NoDup (l ++ [a]).
Proof.
  induction 1 as [|x l Hx Hnd IH]; cbn [app]; intros Ha.
  - constructor; [intros [] | constructor].
  - constructor.
    + intros Hin. apply in_app_or in Hin. destruct Hin as [Hin|[->|[]]].
      * now apply Hx.
      * apply Ha. now left.
    + apply IH. intros Hin. apply Ha. now right.
Qed.

Lemma cache_keys_filter (f : TTLCache.entry cache_key (list match_) -> bool)
    (c : TTLCache.t cache_key (list match_)) :
  List.NoDup (cache_keys c) -> List.NoDup (cache_keys (List.filter f c)).
Proof.
  unfold cache_keys.
  induction c as [|e c IH]; cbn [List.filter map]; intros Hnd; [exact Hnd|].
  inversion Hnd as [|? ? Hnotin Hnd']; subst.
  destruct (f e); [|now apply IH].
  cbn [map]. constructor; [|now apply IH].
  intros Hin. apply Hnotin.
  apply in_map_iff in Hin. destruct Hin as (x & Hx & Hin).
  apply List.filter_In in Hin. destruct Hin as [Hin _].
  rewrite <- Hx. now apply in_map.
Qed.

Lemma cache_keys_remove (k : cache_key) (c : TTLCache.t cache_key (list match_)) :
  ~ In k (cache_keys (TTLCache.remove k c)).
Proof.
  unfold cache_keys, TTLCache.remove. intros Hin.
  apply in_map_iff in Hin. destruct Hin as (x & Hx & Hin).
  apply List.filter_In in Hin. destruct Hin as [_ Hkey].
  unfold TTLCache.has_key in Hkey.
  destruct (bool_decide_reflect (TTLCache.e_key x = k)); [discriminate|contradiction].
Qed.

Lemma cache_keys_move (k : cache_key) (c : TTLCache.t cache_key (list match_))
    (e : TTLCache.entry cache_key (list match_)) :
  TTLCache.e_key e = k -> List.NoDup (cache_keys c) ->
  List.NoDup (cache_keys (TTLCache.remove k c ++ [e])).
Proof.
  intros Hk Hnd. unfold cache_keys. rewrite map_app. cbn [map]. rewrite Hk.
  apply NoDup_snoc.
  - now apply cache_keys_filter.
  - apply cache_keys_remove.
Qed.

Lemma cache_keys_make_room (n : nat) (c : TTLCache.t cache_key (list match_)) :
  List.NoDup (cache_keys c) -> List.NoDup (cache_keys (TTLCache.make_room n c)).
Proof.
  unfold cache_keys.
  induction c as [|e c IH]; cbn [TTLCache.make_room]; intros Hnd; [exact Hnd|].
  destruct (n <? length (e :: c) + 1)%nat; [|exact Hnd].
  inversion Hnd; subst. now apply IH.
Qed.

Lemma cache_keys_getitem (k : cache_key) (time : Z)
    (c : TTLCache.t cache_key (list match_)) :
  List.NoDup (cache_keys c) ->
  List.NoDup (cache_keys (snd (TTLCache.getitem k time c))).
Proof.
  intros Hnd. rewrite TTLCacheFacts.getitem_snd.
  destruct (TTLCache.find k c) as [e|] eqn:Hfind; [|exact Hnd].
  apply cache_keys_move; [|exact Hnd].
  exact (TTLCacheFacts.find_key k c e Hfind).
Qed.

Lemma cache_keys_setitem (k : cache_key) (v : list match_) (time : Z)
    (c : TTLCache.t cache_key (list match_)) :
  List.NoDup (cache_keys c) ->
  List.NoDup (cache_keys (TTLCache.setitem maxsize ttl k v time c)).
Proof.
  intros Hnd. unfold TTLCache.setitem.
  change (maxsize <? 1)%nat with false. cbn iota.
  apply cache_keys_move; [reflexivity|].
  assert (Hexp : List.NoDup (cache_keys (TTLCache.expire time c))).
  { now apply cache_keys_filter. }
  destruct (TTLCache.find k (TTLCache.expire time c)); [exact Hexp|].
  now apply cache_keys_make_room.
Qed.

Lemma query_user_expenses_keys (E : Env) (index : option handle)
    (uid query : string) (top_k tget tset : Z) (st : state) :
  List.NoDup (cache_keys (query_cache st)) ->
  List.NoDup
    (cache_keys
       (query_cache (snd (query_user_expenses E index uid query top_k tget tset st)))).
Proof.
  intros Hnd. unfold query_user_expenses.
  pose proof (cache_keys_getitem (index, uid, query, top_k) tget _ Hnd) as Hget.
  destruct (TTLCache.getitem (K:=cache_key) (index, uid, query, top_k) tget
              (query_cache st)) as [[v|] c]; cbn [snd] in Hget.
  - exact Hget.
  - pose proof (body_keeps_cache E index uid query top_k (set_cache c st)) as Hkeep.
    destruct (query_user_expenses_body E index uid query top_k (set_cache c st))
      as [[v|ex] st1]; cbn [snd set_cache query_cache] in Hkeep |- *.
    + apply cache_keys_setitem. now rewrite Hkeep.
    + now rewrite Hkeep.
Qed.

(** [X15]: whatever calls the retriever has served since the process
    started, its cache holds every key (store handle, user, question,
    number of results) at most once. *)
Theorem cache_holds_each_key_once (E : Env) (history : list call) :
  List.NoDup (cache_keys (query_cache (run_calls E history initial_state))).
Proof.
  assert (Hgen : forall st, List.NoDup (cache_keys (query_cache st)) ->
                            List.NoDup (cache_keys (query_cache (run_calls E history st)))).
  { induction history as [|c history IH]; intros st Hnd; [exact Hnd|].
    cbn [run_calls fold_left]. apply IH. unfold run_call.
    now apply query_user_expenses_keys. }
  apply Hgen. constructor.
Qed.

(** *** The context of the prompt *)

Lemma join_head (sep : string) (c : ascii) (x : string) (l : list string) :
  exists t, PyStr.join sep (String c x :: l) = String c t.
Proof.
  unfold PyStr.join. destruct l as [|y l]; cbn [String.concat String.append];
    now eexists.
Qed.

Lemma context_line_head (E : Env) (e : expense) (line : string) :
  context_line E e = Ret line -> exists t, line = String "D" t.
Proof.
  unfold context_line.
  destruct (PyNum.format_2f (amount e)); [|discriminate]. cbn [bind].
  intros Heq. injection Heq as <-. cbn [String.append]. now eexists.
Qed.

Lemma fallback_context_head (E : Env) (first : expense) (rest : list expense)
    (context : string) :
  fallback_context E (first :: rest) = Ret context ->
  exists t, context = String "D" t.
Proof.
  unfold fallback_context. cbn [map_result].
  destruct (context_line E first) as [line|] eqn:Hline; [|discriminate].
  cbn [bind].
  destruct (map_result (context_line E) rest); [|discriminate]. cbn [bind].
  intros Heq. injection Heq as <-.
  destruct (context_line_head E first line Hline) as [t ->]. apply join_head.
Qed.

(** [X16]: the context of a prompt is never empty and never the
    sentinel of the formatter: when the retrieval gave no usable text
    it is the rendering of the submitted expenses, otherwise the
    snippets selected from the matches, one per line; it is there
    whenever the amounts are within the range of the floats. *)
Theorem context_is_never_the_sentinel (E : Env) (results : list match_)
    (first : expense) (rest : list expense) :
  (forall context,
     make_context E results (first :: rest) = Ret context ->
     context <> sentinel /\ context <> EmptyString)
  /\ (format_context_from_results results = sentinel ->
      make_context E results (first :: rest) = fallback_context E (first :: rest))
  /\ (format_context_from_results results <> sentinel ->
      make_context E results (first :: rest)
      = Ret (PyStr.join PyStr.nl (selected_snippets results)))
  /\ (int_mass (first :: rest) < 2 ^ 1023 ->
      exists context, make_context E results (first :: rest) = Ret context).
Proof.
  split; [|split; [|split]].
  - intros context. unfold make_context.
    pose proof (format_context_nonempty results) as Hne.
    apply truthy_true in Hne. rewrite Hne. cbn [negb orb].
    destruct (String.eqb_spec (format_context_from_results results) sentinel)
      as [Heq|Hneq].
    + intros Hc. destruct (fallback_context_head E first rest context Hc) as [t ->].
      split; discriminate.
    + intros Hc. injection Hc as <-. split; [exact Hneq | now apply truthy_true].
  - intros Heq. unfold make_context. rewrite Heq. reflexivity.
  - intros Hneq. unfold make_context.
    pose proof (format_context_nonempty results) as Hne.
    apply truthy_true in Hne. rewrite Hne. cbn [negb orb].
    apply String.eqb_neq in Hneq as Hb. rewrite Hb. f_equal.
    revert Hneq. unfold format_context_from_results.
    destruct results as [|m results]; [intros H; now elim H|].
    rewrite context_lines_selected.
    destruct (selected_snippets (m :: results)); [intros H; now elim H|].
    reflexivity.
  - intros HB.
    destruct (make_context_returns E results first rest HB) as (context & Hc & _).
    eauto.
Qed.

(** *** The answer *)

Lemma prefix_append (w a b : string) :
  String.prefix w a = true -> String.prefix w (a +:+ b) = true.
Proof.
  revert a. induction w as [|c w IH]; intros a;
    [intros _; now destruct (a +:+ b)|].
  destruct a as [|c' a]; [discriminate|].
  change (String c' a +:+ b) with (String c' (a +:+ b)).
  cbn [String.prefix].
  destruct (Ascii.ascii_dec c c'); [apply IH | discriminate].
Qed.

Lemma contains_unfold (w s : string) :
  PyStr.contains w s
  = if String.prefix w s then true
    else match s with
         | EmptyString => false
         | String _ s' => PyStr.contains w s'
         end.
Proof. destruct s; reflexivity. Qed.

Lemma contains_append_l (w a b : string) :
  PyStr.contains w a = true -> PyStr.contains w (a +:+ b) = true.
Proof.
  induction a as [|c a IH]; rewrite contains_unfold;
    destruct (String.prefix w _) eqn:Hp; try discriminate; intros H.
  - apply (prefix_append w _ b) in Hp.
    rewrite contains_unfold. now rewrite Hp.
  - apply (prefix_append w _ b) in Hp.
    rewrite contains_unfold. now rewrite Hp.
  - change (String c a +:+ b) with (String c (a +:+ b)).
    rewrite contains_unfold. rewrite (IH H).
    now destruct (String.prefix w (String c (a +:+ b))).
Qed.

Lemma lower_append (a b : string) :
  PyStr.lower (a +:+ b) = PyStr.lower a +:+ PyStr.lower b.
Proof.
  induction a as [|c a IH]; [reflexivity|].
  change (PyStr.lower (String c a +:+ b))
    with (String (PyStr.lower_ascii c) (PyStr.lower (a +:+ b))).
  now rewrite IH.
Qed.

Lemma error_status_message_reads_as_error (r : response) :
  reads_as_error (error_status_message r) = true.
Proof.
  unfold error_status_message.
  destruct (status_code r =? 401); [reflexivity|].
  destruct (status_code r =? 403).
  { destruct (_ || _); reflexivity. }
  destruct (status_code r =? 404); [reflexivity|].
  destruct (status_code r =? 503); [reflexivity|].
  unfold reads_as_error, msg_status. rewrite lower_append.
  apply (any_in_of_contains "error with the ai service").
  - unfold error_indicators. cbn [In]. tauto.
  - apply contains_append_l. vm_compute. reflexivity.
Qed.

Lemma call_with_token (E : Env) (tok prompt : string) :
  configured E tok ->
  call_fingpt_api_try E prompt
  = let* r := requests_post E (HF_API_URL E) tok prompt in
    if negb (status_code r =? 200) then Ret (error_status_message r)
    else match body r with
         | None => Ret msg_invalid_json
         | Some output => read_output E output
         end.
Proof.
  intros (Htok & Hne & Hph). unfold call_fingpt_api_try. rewrite Htok.
  apply truthy_true in Hne. rewrite Hne.
  apply String.eqb_neq in Hph. rewrite Hph. reflexivity.
Qed.

Lemma error_status_message_is_apology (r : response) :
  is_apology (error_status_message r) = true.
Proof.
  unfold error_status_message.
  destruct (status_code r =? 401); [reflexivity|].
  destruct (status_code r =? 403).
  { destruct (_ || _); reflexivity. }
  destruct (status_code r =? 404); [reflexivity|].
  destruct (status_code r =? 503); [reflexivity|].
  unfold is_apology, msg_status. now apply prefix_append.
Qed.

Lemma handler_message_is_apology (e : exn) :
  is_apology
    match e with
    | RequestsTimeout _ => msg_timeout
    | RequestsConnectionError _ => msg_connection
    | _ => msg_unexpected e
    end = true.
Proof.
  destruct e; first [reflexivity | unfold is_apology, msg_unexpected;
                                    now apply prefix_append].
Qed.

Lemma read_output_answers (E : Env) (output : json) :
  match read_output E output with
  | Ret msg =>
      is_apology msg = true
      \/ exists fields others key s,
           output = JArr (JObj fields :: others)
           /\ List.find (fun kv => String.eqb (fst kv) "generated_text") fields
              = Some (key, JStr s)
           /\ msg = PyStr.strip s
  | Raise _ => True
  end.
Proof.
  destruct output as [| | | |l|]; try (left; reflexivity).
  destruct l as [|first others]; [left; reflexivity|].
  cbn [read_output].
  destruct first as [| | |s|l|fields]; cbn [has_generated_text bind]; try exact I.
  - destruct (PyStr.contains "generated_text" s); [exact I | left; reflexivity].
  - destruct (existsb is_generated_text l); [exact I | left; reflexivity].
  - destruct (existsb _ fields); [|left; reflexivity].
    cbn [generated_text].
    destruct (List.find _ fields) as [[key v]|] eqn:Hfind; [|exact I].
    destruct v as [| | |s| |]; try exact I.
    right. now exists fields, others, key, s.
Qed.

(** [X5]: the client never raises, and what it returns is of two
    kinds only: the text the backend generated in a 200 response,
    trimmed, or a message that begins with [I apologize, but]. *)
Theorem client_answers_text_or_apology (E : Env) (prompt : string) :
  exists msg,
    call_fingpt_api E prompt = Ret msg
    /\ (is_apology msg = true
        \/ exists s, generated_by E prompt s /\ msg = PyStr.strip s).
Proof.
  unfold call_fingpt_api, call_fingpt_api_try.
  destruct (HF_API_TOKEN E) as [tok|] eqn:Htok;
    [|eexists; split; [reflexivity | left; reflexivity]].
  destruct (negb (PyStr.truthy tok) || String.eqb tok placeholder_token) eqn:Hc;
    [eexists; split; [reflexivity | left; reflexivity]|].
  assert (Hconf : configured E tok).
  { apply orb_false_iff in Hc. destruct Hc as [Hne Hph].
    apply negb_false_iff, truthy_true in Hne. apply String.eqb_neq in Hph.
    now split. }
  destruct (requests_post E (HF_API_URL E) tok prompt) as [r|ex] eqn:Hpost;
    cbn [bind].
  2:{ eexists. split; [|left; exact (handler_message_is_apology ex)].
      now destruct ex. }
  destruct (status_code r =? 200) eqn:Hstatus; cbn [negb].
  2:{ eexists. split; [reflexivity|]. left.
      apply error_status_message_is_apology. }
  apply Z.eqb_eq in Hstatus.
  destruct (body r) as [output|] eqn:Hbody;
    [|eexists; split; [reflexivity | left; reflexivity]].
  pose proof (read_output_answers E output) as Hread.
  destruct (read_output E output) as [msg|ex].
  - exists msg. split; [reflexivity|].
    destruct Hread as [Hap|(fields & others & key & s & -> & Hfind & ->)];
      [now left|].
    right. exists s. split; [|reflexivity].
    now exists tok, r, fields, others, key.
  - eexists. split; [|left; exact (handler_message_is_apology ex)].
    now destruct ex.
Qed.

(** [X17]: every answer of the backend with a status other than 200
    (401, 403, 404, 503 or any other) is replaced by the local analysis
    of the submitted expenses. *)
Theorem failed_status_is_answered_locally (E : Env) (question : string)
    (expenses : list expense) (prompt tok : string) (r : response) :
  configured E tok ->
  requests_post E (HF_API_URL E) tok prompt = Ret r ->
  status_code r <> 200 ->
  make_answer E question expenses prompt
  = local_expense_analysis E question expenses.
Proof.
  intros Hconf Hpost Hstatus.
  unfold make_answer, call_fingpt_api.
  rewrite (call_with_token E tok prompt Hconf), Hpost. cbn [bind].
  apply Z.eqb_neq in Hstatus. rewrite Hstatus. cbn [negb].
  pose proof (error_status_message_reads_as_error r) as Herr.
  unfold reads_as_error in Herr. cbn [bind]. rewrite Herr.
  now destruct (local_expense_analysis E question expenses).
Qed.

Lemma failed_status_is_answered_locally_witness :
  make_answer server_error_env "What is the total?" [lunch; rent] "prompt"
  = local_expense_analysis server_error_env "What is the total?" [lunch; rent].
Proof.
  apply (failed_status_is_answered_locally server_error_env "What is the total?"
           [lunch; rent] "prompt" "hf_secret" server_error).
  - split; [reflexivity|]. split; discriminate.
  - reflexivity.
  - discriminate.
Defined.

(** [X18]: a failure of the transport or of the body is not replaced by
    the local analysis: when the request times out, the connection
    fails, or a 200 response carries no JSON, a JSON value that is no
    non-empty list, or a first element without [generated_text], the
    apology of the client is the answer the caller gets. *)
Theorem transport_failure_reaches_the_caller (E : Env) (question : string)
    (expenses : list expense) (prompt tok : string) :
  configured E tok ->
  let post := requests_post E (HF_API_URL E) tok prompt in
  let answer := make_answer E question expenses prompt in
  (forall msg, post = Raise (RequestsTimeout msg) -> answer = Ret msg_timeout)
  /\ (forall msg, post = Raise (RequestsConnectionError msg) ->
      answer = Ret msg_connection)
  /\ (forall r, post = Ret r -> status_code r = 200 ->
      match body r with
      | None => answer = Ret msg_invalid_json
      | Some (JArr (JObj fields :: _)) =>
          List.find (fun kv => String.eqb (fst kv) "generated_text") fields = None ->
          answer = Ret msg_no_generated_text
      | Some (JArr (_ :: _)) => True
      | Some _ => answer = Ret msg_unexpected_shape
      end).
Proof.
  intros Hconf. cbn zeta.
  unfold make_answer, call_fingpt_api.
  rewrite (call_with_token E tok prompt Hconf).
  split; [|split].
  - intros msg ->. reflexivity.
  - intros msg ->. reflexivity.
  - intros r -> Hstatus. cbn [bind]. rewrite Hstatus. cbn [Z.eqb negb Pos.eqb].
    destruct (body r) as [output|]; [|reflexivity].
    destruct output as [| | | |l|]; try reflexivity.
    destruct l as [|first l]; [reflexivity|].
    destruct first as [| | | | |fields]; try exact I.
    intros Hnone. cbn [read_output has_generated_text bind].
    assert (Hex : existsb (fun kv : string * json => String.eqb (fst kv) "generated_text")
                    fields = false).
    { clear - Hnone. induction fields as [|kv fields IH]; [reflexivity|].
      cbn [List.find existsb] in Hnone |- *.
      destruct (String.eqb (fst kv) "generated_text"); [discriminate|].
      now apply IH. }
    rewrite Hex. reflexivity.
Qed.

Lemma transport_failure_reaches_the_caller_witness :
  make_answer timeout_env "What is the total?" [lunch; rent] "prompt"
  = Ret msg_timeout.
Proof.
  assert (Hconf : configured timeout_env "hf_secret").
  { split; [reflexivity|]. split; discriminate. }
  destruct (transport_failure_reaches_the_caller timeout_env
              "What is the total?" [lunch; rent] "prompt" "hf_secret" Hconf)
    as (Htimeout & _).
  apply (Htimeout "Read timed out."). reflexivity.
Defined.

(** [X19]: a text the backend generates is the answer, trimmed, unless
    it contains one of the phrases the orchestrator takes for a failure:
    then the local analysis answers instead. *)
Theorem generated_text_is_the_answer (E : Env) (question : string)
    (expenses : list expense) (prompt tok : string) (r : response)
    (fields : list (string * json)) (others : list json) (key s : string) :
  configured E tok ->
  requests_post E (HF_API_URL E) tok prompt = Ret r ->
  status_code r = 200 ->
  body r = Some (JArr (JObj fields :: others)) ->
  List.find (fun kv => String.eqb (fst kv) "generated_text") fields
  = Some (key, JStr s) ->
  make_answer E question expenses prompt
  = if reads_as_error (PyStr.strip s)
    then local_expense_analysis E question expenses
    else Ret (PyStr.strip s).
Proof.
  intros Hconf Hpost Hstatus Hbody Hfind.
  unfold make_answer, call_fingpt_api.
  rewrite (call_with_token E tok prompt Hconf), Hpost. cbn [bind].
  rewrite Hstatus, Hbody. cbn [Z.eqb negb Pos.eqb].
  cbn [read_output has_generated_text bind].
  assert (Hex : existsb (fun kv : string * json => String.eqb (fst kv) "generated_text")
                  fields = true).
  { clear - Hfind. induction fields as [|kv fields IH]; [discriminate|].
    cbn [List.find existsb] in Hfind |- *.
    destruct (String.eqb (fst kv) "generated_text"); [reflexivity|].
    now apply IH. }
  rewrite Hex. unfold generated_text. rewrite Hfind. unfold reads_as_error.
  cbn [bind].
  destruct (PyStr.any_in error_indicators (PyStr.lower (PyStr.strip s)));
    [|reflexivity].
  now destruct (local_expense_analysis E question expenses).
Qed.

Lemma generated_text_is_the_answer_witness :
  make_answer generation_env "What is the total?" [lunch; rent] "prompt"
  = Ret "You spent 500 on food.".
Proof.
  apply (generated_text_is_the_answer generation_env "What is the total?"
           [lunch; rent] "prompt" "hf_secret" generation
           [("generated_text", JStr " You spent 500 on food. ")] []
           "generated_text" " You spent 500 on food. ").
  - split; [reflexivity|]. split; discriminate.
  - reflexivity.
  - reflexivity.
  - reflexivity.
  - reflexivity.
Defined.

(** *** The endpoint *)

Lemma check_expense_dict (i : nat) (r : raw_expense) :
  match missing_fields r with
  | [] => exists e, check_expense i (Dict r) = inr e
  | missing =>
      check_expense i (Dict r)
      = inl ("Invalid expense data: missing " +:+ PyStr.repr_list missing)
  end.
Proof.
  destruct r as [[u|] [a|] [c|] [d|] [dt|] i0]; cbn; try reflexivity.
  now eexists.
Qed.

Lemma validate_dicts (expenses : list raw_expense) :
  forall i : nat,
    match endpoint_check expenses with
    | Some err => validate i (map Dict expenses) = inl err
    | None => exists es, validate i (map Dict expenses) = inr es
    end.
Proof.
  induction expenses as [|r expenses IH]; intros i;
    cbn [endpoint_check map validate]; [now eexists|].
  pose proof (check_expense_dict i r) as Hr.
  destruct (missing_fields r) as [|f missing].
  - destruct Hr as [e ->]. specialize (IH (S i)).
    destruct (endpoint_check expenses) as [err|].
    + now rewrite IH.
    + destruct IH as [es ->]. now eexists.
  - now rewrite Hr.
Qed.

(** [X20]: for a question that is not blank the endpoint answers what
    the orchestrator answers on the same batch: its own checks of the
    batch change nothing, and the state of the process is the one the
    orchestrator leaves. *)
Theorem endpoint_relays_the_orchestrator (E : Env)
    (str_http_exception : Z -> string -> string) (question : string)
    (expenses : list raw_expense) (tget tset : Z) (st : state) :
  PyStr.strip question <> EmptyString ->
  exists result st',
    query_fingpt E question (map Dict expenses) tget tset st = (Ret result, st')
    /\ query_fingpt_endpoint E str_http_exception question expenses tget tset st
       = (Respond result, st').
Proof.
  intros Hq. unfold query_fingpt_endpoint.
  destruct expenses as [|r expenses].
  { exists (QError "No expenses provided to analyze."), st.
    split; [|reflexivity].
    unfold query_fingpt, query_fingpt_try.
    now rewrite (question_accepted question Hq). }
  pose proof (validate_dicts (r :: expenses) 0) as Hv.
  destruct (endpoint_check (r :: expenses)) as [err|].
  - exists (QError err), st. split; [|reflexivity].
    unfold query_fingpt, query_fingpt_try.
    rewrite (question_accepted question Hq).
    cbn [map] in Hv |- *. now rewrite Hv.
  - destruct (query_fingpt_returns E question (map Dict (r :: expenses)) tget tset st)
      as (result & st' & Hres).
    exists result, st'. split; [exact Hres|]. now rewrite Hres.
Qed.

Lemma endpoint_relays_the_orchestrator_witness :
  exists result st',
    query_fingpt online_env "What is the total?" (map Dict [raw_lunch; raw_undated])
      0 1 initial_state = (Ret result, st')
    /\ query_fingpt_endpoint online_env http_text "What is the total?"
         [raw_lunch; raw_undated] 0 1 initial_state
       = (Respond result, st').
Proof.
  apply (endpoint_relays_the_orchestrator online_env http_text
           "What is the total?" [raw_lunch; raw_undated] 0 1 initial_state).
  vm_compute. discriminate.
Defined.

(** [X21]: the endpoint never raises: every request gets a response
    body, never the status 500. A blank question gets the complaint
    about the question only when the batch is in order; an empty batch
    or an expense with a missing field is reported first. *)
Theorem endpoint_never_fails (E : Env)
    (str_http_exception : Z -> string -> string) (question : string)
    (expenses : list raw_expense) (tget tset : Z) (st : state) :
  let response :=
    query_fingpt_endpoint E str_http_exception question expenses tget tset st in
  (exists result st', response = (Respond result, st'))
  /\ (PyStr.strip question = EmptyString ->
      response
      = (Respond
           (QError
              match expenses, endpoint_check expenses with
              | [], _ => "No expenses provided to analyze."
              | _, Some err => err
              | _, None => "Question cannot be empty"
              end), st)).
Proof.
  cbn zeta. unfold query_fingpt_endpoint.
  destruct expenses as [|r expenses].
  { split; [now eexists _, _ | reflexivity]. }
  destruct (endpoint_check (r :: expenses)) as [err|].
  { split; [now eexists _, _ | reflexivity]. }
  destruct (query_fingpt_returns E question (map Dict (r :: expenses)) tget tset st)
    as (result & st' & Hres).
  split.
  - rewrite Hres. now eexists _, _.
  - intros Hblank. unfold query_fingpt, query_fingpt_try.
    rewrite Hblank. cbn [PyStr.truthy negb]. rewrite orb_true_r. reflexivity.
Qed.

(** *** The health report *)

(** [X22]: the health report and the client judge the token alike:
    [hf_token_configured] is true exactly when there is a token the
    client accepts; when it is false no request is sent and every
    answer is the local analysis. *)
Theorem health_token_flag_is_the_client_check (E : Env) (now : string) :
  (hf_token_configured (health_check E now) = true <-> exists tok, configured E tok)
  /\ (hf_token_configured (health_check E now) = false ->
      forall question expenses prompt,
        call_fingpt_api E prompt = Ret msg_not_configured
        /\ make_answer E question expenses prompt
           = local_expense_analysis E question expenses).
Proof.
  unfold health_check, configured. cbn [hf_token_configured].
  split.
  - destruct (HF_API_TOKEN E) as [tok|].
    + rewrite andb_true_iff, negb_true_iff, String.eqb_neq, truthy_true.
      split.
      * intros [Hne Hph]. now exists tok.
      * intros (tok' & [= <-] & Hne & Hph). now split.
    + split; [discriminate | intros (tok' & Habs & _); discriminate].
  - intros Hflag question expenses prompt.
    assert (Hcall : call_fingpt_api E prompt = Ret msg_not_configured).
    { unfold call_fingpt_api, call_fingpt_api_try.
      destruct (HF_API_TOKEN E) as [tok|]; [|reflexivity].
      apply andb_false_iff in Hflag.
      destruct Hflag as [Hflag|Hflag].
      - now rewrite Hflag.
      - apply negb_false_iff in Hflag. rewrite Hflag.
        now rewrite orb_true_r. }
    split; [exact Hcall|].
    unfold make_answer. rewrite Hcall. cbn [bind].
    change (PyStr.any_in error_indicators (PyStr.lower msg_not_configured))
      with true. cbv iota.
    now destruct (local_expense_analysis E question expenses).
Qed.

Lemma health_token_flag_is_the_client_check_witness :
  make_answer no_token_env "What is the total?" [lunch; rent] "prompt"
  = local_expense_analysis no_token_env "What is the total?" [lunch; rent].
Proof.
  destruct (health_token_flag_is_the_client_check no_token_env "2024-01-05T10:00:00")
    as [_ Hoff].
  apply (Hoff eq_refl "What is the total?" [lunch; rent] "prompt").
Defined.

Lemma cache_blank_getitem (k : cache_key) (time : Z)
    (c : TTLCache.t cache_key (list match_)) :
  cache_blank c ->
  cache_blank (snd (TTLCache.getitem k time c))
  /\ forall v, fst (TTLCache.getitem k time c) = Some v -> v = [].
Proof.
  intros Hc. unfold TTLCache.getitem.
  destruct (TTLCache.find k c) as [e|] eqn:Hf; [|split; [exact Hc | discriminate]].
  assert (He : TTLCache.e_value e = []).
  { apply find_some in Hf. destruct Hf as [Hin _].
    unfold cache_blank in Hc. rewrite List.Forall_forall in Hc. now apply Hc. }
  assert (Hc' : cache_blank (TTLCache.remove k c ++ [e])).
  { apply Forall_app. split; [now apply Forall_lfilter|].
    constructor; [exact He | constructor]. }
  destruct (_ <? _); cbn [fst snd]; (split; [exact Hc'|]).
  - intros v Hv. injection Hv as <-. exact He.
  - discriminate.
Qed.

Lemma cache_blank_setitem (k : cache_key) (time : Z)
    (c : TTLCache.t cache_key (list match_)) :
  cache_blank c -> cache_blank (TTLCache.setitem maxsize ttl k [] time c).
Proof.
  intros Hc. unfold TTLCache.setitem.
  assert (He : cache_blank (TTLCache.expire time c)) by now apply Forall_lfilter.
  destruct (_ <? _)%nat; [exact He|].
  apply Forall_app. split; [|now repeat constructor].
  apply Forall_lfilter.
  destruct (TTLCache.find k _); [exact He | now apply Forall_make_room].
Qed.

Lemma offline_retrieval (E : Env) (uid query : string) (top_k tget tset : Z)
    (st : state) :
  cache_blank (query_cache st) ->
  exists st',
    query_user_expenses E None uid query top_k tget tset st = (Ret [], st')
    /\ trace st' = trace st
    /\ cache_blank (query_cache st').
Proof.
  intros Hc. unfold query_user_expenses, query_user_expenses_body.
  destruct (cache_blank_getitem (None, uid, query, top_k) tget _ Hc) as [Hc' Hv].
  destruct (TTLCache.getitem (K:=cache_key) (None, uid, query, top_k) tget
              (query_cache st)) as [[v|] c]; cbn [fst snd] in Hc', Hv.
  - rewrite (Hv v eq_refl). eexists. split; [reflexivity|].
    split; [reflexivity | exact Hc'].
  - eexists. split; [reflexivity|]. split; [reflexivity|].
    cbn [set_cache query_cache]. now apply cache_blank_setitem.
Qed.

Lemma offline_query_fingpt (E : Env) (question : string) (items : list item)
    (tget tset : Z) (st : state) :
  pinecone_index E = None ->
  cache_blank (query_cache st) ->
  trace (snd (query_fingpt E question items tget tset st)) = trace st
  /\ cache_blank (query_cache (snd (query_fingpt E question items tget tset st)))
  /\ forall res,
       fst (query_fingpt E question items tget tset st) = Ret (QSuccess res) ->
       num_chunks res = 0%nat
       /\ exists first rest,
            validate 0 items = inr (first :: rest)
            /\ fallback_context E (first :: rest) = Ret (context_used res).
Proof.
  intros Hidx Hc. unfold query_fingpt, query_fingpt_try.
  destruct (negb _ || negb _);
    [split; [reflexivity|]; split; [exact Hc | discriminate]|].
  destruct items as [|it items];
    [split; [reflexivity|]; split; [exact Hc | discriminate]|].
  destruct (validate 0 (it :: items)) as [err|[|first rest]] eqn:Hv;
    [split; [reflexivity|]; split; [exact Hc | discriminate]
    |split; [reflexivity|]; split; [exact Hc | discriminate]|].
  pose proof (upsert_cases E first rest st) as Hup.
  rewrite Hidx in Hup. rewrite Hup, Hidx.
  destruct (extract_filters_from_query E question (user_id first));
    [|split; [reflexivity|]; split; [exact Hc | discriminate]].
  destruct (offline_retrieval E (user_id first) question 5 tget tset st Hc)
    as (st' & -> & Htr & Hc').
  change (make_context E [] (first :: rest))
    with (fallback_context E (first :: rest)).
  destruct (fallback_context E (first :: rest)) as [context|] eqn:Hfb;
    [|split; [exact Htr|]; split; [exact Hc' | discriminate]].
  unfold build_prompt_try.
  destruct (make_answer E question (first :: rest) _);
    cbn [fst snd]; (split; [exact Htr|]; split; [exact Hc'|]); [|discriminate].
  intros res [= <-]. cbn [num_chunks context_used length].
  split; [reflexivity|]. exists first, rest. now split.
Qed.

Lemma offline_reachable (E : Env) (history : list request) :
  pinecone_index E = None ->
  forall st,
    cache_blank (query_cache st) ->
    trace (run_requests E history st) = trace st
    /\ cache_blank (query_cache (run_requests E history st)).
Proof.
  intros Hidx. induction history as [|r history IH]; intros st Hc;
    [split; [reflexivity | exact Hc]|].
  change (run_requests E (r :: history) st)
    with (run_requests E history (run_request E r st)).
  destruct (offline_query_fingpt E (r_question r) (r_items r) (r_tget r) (r_tset r)
              st Hidx Hc) as (Htr & Hc' & _).
  destruct (IH (run_request E r st) Hc') as [Htr' Hc''].
  split; [|exact Hc''].
  rewrite Htr'. exact Htr.
Qed.

(** [X23]: while the health report says the store is not available,
    every query that is answered was answered without the store: no
    call on it has been made since the process started, no chunk is
    reported, and the context is the rendering of the submitted
    expenses. *)
Theorem unavailable_store_means_raw_context (E : Env) (now : string)
    (history : list request) (question : string) (items : list item)
    (tget tset : Z) (res : answered) (st' : state) :
  pinecone_available (health_check E now) = false ->
  query_fingpt E question items tget tset (run_requests E history initial_state)
  = (Ret (QSuccess res), st') ->
  trace st' = []
  /\ num_chunks res = 0%nat
  /\ exists first rest,
       validate 0 items = inr (first :: rest)
       /\ fallback_context E (first :: rest) = Ret (context_used res).
Proof.
  unfold health_check. cbn [pinecone_available]. intros Havail Hres.
  assert (Hidx : pinecone_index E = None).
  { destruct (pinecone_index E); [discriminate | reflexivity]. }
  assert (Hblank : cache_blank (query_cache initial_state)) by constructor.
  destruct (offline_reachable E history Hidx initial_state Hblank) as [Htr Hc].
  destruct (offline_query_fingpt E question items tget tset _ Hidx Hc)
    as (Htr' & _ & Hsucc).
  rewrite Hres in Htr', Hsucc. cbn [fst snd] in Htr', Hsucc.
  split; [now rewrite Htr', Htr|].
  exact (Hsucc res eq_refl).
Qed.

Lemma unavailable_store_means_raw_context_witness :
  exists res st',
    query_fingpt offline_env "What is the total?" [Dict raw_lunch] 2 3
      (run_requests offline_env
         [{| r_question := "What is the total?"; r_items := [Dict raw_lunch];
             r_tget := 0; r_tset := 1 |}] initial_state)
    = (Ret (QSuccess res), st')
    /\ trace st' = []
    /\ num_chunks res = 0%nat.
Proof.
  eexists _, _. split; [reflexivity|].
  pose proof (unavailable_store_means_raw_context offline_env "2024-01-05T10:00:00"
                [{| r_question := "What is the total?"; r_items := [Dict raw_lunch];
                    r_tget := 0; r_tset := 1 |}]
                "What is the total?" [Dict raw_lunch] 2 3 _ _ eq_refl eq_refl)
    as (Htr & Hn & _).
  split; [exact Htr | exact Hn].
Defined.

(** *** The configuration *)

Lemma not_present (v : option string) : Config.not_ v = false <-> present v.
Proof.
  unfold Config.not_, present. destruct v as [s|].
  - rewrite negb_false_iff, truthy_true. split.
    + intros Hs. now exists s.
    + intros (s' & [= <-] & Hs). exact Hs.
  - split; [discriminate | intros (s & Habs & _); discriminate].
Qed.

(** [X24]: [validate_config] accepts a configuration exactly when the
    Pinecone key, the Hugging Face token and the model are all set and
    not empty; otherwise it raises a [ValueError] that names the ones
    that are not, in the order of the list of required variables. *)
Theorem validate_config_names_what_is_missing (cls : Config.t) :
  (Config.validate_config cls = Ret true
   <-> present (Config.PINECONE_API_KEY cls)
       /\ present (Config.HF_API_TOKEN cls)
       /\ present (Config.HF_MODEL cls))
  /\ (Config.validate_config cls <> Ret true ->
      Config.validate_config cls
      = Raise (ValueError
                 ("Missing required environment variables: "
                  +:+ PyStr.join ", "
                        ((if Config.not_ (Config.PINECONE_API_KEY cls)
                          then ["PINECONE_API_KEY"] else [])
                         ++ (if Config.not_ (Config.HF_API_TOKEN cls)
                             then ["HF_API_TOKEN"] else [])
                         ++ (if Config.not_ (Config.HF_MODEL cls)
                             then ["HF_MODEL"] else []))))).
Proof.
  rewrite <- !not_present.
  unfold Config.validate_config, Config.missing_vars, Config.required_vars.
  cbn [List.filter Config.getattr String.eqb Ascii.eqb Bool.eqb].
  destruct (Config.not_ (Config.PINECONE_API_KEY cls));
    destruct (Config.not_ (Config.HF_API_TOKEN cls));
    destruct (Config.not_ (Config.HF_MODEL cls)); cbn [app];
    (split; [split; [try discriminate; auto | intros (H1 & H2 & H3); first [discriminate | reflexivity]]
            | intros H; first [reflexivity | now elim H]]).
Qed.

Lemma validate_config_names_what_is_missing_witness :
  Config.validate_config no_model_config
  = Raise (ValueError "Missing required environment variables: HF_MODEL").
Proof.
  destruct (validate_config_names_what_is_missing no_model_config) as [_ Hraise].
  apply Hraise. discriminate.
Defined.

(** *** The manager of the store handle *)

Lemma slept_app (log log' : list PineconeManager.call) :
  slept (log ++ log') = slept log + slept log'.
Proof.
  induction log as [|c log IH]; [reflexivity|].
  destruct c; cbn [app slept]; rewrite IH; lia.
Qed.

Lemma slept_after_polls (name : string) (n : nat) :
  forall log, slept (after_polls name log n) = slept log + 2 * Z.of_nat n.
Proof.
  induction n as [|n IH]; intros log; cbn [after_polls]; [lia|].
  rewrite IH, !slept_app. cbn [slept]. lia.
Qed.

Lemma wait_until_ready_ends (C : PineconeManager.Client) (name : string) (n : nat) :
  forall (log : list PineconeManager.call) (fuel : nat),
    (forall k, (k < n)%nat ->
               PineconeManager.describe_index C (after_polls name log k) name
               = Ret false) ->
    (n < fuel)%nat ->
    PineconeManager.wait_until_ready C fuel name log
    = match PineconeManager.describe_index C (after_polls name log n) name with
      | Ret false => PineconeManager.wait_until_ready C (fuel - n) name
                       (after_polls name log n)
      | Ret true =>
          Some (Ret tt,
                after_polls name log n ++ [PineconeManager.CallDescribeIndex name])
      | Raise e =>
          Some (Raise e,
                after_polls name log n ++ [PineconeManager.CallDescribeIndex name])
      end.
Proof.
  induction n as [|n IH]; intros log fuel Hbefore Hfuel.
  - cbn [after_polls]. rewrite Nat.sub_0_r.
    destruct fuel as [|fuel]; [lia|]. cbn [PineconeManager.wait_until_ready].
    destruct (PineconeManager.describe_index C log name) as [[|]|e]; reflexivity.
  - destruct fuel as [|fuel]; [lia|]. cbn [PineconeManager.wait_until_ready].
    pose proof (Hbefore 0%nat ltac:(lia)) as H0. cbn [after_polls] in H0.
    rewrite H0. cbn [after_polls].
    rewrite (IH _ fuel); [reflexivity | | lia].
    intros k Hk. exact (Hbefore (S k) ltac:(lia)).
Qed.

Lemma wait_until_ready_never (C : PineconeManager.Client) (name : string)
    (fuel : nat) :
  forall log : list PineconeManager.call,
    (forall k, PineconeManager.describe_index C (after_polls name log k) name
               = Ret false) ->
    PineconeManager.wait_until_ready C fuel name log = None.
Proof.
  induction fuel as [|fuel IH]; intros log Hnever; [reflexivity|].
  cbn [PineconeManager.wait_until_ready].
  pose proof (Hnever 0%nat) as H0. cbn [after_polls] in H0.
  rewrite H0. apply IH.
  intros k. exact (Hnever (S k)).
Qed.

(** [X25]: the wait for a new index ends with the first poll that finds
    it ready or fails, after two seconds of sleep for every poll before
    it; while every poll finds the index not ready, the wait goes on,
    however many polls are made. *)
Theorem polling_ends_with_the_first_answer (C : PineconeManager.Client)
    (name : string) (log : list PineconeManager.call) :
  (forall n fuel outcome,
     (forall k, (k < n)%nat ->
                PineconeManager.describe_index C (after_polls name log k) name
                = Ret false) ->
     PineconeManager.describe_index C (after_polls name log n) name = outcome ->
     outcome <> Ret false ->
     (n < fuel)%nat ->
     exists log',
       PineconeManager.wait_until_ready C fuel name log
       = Some (match outcome with Ret _ => Ret tt | Raise e => Raise e end, log')
       /\ log' = after_polls name log n ++ [PineconeManager.CallDescribeIndex name]
       /\ slept log' = slept log + 2 * Z.of_nat n)
  /\ ((forall k, PineconeManager.describe_index C (after_polls name log k) name
                 = Ret false) ->
      forall fuel, PineconeManager.wait_until_ready C fuel name log = None).
Proof.
  split.
  - intros n fuel outcome Hbefore Hn Hout Hfuel.
    eexists. split; [|split; [reflexivity|]].
    + rewrite (wait_until_ready_ends C name n log fuel Hbefore Hfuel), Hn.
      destruct outcome as [[|]|e]; [reflexivity | now elim Hout | reflexivity].
    + rewrite slept_app, slept_after_polls. cbn [slept]. lia.
  - intros Hnever fuel. now apply wait_until_ready_never.
Qed.

Lemma polling_ends_with_the_first_answer_witness :
  exists log',
    PineconeManager.wait_until_ready slow_client 3 "budget-bot"
      (creation_log "pc_secret" "budget-bot") = Some (Ret tt, log')
    /\ slept log' = 4.
Proof.
  destruct (polling_ends_with_the_first_answer slow_client "budget-bot"
              (creation_log "pc_secret" "budget-bot")) as [Hends _].
  destruct (Hends 2%nat 3%nat (Ret true)) as (log' & Hwait & _ & Hslept).
  - intros [|[|k]] Hk; [reflexivity | reflexivity | lia].
  - reflexivity.
  - discriminate.
  - lia.
  - exists log'. split; [exact Hwait | exact Hslept].
Defined.

Lemma existsb_eqb_false (name : string) (existing : list string) :
  ~ In name existing -> existsb (String.eqb name) existing = false.
Proof.
  intros Hnot. destruct (existsb (String.eqb name) existing) eqn:Hex; [|reflexivity].
  apply existsb_exists in Hex. destruct Hex as (x & Hin & Heq).
  apply String.eqb_eq in Heq. subst x. now elim Hnot.
Qed.

Lemma init_creates (C : PineconeManager.Client) (key : string)
    (existing : list string) (fuel : nat) :
  PineconeManager.getenv C "PINECONE_API_KEY" = Some key ->
  key <> EmptyString ->
  PineconeManager.Pinecone C key = Ret tt ->
  PineconeManager.list_indexes C [PineconeManager.CallPinecone key] = Ret existing ->
  ~ In (index_name_of C) existing ->
  PineconeManager.create_index C
    [PineconeManager.CallPinecone key; PineconeManager.CallListIndexes]
    (index_name_of C) = Ret tt ->
  let self :=
    {| PineconeManager.api_key := Some key;
       PineconeManager.index_name := index_name_of C;
       PineconeManager.pc := true;
       PineconeManager.index := None |} in
  PineconeManager.__init__ C fuel
  = match PineconeManager.wait_until_ready C fuel (index_name_of C)
            (creation_log key (index_name_of C)) with
    | None => None
    | Some (Raise _, log) => Some (self, log)
    | Some (Ret _, log) =>
        match PineconeManager.Index C log (index_name_of C) with
        | Raise _ =>
            Some (self, log ++ [PineconeManager.CallIndex (index_name_of C)])
        | Ret h =>
            Some (PineconeManager.probe C (PineconeManager.set_index (Some h) self)
                    (log ++ [PineconeManager.CallIndex (index_name_of C)]))
        end
    end.
Proof.
  intros Hkey Hne Hctor Hlist Hnot Hcreate. cbn zeta.
  unfold PineconeManager.__init__. rewrite Hkey.
  fold (index_name_of C).
  cbn [PineconeManager.api_key PineconeManager.index_name].
  apply truthy_true in Hne. rewrite Hne, Hctor. cbn [negb].
  unfold PineconeManager._setup_index.
  cbn [PineconeManager.index_name app]. rewrite Hlist.
  rewrite (existsb_eqb_false _ _ Hnot). cbn [negb].
  unfold PineconeManager._create_index.
  cbn [PineconeManager.index_name app]. rewrite Hcreate.
  unfold creation_log.
  destruct (PineconeManager.wait_until_ready C fuel (index_name_of C) _)
    as [[[[]|e] log]|]; [|reflexivity|reflexivity].
  destruct (PineconeManager.Index C log (index_name_of C)); reflexivity.
Qed.

(** [X26]: the constructor of the manager has no time limit: when it
    has asked for a new index and the service keeps reporting it not
    ready, the constructor does not return, however many polls are
    made. *)
Theorem constructor_waits_without_limit (C : PineconeManager.Client)
    (key : string) (existing : list string) :
  PineconeManager.getenv C "PINECONE_API_KEY" = Some key ->
  key <> EmptyString ->
  PineconeManager.Pinecone C key = Ret tt ->
  PineconeManager.list_indexes C [PineconeManager.CallPinecone key] = Ret existing ->
  ~ In (index_name_of C) existing ->
  PineconeManager.create_index C
    [PineconeManager.CallPinecone key; PineconeManager.CallListIndexes]
    (index_name_of C) = Ret tt ->
  (forall k, PineconeManager.describe_index C
               (after_polls (index_name_of C)
                  (creation_log key (index_name_of C)) k)
               (index_name_of C) = Ret false) ->
  forall fuel, PineconeManager.__init__ C fuel = None.
Proof.
  intros Hkey Hne Hctor Hlist Hnot Hcreate Hnever fuel.
  rewrite (init_creates C key existing fuel Hkey Hne Hctor Hlist Hnot Hcreate).
  now rewrite (wait_until_ready_never C (index_name_of C) fuel _ Hnever).
Qed.

Lemma constructor_waits_without_limit_witness :
  PineconeManager.__init__ stuck_client 1000 = None.
Proof.
  assert (Hnever : forall fuel, PineconeManager.__init__ stuck_client fuel = None).
  { apply (constructor_waits_without_limit stuck_client "pc_secret" []);
      try reflexivity.
    - discriminate.
    - intros []. }
  exact (Hnever 1000%nat).
Defined.

Lemma probe_available (C : PineconeManager.Client)
    (self self' : PineconeManager.manager) (log log' : list PineconeManager.call)
    (h : handle) :
  PineconeManager.probe C self log = (self', log') ->
  PineconeManager.index self' = Some h ->
  self' = self
  /\ log' = log ++ [PineconeManager.CallDescribeIndexStats]
  /\ exists stats, PineconeManager.describe_index_stats C log = Ret stats.
Proof.
  unfold PineconeManager.probe.
  destruct (PineconeManager.index self) as [h0|] eqn:Hidx.
  - destruct (PineconeManager.describe_index_stats C log) as [stats|e].
    + intros [= <- <-] _. split; [reflexivity|]. split; [reflexivity|].
      now exists stats.
    + intros [= <- <-]. discriminate.
  - intros [= <- <-]. congruence.
Qed.

Lemma create_available (C : PineconeManager.Client) (fuel : nat)
    (self self' : PineconeManager.manager) (log log' : list PineconeManager.call)
    (h : handle) :
  PineconeManager._create_index C fuel self log = Some (self', log') ->
  PineconeManager.index self' = Some h ->
  self' = PineconeManager.set_index (Some h) self
  /\ exists calls,
       log' = calls ++ [PineconeManager.CallIndex (PineconeManager.index_name self)]
       /\ PineconeManager.Index C calls (PineconeManager.index_name self) = Ret h.
Proof.
  unfold PineconeManager._create_index.
  destruct (PineconeManager.create_index C log _); [|intros [= <- <-]; discriminate].
  destruct (PineconeManager.wait_until_ready C fuel _ _) as [[[[]|e] log2]|];
    [|intros [= <- <-]; discriminate | discriminate].
  destruct (PineconeManager.Index C log2 _) as [h2|e] eqn:Hidx;
    [|intros [= <- <-]; discriminate].
  intros [= <- <-] [= ->]. split; [reflexivity|].
  now exists log2.
Qed.

Lemma setup_available (C : PineconeManager.Client) (fuel : nat)
    (self self' : PineconeManager.manager) (log log' : list PineconeManager.call)
    (h : handle) :
  PineconeManager._setup_index C fuel self log = Some (self', log') ->
  PineconeManager.index self' = Some h ->
  PineconeManager.index_name self' = PineconeManager.index_name self
  /\ exists calls stats,
       log' = calls ++ [PineconeManager.CallIndex (PineconeManager.index_name self);
                        PineconeManager.CallDescribeIndexStats]
       /\ PineconeManager.Index C calls (PineconeManager.index_name self) = Ret h
       /\ PineconeManager.describe_index_stats C
            (calls ++ [PineconeManager.CallIndex (PineconeManager.index_name self)])
          = Ret stats.
Proof.
  unfold PineconeManager._setup_index.
  destruct (PineconeManager.list_indexes C log) as [existing|e];
    [|intros [= <- <-]; discriminate].
  destruct (negb (existsb _ existing)).
  - destruct (PineconeManager._create_index C fuel self _)
      as [[self1 log2]|] eqn:Hcreate; [|discriminate].
    intros [= Hprobe] Hh.
    destruct (probe_available C self1 self' log2 log' h Hprobe Hh)
      as (-> & -> & stats & Hstats).
    destruct (create_available C fuel self self1 _ log2 h Hcreate Hh)
      as (-> & calls & -> & Hindex).
    split; [reflexivity|]. exists calls, stats.
    rewrite <- app_assoc. auto.
  - destruct (PineconeManager.Index C _ _) as [h0|e] eqn:Hindex;
      [|intros [= <- <-]; discriminate].
    intros [= Hprobe] Hh.
    destruct (probe_available C _ self' _ log' h Hprobe Hh)
      as (-> & -> & stats & Hstats).
    cbn [PineconeManager.set_index PineconeManager.index] in Hh.
    injection Hh as ->.
    split; [reflexivity|]. eexists _, stats.
    rewrite <- app_assoc. auto.
Qed.

(** [X27]: a manager that says the store is available has been given a
    Pinecone key, holds the handle the service returned for its index,
    and has probed it: the last call of the constructor is a
    [describe_index_stats] that the service answered. *)
Theorem available_manager_has_been_probed (C : PineconeManager.Client)
    (fuel : nat) (self : PineconeManager.manager)
    (log : list PineconeManager.call) :
  PineconeManager.__init__ C fuel = Some (self, log) ->
  PineconeManager.is_available self = true ->
  present (PineconeManager.getenv C "PINECONE_API_KEY")
  /\ PineconeManager.index_name self = index_name_of C
  /\ exists h calls stats,
       PineconeManager.get_index self = Some h
       /\ log = calls ++ [PineconeManager.CallIndex (index_name_of C);
                          PineconeManager.CallDescribeIndexStats]
       /\ PineconeManager.Index C calls (index_name_of C) = Ret h
       /\ PineconeManager.describe_index_stats C
            (calls ++ [PineconeManager.CallIndex (index_name_of C)]) = Ret stats.
Proof.
  unfold PineconeManager.is_available, PineconeManager.get_index.
  intros Hinit Havail.
  destruct (PineconeManager.index self) as [h|] eqn:Hh; [clear Havail | discriminate].
  revert Hinit. unfold PineconeManager.__init__. fold (index_name_of C).
  cbn [PineconeManager.api_key PineconeManager.index_name].
  destruct (PineconeManager.getenv C "PINECONE_API_KEY") as [key|] eqn:Hkey;
    [|intros [= <- <-]; discriminate].
  destruct (PyStr.truthy key) eqn:Hne; cbn [negb];
    [|intros [= <- <-]; discriminate].
  destruct (PineconeManager.Pinecone C key); [|intros [= <- <-]; discriminate].
  intros Hsetup.
  destruct (setup_available C fuel _ self _ log h Hsetup Hh)
    as (Hname & calls & stats & Hlog & Hindex & Hstats).
  cbn [PineconeManager.index_name] in Hname, Hlog, Hindex, Hstats.
  split; [exists key; split; [reflexivity | now apply truthy_true]|].
  split; [exact Hname|].
  now exists h, calls, stats.
Qed.

Lemma available_manager_has_been_probed_witness :
  exists self log,
    PineconeManager.__init__ slow_client 3 = Some (self, log)
    /\ PineconeManager.get_index self = Some PineconeIndex
    /\ slept log = 4
    /\ exists calls,
         log = calls ++ [PineconeManager.CallIndex "budget-bot";
                         PineconeManager.CallDescribeIndexStats].
Proof.
  eexists _, _. split; [reflexivity|]. split; [reflexivity|].
  split; [reflexivity|].
  destruct (available_manager_has_been_probed slow_client 3 _ _ eq_refl eq_refl)
    as (_ & _ & h & calls & stats & _ & Hlog & _).
  now exists calls.
Defined.

(** [X28]: an index the service lists is connected to, never created
    again: the constructor returns without a single poll or wait,
    whatever the service would answer to them, and the store is
    available exactly when the service hands out the index and answers
    the probe. *)
Theorem listed_index_is_connected_not_created (C : PineconeManager.Client)
    (key : string) (existing : list string) (fuel : nat) :
  PineconeManager.getenv C "PINECONE_API_KEY" = Some key ->
  key <> EmptyString ->
  PineconeManager.Pinecone C key = Ret tt ->
  PineconeManager.list_indexes C [PineconeManager.CallPinecone key] = Ret existing ->
  In (index_name_of C) existing ->
  let calls := [PineconeManager.CallPinecone key; PineconeManager.CallListIndexes] in
  exists self log,
    PineconeManager.__init__ C fuel = Some (self, log)
    /\ Forall (fun c => creates c = false) log
    /\ (PineconeManager.is_available self = true
        <-> exists h stats,
              PineconeManager.Index C calls (index_name_of C) = Ret h
              /\ PineconeManager.describe_index_stats C
                   (calls ++ [PineconeManager.CallIndex (index_name_of C)])
                 = Ret stats).
Proof.
  intros Hkey Hne Hctor Hlist Hin. cbn zeta.
  unfold PineconeManager.__init__. rewrite Hkey. fold (index_name_of C).
  cbn [PineconeManager.api_key PineconeManager.index_name].
  apply truthy_true in Hne. rewrite Hne, Hctor. cbn [negb].
  unfold PineconeManager._setup_index.
  cbn [PineconeManager.index_name app]. rewrite Hlist.
  assert (Hex : existsb (String.eqb (index_name_of C)) existing = true).
  { apply existsb_exists. exists (index_name_of C).
    split; [exact Hin | apply String.eqb_refl]. }
  rewrite Hex. cbn [negb].
  destruct (PineconeManager.Index C _ (index_name_of C)) as [h|e].
  - unfold PineconeManager.probe, PineconeManager.is_available.
    cbn [PineconeManager.set_index PineconeManager.index app].
    destruct (PineconeManager.describe_index_stats C _) as [stats|e].
    + eexists _, _. split; [reflexivity|].
      split; [repeat constructor|].
      cbn [PineconeManager.index isSome].
      split; [intros _; now exists h, stats | reflexivity].
    + eexists _, _. split; [reflexivity|].
      split; [repeat constructor|].
      cbn [PineconeManager.set_index PineconeManager.index isSome].
      split; [discriminate | intros (h' & stats & _ & Habs); discriminate].
  - eexists _, _. split; [reflexivity|].
    split; [repeat constructor|].
    unfold PineconeManager.is_available.
    cbn [PineconeManager.set_index PineconeManager.index isSome].
    split; [discriminate | intros (h' & stats & Habs & _); discriminate].
Qed.

Lemma listed_index_is_connected_not_created_witness :
  exists self log,
    PineconeManager.__init__ ready_client 0 = Some (self, log)
    /\ Forall (fun c => creates c = false) log
    /\ PineconeManager.is_available self = true.
Proof.
  destruct (listed_index_is_connected_not_created ready_client "pc_secret"
              ["other"; "budget-bot"] 0)
    as (self & log & Hinit & Hlog & Havail);
    try reflexivity.
  - discriminate.
  - cbn. tauto.
  - exists self, log. split; [exact Hinit|]. split; [exact Hlog|].
    apply Havail. now exists PineconeIndex, "{}".
Defined.

(** *** The orchestrator *)

(** [X3]: the first violation found by the validation of the batch ends
    the query with that error, and nothing has been done: no store call,
    no cache access. *)
Theorem invalid_batch_rejected_untouched (E : Env) (question : string)
    (items : list item) (tget tset : Z) (st : state) (err : string) :
  PyStr.strip question <> EmptyString ->
  validate 0 items = inl err ->
  query_fingpt E question items tget tset st = (Ret (QError err), st).
Proof.
  intros Hq Hv. unfold query_fingpt, query_fingpt_try.
  rewrite (question_accepted question Hq).
  destruct items as [|it items]; [discriminate|].
  now rewrite Hv.
Qed.

Lemma invalid_batch_rejected_untouched_witness :
  query_fingpt online_env "What is the total?" [Dict raw_lunch; NotADict] 0 1
    initial_state
  = (Ret (QError "Invalid expense format at index 1"), initial_state).
Proof.
  apply (invalid_batch_rejected_untouched online_env "What is the total?"
           [Dict raw_lunch; NotADict] 0 1 initial_state).
  - vm_compute. discriminate.
  - reflexivity.
Defined.

(** [X4]: without a store handle the pipeline touches no store: a query
    adds nothing to the log of store calls, whatever it is asked. *)
Theorem offline_query_calls_no_store (E : Env) (question : string)
    (items : list item) (tget tset : Z) (st : state) :
  pinecone_index E = None ->
  trace (snd (query_fingpt E question items tget tset st)) = trace st.
Proof.
  intros Hidx.
  destruct (query_fingpt_state E question items tget tset st)
    as [-> | (first & rest & st1 & Hv & Hu & Hst)]; [reflexivity|].
  pose proof (upsert_cases E first rest st) as Hup.
  rewrite Hidx in Hup. rewrite Hup in Hu. injection Hu as <-.
  destruct Hst as [-> | ->]; [reflexivity|]. rewrite Hidx.
  unfold query_user_expenses, query_user_expenses_body.
  destruct (TTLCache.getitem _ tget (query_cache st)) as [[v|] c]; reflexivity.
Qed.

Lemma offline_query_calls_no_store_witness :
  trace (snd (query_fingpt offline_env "What is the total?" [Dict raw_lunch] 0 1
                initial_state)) = trace initial_state.
Proof.
  apply (offline_query_calls_no_store offline_env "What is the total?"
           [Dict raw_lunch] 0 1 initial_state).
  reflexivity.
Defined.

Lemma validate_nonempty (it : item) (items : list item) (i : nat) :
  validate i (it :: items) <> inr [].
Proof.
  cbn [validate]. destruct (check_expense i it); [discriminate|].
  destruct (validate (S i) items); discriminate.
Qed.

Lemma retrieval_returns (E : Env) (index : option handle) (uid query : string)
    (top_k tget tset : Z) (st : state) (flt : filters) :
  extract_filters_from_query E query uid = Ret flt ->
  exists results st',
    query_user_expenses E index uid query top_k tget tset st = (Ret results, st').
Proof.
  intros Hflt. unfold query_user_expenses.
  destruct (TTLCache.getitem (K:=cache_key) (index, uid, query, top_k) tget
              (query_cache st)) as [[v|] c]; [now eexists _, _|].
  destruct index as [h|].
  - destruct (body_returns E h uid query top_k (set_cache c st) flt Hflt)
      as (results & evs & -> & _).
    now eexists _, _.
  - cbn [query_user_expenses_body]. now eexists _, _.
Qed.

Lemma validate_error_head (items : list item) (i : nat) (msg : string) :
  validate i items = inl msg -> exists t, msg = "Invalid expense " +:+ t.
Proof.
  revert i. induction items as [|it items IH]; intros i; cbn [validate];
    [discriminate|].
  destruct (check_expense i it) as [err|e] eqn:Hc.
  - intros Heq. injection Heq as <-. unfold check_expense in Hc.
    destruct it as [|r].
    + injection Hc as <-. now eexists.
    + destruct (raw_user_id r), (raw_amount r), (raw_category r),
        (raw_description r), (raw_date r);
        first [discriminate Hc | injection Hc as <-; now eexists].
  - destruct (validate (S i) items) as [err|es] eqn:Hv; [|discriminate].
    intros Heq. injection Heq as <-. now apply (IH (S i)).
Qed.

Lemma make_answer_raises (E : Env) (question : string) (expenses : list expense)
    (prompt : string) (e : exn) :
  make_answer E question expenses prompt = Raise e ->
  local_expense_analysis E question expenses = Raise e.
Proof.
  unfold make_answer.
  destruct (call_fingpt_api_returns E prompt) as [answer ->]. cbn [bind].
  destruct (PyStr.any_in _ _); [|discriminate].
  destruct (local_expense_analysis E question expenses); [discriminate|].
  tauto.
Qed.

Lemma make_context_raises (E : Env) (results : list match_)
    (expenses : list expense) (e : exn) :
  make_context E results expenses = Raise e ->
  fallback_context E expenses = Raise e.
Proof. unfold make_context. destruct (_ || _); [tauto | discriminate]. Qed.

(** [X29]: what an error result of the orchestrator reports is one of
    seven things: a blank question, an empty batch, the first invalid
    expense, a raise of the upsert step (a batch of several users, or an
    int amount beyond the floats, with a store handle), a failure of the
    filter extraction, a context that cannot be rendered, and a local
    analysis that raises. The messages of a failed retrieval and of a
    failed prompt are never returned. *)
Theorem orchestrator_error_results (E : Env) (question : string)
    (items : list item) (tget tset : Z) (st st' : state) (msg : string) :
  query_fingpt E question items tget tset st = (Ret (QError msg), st') ->
  error_report E question items st msg
  /\ forall detail,
       msg <> "Failed to retrieve context: " +:+ detail
       /\ msg <> "Failed to build prompt: " +:+ detail.
Proof.
  intros Hres.
  assert (Hrep : error_report E question items st msg).
  { revert Hres. unfold query_fingpt, query_fingpt_try, error_report.
    destruct (negb (PyStr.truthy question)
              || negb (PyStr.truthy (PyStr.strip question))) eqn:Hblank.
    { intros [= <- <-]. left. split; [|reflexivity].
      apply orb_true_iff in Hblank. destruct Hblank as [H|H];
        apply negb_true_iff in H.
      - destruct question; [reflexivity | discriminate].
      - destruct (PyStr.strip question); [reflexivity | discriminate]. }
    destruct items as [|it items]; [intros [= <- <-]; right; left; now split|].
    pose proof (validate_nonempty it items 0) as Hne.
    destruct (validate 0 (it :: items)) as [err|[|first rest]] eqn:Hv.
    { intros [= <- <-]. right. right. now left. }
    { now elim Hne. }
    destruct (upsert_expenses_to_pinecone E (first :: rest) st) as [[[]|ex] st1]
      eqn:Hup.
    - destruct (extract_filters_from_query E question (user_id first))
        as [flt|e] eqn:Hflt.
      + destruct (retrieval_returns E (pinecone_index E) (user_id first) question 5
                    tget tset st1 flt Hflt) as (results & st2 & ->).
        destruct (make_context E results (first :: rest)) as [context|e] eqn:Hc.
        * unfold build_prompt_try.
          destruct (make_answer E question (first :: rest) _) as [a|e] eqn:Ha;
            [discriminate|].
          intros [= <- <-]. do 6 right.
          exists first, rest, e. split; [reflexivity|].
          split; [exact (make_answer_raises _ _ _ _ _ Ha) | reflexivity].
        * intros [= <- <-]. do 5 right. left.
          exists first, rest, e. split; [reflexivity|].
          split; [exact (make_context_raises _ _ _ _ Hc) | reflexivity].
      + intros [= <- <-]. do 4 right. left. now exists first, rest, e.
    - destruct (upsert_raise_inv E _ st st1 ex Hup) as (-> & Hidx & Hwhy).
      intros Heq. do 3 right. left. exists (first :: rest), ex.
      split; [reflexivity|]. split; [exact Hup|]. split; [exact Hidx|].
      destruct Hwhy as [[Hmany ->] | [Hone Hdocs]].
      + left. split; [exact Hmany|]. now injection Heq as <-.
      + right. split; [exact Hone|].
        destruct (build_docs_raises E _ _ Hdocs) as (-> & Hbig).
        split; [now injection Heq as <- | exact Hbig]. }
  split; [exact Hrep|].
  intros detail.
  destruct Hrep as [[_ ->]|[[_ ->]|[Hv|[(es & e & _ & _ & _ & [[_ ->]|[_ [-> _]]])
    |[(first & rest & e & _ & _ & ->)|[(first & rest & e & _ & _ & ->)
    |(first & rest & e & _ & _ & ->)]]]]]];
    try (split; discriminate).
  destruct (validate_error_head _ _ _ Hv) as [t ->]. split; discriminate.
Qed.

Lemma orchestrator_error_results_witness :
  query_fingpt online_env "What is the total?" [Dict raw_fortune] 0 1
    initial_state
  = (Ret (QError "Storage error: int too large to convert to float"),
     initial_state)
  /\ error_report online_env "What is the total?" [Dict raw_fortune]
       initial_state "Storage error: int too large to convert to float".
Proof.
  assert (Hres : query_fingpt online_env "What is the total?" [Dict raw_fortune]
                   0 1 initial_state
                 = (Ret (QError "Storage error: int too large to convert to float"),
                    initial_state))
    by (vm_compute; reflexivity).
  split; [exact Hres|].
  exact (proj1 (orchestrator_error_results online_env "What is the total?"
                  [Dict raw_fortune] 0 1 initial_state initial_state _ Hres)).
Defined.

(** [X30]: an error does not undo the write: when the extraction of
    the filters fails, the batch has already been sent to the store, and
    the error result leaves the state of the process as the write left
    it. *)
Theorem failed_extraction_keeps_the_write (E : Env) (question : string)
    (items : list item) (tget tset : Z) (st st1 : state) (first : expense)
    (rest : list expense) (e : exn) :
  PyStr.strip question <> EmptyString ->
  validate 0 items = inr (first :: rest) ->
  upsert_expenses_to_pinecone E (first :: rest) st = (Ret tt, st1) ->
  extract_filters_from_query E question (user_id first) = Raise e ->
  query_fingpt E question items tget tset st
  = (Ret (QError ("Failed to process query filters: " +:+ exn_str e)), st1).
Proof.
  intros Hq Hv Hup Hflt. unfold query_fingpt, query_fingpt_try.
  rewrite (question_accepted question Hq).
  destruct items as [|it items]; [discriminate|].
  now rewrite Hv, Hup, Hflt.
Qed.

Lemma failed_extraction_keeps_the_write_witness :
  exists st1,
    query_fingpt two_dates_online_env "spending from january 2024 to march 2024"
      [Dict raw_lunch] 0 1 initial_state
    = (Ret (QError "Failed to process query filters: Input type must be str"), st1)
    /\ trace st1
       = [EvUpsert Vectors
            [vector_of two_dates_online_env lunch
               "Date: 2024-01-05, Amount: â‚¹500.00, Category: Food, Description: lunch"]].
Proof.
  eexists. split.
  - apply (failed_extraction_keeps_the_write two_dates_online_env
             "spending from january 2024 to march 2024" [Dict raw_lunch] 0 1
             initial_state _ lunch [] (TypeError "Input type must be str")).
    + vm_compute. discriminate.
    + reflexivity.
    + vm_compute. reflexivity.
    + reflexivity.
  - vm_compute. reflexivity.
Defined.
